(** * InfinitycTac: the rules engine and the room client, embedded in Rocq

    The development follows the TypeScript sources:
    - [types/game.ts]            the data model,
    - [utils/gameLogic.ts]       [ClassicGameLogic], [UltimateGameLogic], [GameUtils],
    - [components/GameBoard.tsx] the state derivation of the board component,
    - [services/gameService.ts]  [GameService], over the [rooms] table of the
                                 migration.

    Numbers are integers ([Z]); arrays are lists read with JavaScript's
    indexing (a missing slot is [undefined], reading a slot of [undefined]
    throws a [TypeError]). *)

From Stdlib Require Import ZArith List Bool String Lia.
From stdpp Require Import gmap strings list fin_maps.

Open Scope Z_scope.

(** ** JavaScript values and exceptions *)

Inductive Exn : Type :=
| TypeError
| RangeError
| Error (message : string)
| PostgrestError (code : string).

Inductive result (A : Type) : Type :=
| Ok (a : A)
| Throw (e : Exn).

Arguments Ok {A} a.
Arguments Throw {A} e.

#[global] Instance result_ret : MRet result := fun A a => Ok a.

#[global] Instance result_bind : MBind result := fun A B k m =>
  match m with
  | Ok a => k a
  | Throw e => Throw e
  end.

(** [arr[i]]: [None] stands for [undefined]. *)
Definition index {A} (arr : list A) (i : Z) : option A :=
  if i <? 0 then None else arr !! Z.to_nat i.

(** [xs.map(f)] for an [f] that may throw. *)
Fixpoint map_r {A B} (f : A -> result B) (xs : list A) : result (list B) :=
  match xs with
  | [] => Ok []
  | x :: xs' => y ← f x; ys ← map_r f xs'; Ok (y :: ys)
  end.

(** ** types/game.ts *)

Inductive GameMode : Type := classic | ultimate.

(** [type Symbol = 'X' | 'O' | '']. *)
Inductive Symbol : Type := sX | sO | sEmpty.

(** A slot of a [string[][]] at run time: a symbol, or no string at all
    ([None]): [undefined], as [getLocalBoard] copies it from a read past the
    end of a row, or the [null] that JSON makes of it. Both are falsy and
    differ from every string, which is all the engine asks of a slot. *)
Definition Cell : Type := option Symbol.
Definition Grid : Type := list (list Cell).

(** [PlayerSymbol | null] as the engine produces it: [None] is [null]. *)
Definition Winner : Type := option Symbol.

Definition Symbol_eqb (a b : Symbol) : bool :=
  match a, b with
  | sX, sX | sO, sO | sEmpty, sEmpty => true
  | _, _ => false
  end.

(** [a === b] on slots. *)
Definition Cell_eqb (a b : Cell) : bool :=
  match a, b with
  | Some x, Some y => Symbol_eqb x y
  | None, None => true
  | _, _ => false
  end.

(** Truthiness of a slot: [undefined] and [''] are falsy. *)
Definition truthy (v : Cell) : bool :=
  match v with
  | Some sX | Some sO => true
  | Some sEmpty | None => false
  end.

(** [{ winner, winningLine }]. *)
Record WinResult : Type := mkWinResult {
  winner : Winner;
  winningLine : option (list (list Z))
}.

(** ** utils/gameLogic.ts: ClassicGameLogic *)

(** [grid[row][col]]. *)
Definition cell (grid : Grid) (row col : Z) : result Cell :=
  match index grid row with
  | None => Throw TypeError
  | Some gridRow => Ok (default None (index gridRow col))
  end.

(** [for (let i = lo; i < lo + n; i++) body(i)], left at the first [return]
    ([Ok (Some _)]) or exception. *)
Fixpoint for_upto {A} (n : nat) (i : Z) (body : Z -> result (option A))
  : result (option A) :=
  match n with
  | O => Ok None
  | S n' =>
      match body i with
      | Ok None => for_upto n' (i + 1) body
      | r => r
      end
  end.

(** [for (let i = lo; i < hi; i++) body(i)]. *)
Definition for_range {A} (lo hi : Z) (body : Z -> result (option A))
  : result (option A) :=
  for_upto (Z.to_nat (hi - lo)) lo body.

(** Statements in sequence: the second runs when the first did not return. *)
Definition and_then {A} (s1 s2 : result (option A)) : result (option A) :=
  match s1 with
  | Ok None => s2
  | r => r
  end.

(** The innermost loop of [checkWin], from index [i] on, for the run that
    starts at [(row, col)] and advances by [(dr, dc)]:
    [[
      for (; i < winLength; i++) {
        if (grid[row + i*dr][col + i*dc] !== symbol) { isWin = false; break; }
        line.push([row + i*dr, col + i*dc]);
      }
    ]]
    The result is [(isWin, line)]. *)
Fixpoint collect (n : nat) (i : Z) (grid : Grid) (row col dr dc : Z)
    (symbol : Cell) (line : list (list Z)) : result (bool * list (list Z)) :=
  match n with
  | O => Ok (true, line)
  | S n' =>
      v ← cell grid (row + i * dr) (col + i * dc);
      if Cell_eqb v symbol
      then collect n' (i + 1) grid row col dr dc symbol
             (line ++ [[row + i * dr; col + i * dc]])
      else Ok (false, line)
  end.

(** The body of the two outer loops: the test of the run starting at
    [(row, col)]. *)
Definition probe (grid : Grid) (winLength row col dr dc : Z)
  : result (option WinResult) :=
  symbol ← cell grid row col;
  if truthy symbol then
    '(isWin, line) ← collect (Z.to_nat winLength) 0 grid row col dr dc symbol [];
    if (isWin : bool)
    then Ok (Some {| winner := symbol; winningLine := Some line |})
    else Ok None
  else Ok None.

Module ClassicGameLogic.

Definition checkRows (grid : Grid) (winLength : Z) : result (option WinResult) :=
  let size := Z.of_nat (length grid) in
  for_range 0 size (fun row =>
    for_range 0 (size - winLength + 1) (fun col =>
      probe grid winLength row col 0 1)).

Definition checkColumns (grid : Grid) (winLength : Z) : result (option WinResult) :=
  let size := Z.of_nat (length grid) in
  for_range 0 size (fun col =>
    for_range 0 (size - winLength + 1) (fun row =>
      probe grid winLength row col 1 0)).

Definition checkDiagonals (grid : Grid) (winLength : Z) : result (option WinResult) :=
  let size := Z.of_nat (length grid) in
  for_range 0 (size - winLength + 1) (fun row =>
    for_range 0 (size - winLength + 1) (fun col =>
      probe grid winLength row col 1 1)).

Definition checkAntiDiagonals (grid : Grid) (winLength : Z) : result (option WinResult) :=
  let size := Z.of_nat (length grid) in
  for_range 0 (size - winLength + 1) (fun row =>
    for_range (winLength - 1) size (fun col =>
      probe grid winLength row col 1 (-1))).

Definition checkWin (grid : Grid) (winLength : Z) : result WinResult :=
  r ← and_then (checkRows grid winLength)
         (and_then (checkColumns grid winLength)
            (and_then (checkDiagonals grid winLength)
               (checkAntiDiagonals grid winLength)));
  match r with
  | Some found => Ok found
  | None => Ok {| winner := None; winningLine := None |}
  end.

(** [cell !== '']. *)
Definition filled (c : Cell) : bool := negb (Cell_eqb c (Some sEmpty)).

Definition checkDraw (grid : Grid) : bool :=
  forallb (fun row => forallb filled row) grid.

Definition getCurrentPlayer (grid : Grid) : Symbol :=
  let moveCount := Z.of_nat (length (filter (fun c => filled c = true) (concat grid))) in
  if Z.rem moveCount 2 =? 0 then sX else sO.

(** [grid[row] && grid[row][col] === '']. *)
Definition isValidMove (grid : Grid) (row col : Z) : bool :=
  match index grid row with
  | None => false
  | Some gridRow => Cell_eqb (default None (index gridRow col)) (Some sEmpty)
  end.

End ClassicGameLogic.

(** ** utils/gameLogic.ts: UltimateGameLogic *)

(** [x === null] for an entry read from [localWinners]: a read past the end
    is [undefined], which is not [null]. *)
Definition is_null (v : option Winner) : bool :=
  match v with
  | Some None => true
  | _ => false
  end.

(** [w || '']. *)
Definition or_empty (w : option Winner) : Cell :=
  let v := default None w in
  if truthy v then v else Some sEmpty.

Module UltimateGameLogic.

Definition getLocalBoardIndex (row col : Z) : Z :=
  row / 3 * 3 + col / 3.

Definition getLocalCellCoords (row col : Z) : Z * Z :=
  (Z.rem row 3, Z.rem col 3).

Definition getLocalBoard (grid : Grid) (boardIndex : Z) : result Grid :=
  let startRow := boardIndex / 3 * 3 in
  let startCol := Z.rem boardIndex 3 * 3 in
  map_r (fun row =>
    map_r (fun col => cell grid (startRow + row) (startCol + col)) [0; 1; 2])
    [0; 1; 2].

Definition isLocalBoardFull (grid : Grid) (boardIndex : Z) : result bool :=
  localBoard ← getLocalBoard grid boardIndex;
  Ok (forallb (fun row => forallb ClassicGameLogic.filled row) localBoard).

Definition checkLocalWinner (grid : Grid) (boardIndex : Z) : result Winner :=
  localBoard ← getLocalBoard grid boardIndex;
  result ← ClassicGameLogic.checkWin localBoard 3;
  Ok (winner result).

Definition getLocalWinners (grid : Grid) : result (list Winner) :=
  map_r (fun index => checkLocalWinner grid index) [0; 1; 2; 3; 4; 5; 6; 7; 8].

(** [([row, col]) => [row * 3 + col]]; every entry of a classic winning
    line is a pair, which is the only shape the integer model covers. *)
Definition to_board_index (entry : list Z) : list Z :=
  match entry with
  | [row; col] => [row * 3 + col]
  | _ => []
  end.

Definition checkGlobalWinner (localWinners : list Winner) : result WinResult :=
  let localGrid : Grid :=
    map (fun row =>
      map (fun col => or_empty (index localWinners (row * 3 + col))) [0; 1; 2])
      [0; 1; 2] in
  result ← ClassicGameLogic.checkWin localGrid 3;
  match winningLine result with
  | Some line =>
      let boardWinningLine := map to_board_index line in
      Ok {| winner := winner result; winningLine := Some boardWinningLine |}
  | None => Ok result
  end.

Definition getTargetBoard (lastMoveRow lastMoveCol : Z) (grid : Grid)
    (localWinners : list Winner) : result (option Z) :=
  let '(localRow, localCol) := getLocalCellCoords lastMoveRow lastMoveCol in
  let targetBoardIndex := localRow * 3 + localCol in
  if negb (is_null (index localWinners targetBoardIndex)) then Ok None
  else
    full ← isLocalBoardFull grid targetBoardIndex;
    if (full : bool) then Ok None else Ok (Some targetBoardIndex).

Definition isValidMove (grid : Grid) (row col : Z) (targetBoard : option Z) : bool :=
  match index grid row with
  | None => false
  | Some gridRow =>
      if negb (Cell_eqb (default None (index gridRow col)) (Some sEmpty)) then false
      else
        match targetBoard with
        | None => true
        | Some target =>
            let moveBoard := getLocalBoardIndex row col in
            moveBoard =? target
        end
  end.

Definition checkDraw (grid : Grid) (localWinners : list Winner) : result bool :=
  globalResult ← checkGlobalWinner localWinners;
  if truthy (winner globalResult) then Ok false
  else Ok (forallb (fun row => forallb ClassicGameLogic.filled row) grid).

Definition getCurrentPlayer (grid : Grid) : Symbol :=
  ClassicGameLogic.getCurrentPlayer grid.

End UltimateGameLogic.

(** ** utils/gameLogic.ts: GameUtils *)

(** [Array(n)] accepts the lengths [0 .. 2^32 - 1]. *)
Definition array_length_ok (n : Z) : bool := (0 <=? n) && (n <=? 4294967295).

(** [Array(size).fill(null).map(() => Array(size).fill(''))]. *)
Definition empty_matrix (size : Z) : result Grid :=
  if array_length_ok size
  then Ok (replicate (Z.to_nat size) (replicate (Z.to_nat size) (Some sEmpty)))
  else Throw RangeError.

Module GameUtils.

Definition createEmptyGrid (size : Z) : result Grid := empty_matrix size.

Definition copyGrid (grid : Grid) : Grid := map (fun row => row) grid.

Definition getMoveCount (grid : Grid) : Z :=
  Z.of_nat (length (filter (fun c => ClassicGameLogic.filled c = true) (concat grid))).

End GameUtils.

(** ** The scan of [checkWin], as the specification words it *)

(** A candidate run: its first cell and its direction [(dr, dc)]. *)
Definition Window : Type := Z * Z * (Z * Z).

(** [grid[row][col]] where the row exists ([undefined] elsewhere). *)
Definition at_ (grid : Grid) (row col : Z) : Cell :=
  match index grid row with
  | Some gridRow => default None (index gridRow col)
  | None => None
  end.

(** The [k]-th cell of the run from [(row, col)] in direction [(dr, dc)]. *)
Definition coords_at (row col dr dc : Z) (k : Z) : list Z :=
  [row + k * dr; col + k * dc].

(** Whether the [k]-th cell of the run holds [symbol]. *)
Definition matches_at (grid : Grid) (row col dr dc : Z) (symbol : Cell) (k : Z) : bool :=
  Cell_eqb (at_ grid (row + k * dr) (col + k * dc)) symbol.

(** The coordinates of the [winLength] consecutive cells of a window. *)
Definition run_cells (winLength : Z) (w : Window) : list (list Z) :=
  let '(row, col, (dr, dc)) := w in
  map (coords_at row col dr dc) (seqZ 0 winLength).

(** [winLength] consecutive equal non-empty cells. *)
Definition is_run (grid : Grid) (winLength : Z) (w : Window) : bool :=
  let '(row, col, (dr, dc)) := w in
  truthy (at_ grid row col) &&
  forallb (matches_at grid row col dr dc (at_ grid row col)) (seqZ 0 winLength).

(** Row-major horizontal first, then vertical, then diagonal down-right,
    then diagonal down-left. *)
Definition scan_order (size winLength : Z) : list Window :=
  (row ← seqZ 0 size; col ← seqZ 0 (size - winLength + 1); [(row, col, (0, 1))]) ++
  (col ← seqZ 0 size; row ← seqZ 0 (size - winLength + 1); [(row, col, (1, 0))]) ++
  (row ← seqZ 0 (size - winLength + 1); col ← seqZ 0 (size - winLength + 1);
     [(row, col, (1, 1))]) ++
  (row ← seqZ 0 (size - winLength + 1); col ← seqZ (winLength - 1) (size - winLength + 1);
     [(row, col, (1, -1))]).

(** The first match found in scan order, or [{null, null}]. *)
Definition first_run (grid : Grid) (winLength : Z) : WinResult :=
  match List.find (is_run grid winLength)
          (scan_order (Z.of_nat (length grid)) winLength) with
  | Some (row, col, d) =>
      {| winner := at_ grid row col;
         winningLine := Some (run_cells winLength (row, col, d)) |}
  | None => {| winner := None; winningLine := None |}
  end.

(** The four directions of a line: along a row, along a column, the two
    diagonals. *)
Definition directions : list (Z * Z) := [(0, 1); (1, 0); (1, 1); (1, -1)].

Definition square (grid : Grid) : Prop :=
  Forall (fun row => length row = length grid) grid.

(** What a caller may rely on in the value of [checkWin]. *)
Definition win_supported (grid : Grid) (winLength : Z) (r : WinResult) : Prop :=
  r = {| winner := None; winningLine := None |} ∨
  ∃ (s : Symbol) (line : list (list Z)),
    r = {| winner := Some s; winningLine := Some line |} ∧
    (s = sX ∨ s = sO) ∧
    Z.of_nat (length line) = winLength ∧
    (∃ row col d, d ∈ directions ∧ line = run_cells winLength (row, col, d)) ∧
    Forall (fun entry => ∃ row col,
              entry = [row; col] ∧
              0 <= row < Z.of_nat (length grid) ∧
              0 <= col < Z.of_nat (length grid) ∧
              cell grid row col = Ok (Some s)) line.

Definition checkWin_sound (grid : Grid) (winLength : Z) : Prop :=
  ∃ r, ClassicGameLogic.checkWin grid winLength = Ok r ∧ win_supported grid winLength r.

(** ** types/game.ts: players and rooms *)

Inductive PlayerSymbol : Type := pX | pO | pNone.
Inductive PlayerStatus : Type := player | viewer.

#[global] Instance GameMode_eq_dec : EqDecision GameMode.
Proof. solve_decision. Defined.
#[global] Instance Symbol_eq_dec : EqDecision Symbol.
Proof. solve_decision. Defined.
#[global] Instance PlayerSymbol_eq_dec : EqDecision PlayerSymbol.
Proof. solve_decision. Defined.
#[global] Instance PlayerStatus_eq_dec : EqDecision PlayerStatus.
Proof. solve_decision. Defined.

Record Player : Type := mkPlayer {
  name : string;
  status : PlayerStatus;
  symbol : PlayerSymbol;
  client_id : string
}.

(** Timestamps are instants of the store's clock. *)
Definition Timestamp : Type := Z.

Module GameRoom.
Record t : Type := mk {
  room_code : string;
  mode : GameMode;
  grid_size : option Z;
  win_length : option Z;
  players : list Player;
  grid : Grid;
  restart_votes : gmap string bool;
  match_id : Z;
  created_at : Timestamp;
  updated_at : Timestamp
}.
End GameRoom.

(** ** components/GameBoard.tsx: the game state calculations *)

(** The static members that [class UltimateGameLogic] declares. *)
Inductive UltimateStatic : Type :=
| U_getLocalBoardIndex
| U_getLocalCellCoords
| U_getLocalBoard
| U_isLocalBoardFull
| U_checkLocalWinner
| U_getLocalWinners
| U_checkGlobalWinner
| U_getTargetBoard
| U_isValidMove
| U_checkDraw
| U_getCurrentPlayer.

(** The class object: its own properties, by name. *)
Definition UltimateGameLogic_class : gmap string UltimateStatic :=
  list_to_map
    [ ("getLocalBoardIndex", U_getLocalBoardIndex);
      ("getLocalCellCoords", U_getLocalCellCoords);
      ("getLocalBoard", U_getLocalBoard);
      ("isLocalBoardFull", U_isLocalBoardFull);
      ("checkLocalWinner", U_checkLocalWinner);
      ("getLocalWinners", U_getLocalWinners);
      ("checkGlobalWinner", U_checkGlobalWinner);
      ("getTargetBoard", U_getTargetBoard);
      ("isValidMove", U_isValidMove);
      ("checkDraw", U_checkDraw);
      ("getCurrentPlayer", U_getCurrentPlayer) ]%string.

(** [offlineGameState], set by the effect of the offline view. *)
Record OfflineView : Type := mkOfflineView {
  ov_grid : Grid;
  ov_currentSymbol : option PlayerSymbol;
  ov_targetBoard : option Z;
  ov_mode : GameMode
}.

(** [a ?? b]. *)
Definition nullish {A} (a b : option A) : option A :=
  match a with
  | Some x => Some x
  | None => b
  end.

(** The values the component derives on every render. *)
Record BoardState : Type := mkBoardState {
  bs_gameGrid : Grid;
  bs_mode : GameMode;
  bs_moveCount : Z;
  bs_currentSymbol : option PlayerSymbol;
  bs_classicWin : WinResult;
  bs_classicDraw : bool;
  bs_localWinners : list Winner;
  bs_ultimateGlobal : WinResult;
  bs_ultimateDraw : bool;
  bs_targetBoard : option Z;
  bs_winner : Winner;
  bs_isDraw : bool;
  bs_isGameOver : bool;
  bs_winningLine : option (list (list Z));
  bs_isMyTurn : bool
}.

Section GameBoard.

(** How a call [UltimateGameLogic.m(gameGrid, localWinners)] of a declared
    static [m] evaluates; the derivation below does not depend on it. *)
Variable call_static : UltimateStatic -> Grid -> list Winner -> result (option Z).

(** [UltimateGameLogic[name](gameGrid, localWinners)]: calling a property
    the class does not have is calling [undefined]. *)
Definition call_UltimateGameLogic (name : string) (gameGrid : Grid)
    (localWinners : list Winner) : result (option Z) :=
  match UltimateGameLogic_class !! name with
  | Some m => call_static m gameGrid localWinners
  | None => Throw TypeError
  end.

(** Props and state of one render. *)
Variables (room currentRoom : GameRoom.t) (isOffline : bool)
          (offlineCurrentPlayer : option PlayerSymbol)
          (offlineTargetBoard : option Z)
          (offlineGameState : option OfflineView)
          (currentPlayer : option Player) (inputBlocked : bool).

Definition GameBoard_targetBoard (mode : GameMode) (gameGrid : Grid)
    (localWinners : list Winner) : result (option Z) :=
  if isOffline
  then Ok (nullish (offlineGameState ≫= ov_targetBoard) (nullish offlineTargetBoard None))
  else
    match mode with
    | ultimate => call_UltimateGameLogic "getTargetBoardFromGrid" gameGrid localWinners
    | classic => Ok None
    end.

Definition GameBoard_state : result BoardState :=
  let gameGrid :=
    if isOffline
    then match offlineGameState with
         | Some view => ov_grid view
         | None => GameRoom.grid room
         end
    else GameRoom.grid currentRoom in
  let mode := GameRoom.mode currentRoom in
  let moveCount := GameUtils.getMoveCount gameGrid in
  let currentSymbol :=
    if isOffline
    then nullish (offlineGameState ≫= ov_currentSymbol) offlineCurrentPlayer
    else Some (if Z.rem moveCount 2 =? 0 then pX else pO) in
  classicWin ←
    match mode, GameRoom.win_length currentRoom with
    | classic, Some winLength =>
        if winLength =? 0 then Ok {| winner := None; winningLine := None |}
        else ClassicGameLogic.checkWin gameGrid winLength
    | _, _ => Ok {| winner := None; winningLine := None |}
    end;
  let classicDraw :=
    bool_decide (mode = classic) && negb (truthy (winner classicWin))
    && ClassicGameLogic.checkDraw gameGrid in
  localWinners ←
    match mode with
    | ultimate => UltimateGameLogic.getLocalWinners gameGrid
    | classic => Ok []
    end;
  ultimateGlobal ←
    match mode with
    | ultimate => UltimateGameLogic.checkGlobalWinner localWinners
    | classic => Ok {| winner := None; winningLine := None |}
    end;
  ultimateDraw ←
    match mode with
    | ultimate =>
        if negb (truthy (winner ultimateGlobal))
        then UltimateGameLogic.checkDraw gameGrid localWinners
        else Ok false
    | classic => Ok false
    end;
  targetBoard ← GameBoard_targetBoard mode gameGrid localWinners;
  let winner_ :=
    match mode with
    | classic => winner classicWin
    | ultimate => winner ultimateGlobal
    end in
  let isDraw := match mode with classic => classicDraw | ultimate => ultimateDraw end in
  let isGameOver := bool_decide (winner_ ≠ None) || isDraw in
  let winningLine_ :=
    match mode with
    | classic => winningLine classicWin
    | ultimate => winningLine ultimateGlobal
    end in
  let isMyTurn :=
    isOffline ||
    match currentPlayer with
    | Some p =>
        bool_decide (status p = player) &&
        bool_decide (Some (symbol p) = currentSymbol) &&
        negb inputBlocked && negb isGameOver
    | None => false
    end in
  Ok {| bs_gameGrid := gameGrid; bs_mode := mode; bs_moveCount := moveCount;
        bs_currentSymbol := currentSymbol; bs_classicWin := classicWin;
        bs_classicDraw := classicDraw; bs_localWinners := localWinners;
        bs_ultimateGlobal := ultimateGlobal; bs_ultimateDraw := ultimateDraw;
        bs_targetBoard := targetBoard; bs_winner := winner_; bs_isDraw := isDraw;
        bs_isGameOver := isGameOver; bs_winningLine := winningLine_;
        bs_isMyTurn := isMyTurn |}.

(** The guard of [handleCellClick]: the click goes on to a move when it is
    the user's turn and the rules engine accepts the cell. *)
Definition handleCellClick_accepts (st : BoardState) (row col : Z) : bool :=
  if negb (bs_isMyTurn st) then false
  else
    match bs_mode st with
    | classic => ClassicGameLogic.isValidMove (bs_gameGrid st) row col
    | ultimate =>
        UltimateGameLogic.isValidMove (bs_gameGrid st) row col (bs_targetBoard st)
    end.

(** A render followed by a click on [(row, col)]. *)
Definition GameBoard_click (row col : Z) : result bool :=
  st ← GameBoard_state;
  Ok (handleCellClick_accepts st row col).

End GameBoard.

(** ** The [rooms] table (supabase/migrations) *)

(** A JSON text, represented by the matrix it encodes: [JSON.stringify]
    builds it and [JSON.parse] reads it back. *)
Inductive JsonText : Type := JSON_stringify (g : Grid).

Definition JSON_parse (text : JsonText) : Grid :=
  match text with
  | JSON_stringify g => g
  end.

Module RoomRow.
Record t : Type := mk {
  room_code : string;                  (* TEXT PRIMARY KEY *)
  mode : GameMode;                     (* CHECK (mode IN ('classic', 'ultimate')) *)
  grid_size : option Z;                (* INT NULL *)
  win_length : option Z;               (* INT NULL *)
  players : list Player;               (* JSONB *)
  grid : list JsonText;                (* TEXT[][] *)
  restart_votes : gmap string bool;    (* JSONB *)
  match_id : Z;                        (* INT *)
  created_at : Timestamp;
  updated_at : Timestamp
}.
End RoomRow.

(** The column constraints:
    [CHECK (grid_size >= 3 AND grid_size <= 10)], [CHECK (win_length >= 3)]
    (a [NULL] passes a check). *)
Definition column_checks (r : RoomRow.t) : bool :=
  match RoomRow.grid_size r with
  | Some n => (3 <=? n) && (n <=? 10)
  | None => true
  end &&
  match RoomRow.win_length r with
  | Some n => 3 <=? n
  | None => true
  end.

(** The trigger [validate_classic_settings]: [true] when it lets the row
    through. *)
Definition validate_classic_settings (r : RoomRow.t) : bool :=
  negb (bool_decide (RoomRow.mode r = classic) &&
        match RoomRow.grid_size r, RoomRow.win_length r with
        | Some gridSize, Some winLength => gridSize <? winLength
        | _, _ => true
        end).

(** A column of type [INT] holds a 32-bit signed integer. A number outside
    that range is refused with error [22003] when the statement reads its
    values, before any trigger or check runs. *)
Definition int4 (n : Z) : bool := (-2147483648 <=? n) && (n <=? 2147483647).

(** The three [INT] columns: [grid_size], [win_length], [match_id]. *)
Definition int_columns (r : RoomRow.t) : bool :=
  from_option int4 true (RoomRow.grid_size r) &&
  from_option int4 true (RoomRow.win_length r) &&
  int4 (RoomRow.match_id r).

(** What every stored row satisfies. *)
Definition row_accepted (r : RoomRow.t) : bool :=
  validate_classic_settings r && column_checks r && int_columns r.

(** The object passed to [.update(...)]: the columns it names. *)
Record Patch : Type := mkPatch {
  set_players : option (list Player);
  set_grid : option (list JsonText);
  set_restart_votes : option (gmap string bool);
  set_match_id : option Z
}.

Definition apply_patch (p : Patch) (r : RoomRow.t) : RoomRow.t :=
  {| RoomRow.room_code := RoomRow.room_code r;
     RoomRow.mode := RoomRow.mode r;
     RoomRow.grid_size := RoomRow.grid_size r;
     RoomRow.win_length := RoomRow.win_length r;
     RoomRow.players := default (RoomRow.players r) (set_players p);
     RoomRow.grid := default (RoomRow.grid r) (set_grid p);
     RoomRow.restart_votes := default (RoomRow.restart_votes r) (set_restart_votes p);
     RoomRow.match_id := default (RoomRow.match_id r) (set_match_id p);
     RoomRow.created_at := RoomRow.created_at r;
     RoomRow.updated_at := RoomRow.updated_at r |}.

(** The trigger [update_updated_at_column]. *)
Definition update_updated_at_column (now : Timestamp) (r : RoomRow.t) : RoomRow.t :=
  {| RoomRow.room_code := RoomRow.room_code r;
     RoomRow.mode := RoomRow.mode r;
     RoomRow.grid_size := RoomRow.grid_size r;
     RoomRow.win_length := RoomRow.win_length r;
     RoomRow.players := RoomRow.players r;
     RoomRow.grid := RoomRow.grid r;
     RoomRow.restart_votes := RoomRow.restart_votes r;
     RoomRow.match_id := RoomRow.match_id r;
     RoomRow.created_at := RoomRow.created_at r;
     RoomRow.updated_at := now |}.

(** ** The world of the client: store, browser, randomness *)

(** What the client does to the outside, in order. *)
Inductive Event : Type :=
| GetRandomValues (count : nat)
| RandomUUID
| SelectRoomCode (roomCode : string)       (* select('room_code').eq(..).maybeSingle() *)
| SelectSingle (roomCode : string)         (* select('*').eq(..).single() *)
| Insert (roomCode : string)               (* insert(..).select().single() *)
| Update (roomCode : string) (p : Patch)   (* update(..).eq(..) *)
| SetItem (key value : string).            (* localStorage.setItem *)

Record World : Type := mkWorld {
  rooms : gmap string RoomRow.t;       (* the table, by primary key *)
  localStorage : gmap string string;
  now : Timestamp;                     (* the store's clock *)
  random_bytes : nat -> Z;             (* what crypto.getRandomValues delivers *)
  bytes_drawn : nat;
  random_uuids : nat -> string;        (* what crypto.randomUUID delivers *)
  uuids_drawn : nat;
  trace : list Event
}.

(** Computations of the client: they may throw and they act on the world. *)
Definition M (A : Type) : Type := World -> result A * World.

#[global] Instance M_ret : MRet M := fun A a w => (Ok a, w).

#[global] Instance M_bind : MBind M := fun A B k m w =>
  match m w with
  | (Ok a, w') => k a w'
  | (Throw e, w') => (Throw e, w')
  end.

Definition throw {A} (e : Exn) : M A := fun w => (Throw e, w).

Definition lift {A} (r : result A) : M A := fun w => (r, w).

Definition log (ev : Event) (w : World) : World :=
  {| rooms := rooms w; localStorage := localStorage w; now := now w;
     random_bytes := random_bytes w; bytes_drawn := bytes_drawn w;
     random_uuids := random_uuids w; uuids_drawn := uuids_drawn w;
     trace := trace w ++ [ev] |}.

Definition with_rooms (t : gmap string RoomRow.t) (w : World) : World :=
  {| rooms := t; localStorage := localStorage w; now := now w;
     random_bytes := random_bytes w; bytes_drawn := bytes_drawn w;
     random_uuids := random_uuids w; uuids_drawn := uuids_drawn w;
     trace := trace w |}.

(** [crypto.getRandomValues(new Uint8Array(count))]. *)
Definition getRandomValues (count : nat) : M (list Z) := fun w =>
  (Ok (map (fun i => random_bytes w (bytes_drawn w + i)%nat mod 256) (seq 0 count)),
   log (GetRandomValues count)
     {| rooms := rooms w; localStorage := localStorage w; now := now w;
        random_bytes := random_bytes w; bytes_drawn := (bytes_drawn w + count)%nat;
        random_uuids := random_uuids w; uuids_drawn := uuids_drawn w;
        trace := trace w |}).

(** [crypto.randomUUID()]. *)
Definition randomUUID : M string := fun w =>
  (Ok (random_uuids w (uuids_drawn w)),
   log RandomUUID
     {| rooms := rooms w; localStorage := localStorage w; now := now w;
        random_bytes := random_bytes w; bytes_drawn := bytes_drawn w;
        random_uuids := random_uuids w; uuids_drawn := S (uuids_drawn w);
        trace := trace w |}).

(** [localStorage.setItem(key, value)]. *)
Definition setItem (key value : string) : M unit := fun w =>
  (Ok tt,
   log (SetItem key value)
     {| rooms := rooms w; localStorage := <[key := value]> (localStorage w); now := now w;
        random_bytes := random_bytes w; bytes_drawn := bytes_drawn w;
        random_uuids := random_uuids w; uuids_drawn := uuids_drawn w;
        trace := trace w |}).

(** [from('rooms').select('room_code').eq('room_code', c).maybeSingle()]:
    the [data] of the answer. *)
Definition select_room_code (roomCode : string) : M (option string) := fun w =>
  (Ok (RoomRow.room_code <$> rooms w !! roomCode), log (SelectRoomCode roomCode) w).

(** [from('rooms').select('*').eq('room_code', c).single()]: [(data, error)];
    no row is an error. *)
Definition select_single (roomCode : string) : M (option RoomRow.t * option Exn) := fun w =>
  (Ok match rooms w !! roomCode with
      | Some r => (Some r, None)
      | None => (None, Some (PostgrestError "PGRST116"))
      end,
   log (SelectSingle roomCode) w).

(** The columns an insert leaves out take [DEFAULT now()]. *)
Definition timestamp_defaults (now : Timestamp) (r : RoomRow.t) : RoomRow.t :=
  {| RoomRow.room_code := RoomRow.room_code r;
     RoomRow.mode := RoomRow.mode r;
     RoomRow.grid_size := RoomRow.grid_size r;
     RoomRow.win_length := RoomRow.win_length r;
     RoomRow.players := RoomRow.players r;
     RoomRow.grid := RoomRow.grid r;
     RoomRow.restart_votes := RoomRow.restart_votes r;
     RoomRow.match_id := RoomRow.match_id r;
     RoomRow.created_at := now;
     RoomRow.updated_at := now |}.

(** [from('rooms').insert(r).select().single()]: [(data, error)]. *)
Definition insert_select_single (r : RoomRow.t) : M (option RoomRow.t * option Exn) := fun w =>
  let w' := log (Insert (RoomRow.room_code r)) w in
  let stored := timestamp_defaults (now w) r in
  match rooms w !! RoomRow.room_code r with
  | Some _ => (Ok (None, Some (PostgrestError "23505")), w')
  | None =>
      if negb (int_columns stored) then
        (Ok (None, Some (PostgrestError "22003")), w')
      else if negb (validate_classic_settings stored) then
        (Ok (None, Some (PostgrestError "P0001")), w')
      else if negb (column_checks stored) then
        (Ok (None, Some (PostgrestError "23514")), w')
      else
        (Ok (Some stored, None),
         with_rooms (<[RoomRow.room_code r := stored]> (rooms w)) w')
  end.

(** [from('rooms').update(p).eq('room_code', c)]: the [error]. The new
    values must fit their columns; then both triggers run before the row is
    checked and written. A refused update leaves the row as it was. *)
Definition update_eq (roomCode : string) (p : Patch) : M (option Exn) := fun w =>
  let w' := log (Update roomCode p) w in
  match rooms w !! roomCode with
  | None => (Ok None, w')
  | Some r =>
      let r' := update_updated_at_column (now w) (apply_patch p r) in
      if negb (int_columns r') then
        (Ok (Some (PostgrestError "22003")), w')
      else if negb (validate_classic_settings r') then
        (Ok (Some (PostgrestError "P0001")), w')
      else if negb (column_checks r') then
        (Ok (Some (PostgrestError "23514")), w')
      else (Ok None, with_rooms (<[roomCode := r']> (rooms w)) w')
  end.

(** ** services/gameService.ts: GameService *)

Module GameService.

Definition chars : string := "0123456789ABCDEF".

(** [chars[byte % 16]], appended to a string. *)
Definition hex_digit (byte : Z) : string :=
  match String.get (Z.to_nat (Z.rem byte 16)) chars with
  | Some ch => String ch EmptyString
  | None => "undefined"
  end.

Definition generateRoomCode : M string :=
  array ← getRandomValues 5;
  mret (foldl (fun result byte => result +:+ hex_digit byte) EmptyString array).

Definition createEmptyGrid (mode : GameMode) (gridSize : option Z)
  : result (list JsonText) :=
  let size :=
    match mode with
    | ultimate => 9
    | classic =>
        match gridSize with
        | Some n => if n =? 0 then 3 else n
        | None => 3
        end
    end in
  grid ← empty_matrix size;
  Ok [JSON_stringify grid].

Definition parseGrid (gridData : list JsonText) : Grid :=
  match gridData with
  | text :: _ => JSON_parse text
  | [] => []
  end.

Definition maxAttempts : Z := 10.

(** The loop [while (attempts < maxAttempts) { ... }] of [createRoom],
    entered with [maxAttempts - attempts = remaining]; its result is
    [(roomCode, attempts)] on leaving. *)
Fixpoint unique_code_loop (remaining : nat) (roomCode : string) (attempts : Z)
  : M (string * Z) :=
  match remaining with
  | O => mret (roomCode, attempts)
  | S remaining' =>
      roomCode ← generateRoomCode;
      existing ← select_room_code roomCode;
      match existing with
      | None => mret (roomCode, attempts)
      | Some _ => unique_code_loop remaining' roomCode (attempts + 1)
      end
  end.

Definition to_GameRoom (data : RoomRow.t) : GameRoom.t :=
  {| GameRoom.room_code := RoomRow.room_code data;
     GameRoom.mode := RoomRow.mode data;
     GameRoom.grid_size := RoomRow.grid_size data;
     GameRoom.win_length := RoomRow.win_length data;
     GameRoom.players := RoomRow.players data;
     GameRoom.grid := parseGrid (RoomRow.grid data);
     GameRoom.restart_votes := RoomRow.restart_votes data;
     GameRoom.match_id := RoomRow.match_id data;
     GameRoom.created_at := RoomRow.created_at data;
     GameRoom.updated_at := RoomRow.updated_at data |}.

Definition createRoom (mode : GameMode) (playerName : string)
    (gridSize winLength : option Z) : M GameRoom.t :=
  '(roomCode, attempts) ← unique_code_loop (Z.to_nat maxAttempts) EmptyString 0;
  if attempts =? maxAttempts
  then throw (Error "Failed to generate unique room code")
  else
    clientId ← randomUUID;
    let player_ :=
      {| name := playerName; status := player; symbol := pX; client_id := clientId |} in
    grid ← lift (createEmptyGrid mode gridSize);
    let roomData :=
      {| RoomRow.room_code := roomCode;
         RoomRow.mode := mode;
         RoomRow.grid_size := match mode with classic => gridSize | ultimate => None end;
         RoomRow.win_length := match mode with classic => winLength | ultimate => None end;
         RoomRow.players := [player_];
         RoomRow.grid := grid;
         RoomRow.restart_votes := ∅;
         RoomRow.match_id := 0;
         RoomRow.created_at := 0;
         RoomRow.updated_at := 0 |} in
    '(data, error) ← insert_select_single roomData;
    match error, data with
    | Some e, _ => throw e
    | None, None => throw TypeError
    | None, Some data =>
        _ ← setItem ("client_id_" +:+ roomCode) clientId;
        mret (to_GameRoom data)
    end.

(** [gridRow.map((cell, colIndex) => rowIndex === row && colIndex === col
    ? symbol : cell)], for all rows. *)
Definition place (currentGrid : Grid) (row col : Z) (symbol : Symbol) : Grid :=
  imap (fun rowIndex gridRow =>
    imap (fun colIndex cell =>
      if (Z.of_nat rowIndex =? row) && (Z.of_nat colIndex =? col)
      then Some symbol else cell) gridRow) currentGrid.

Definition grid_patch (g : Grid) : Patch :=
  {| set_players := None; set_grid := Some [JSON_stringify g];
     set_restart_votes := None; set_match_id := None |}.

Definition makeMove (roomCode : string) (row col : Z) (symbol : Symbol) : M unit :=
  '(room, fetchError) ← select_single roomCode;
  match fetchError, room with
  | Some e, _ => throw e
  | None, None => throw (Error "Room not found")
  | None, Some room =>
      let currentGrid := parseGrid (RoomRow.grid room) in
      let newGrid := place currentGrid row col symbol in
      updateError ← update_eq roomCode (grid_patch newGrid);
      match updateError with
      | Some e => throw e
      | None => mret tt
      end
  end.

Definition reset_patch (emptyGrid : Grid) (currentMatchId : Z) : Patch :=
  {| set_players := None; set_grid := Some [JSON_stringify emptyGrid];
     set_restart_votes := Some ∅; set_match_id := Some (currentMatchId + 1) |}.

Definition resetGame (roomCode : string) (currentMatchId : Z) : M unit :=
  '(room, fetchError) ← select_single roomCode;
  match fetchError, room with
  | Some e, _ => throw e
  | None, None => throw (Error "Room not found")
  | None, Some room =>
      if negb (RoomRow.match_id room =? currentMatchId) then mret tt
      else
        let gridSize :=
          match RoomRow.mode room with
          | ultimate => 9
          | classic =>
              match RoomRow.grid_size room with
              | Some n => if n =? 0 then 3 else n
              | None => 3
              end
          end in
        emptyGrid ← lift (empty_matrix gridSize);
        updateError ← update_eq roomCode (reset_patch emptyGrid currentMatchId);
        match updateError with
        | Some e => throw e
        | None => mret tt
        end
  end.

End GameService.

(** ** Definitions the statements use, and sample inputs *)

(** The first element of a list on which a partial function is defined. *)
Fixpoint first_some {A B} (f : A -> option B) (l : list A) : option B :=
  match l with
  | [] => None
  | x :: l' =>
      match f x with
      | Some b => Some b
      | None => first_some f l'
      end
  end.

(** The test of one window, as a pure function. *)
Definition run_at (grid : Grid) (winLength : Z) (w : Window) : option WinResult :=
  if is_run grid winLength w
  then Some {| winner := at_ grid w.1.1 w.1.2;
               winningLine := Some (run_cells winLength w) |}
  else None.

Definition grid9 (grid : Grid) : Prop :=
  length grid = 9%nat ∧ Forall (fun row => length row = 9%nat) grid.

(** The sub-board [boardIndex], read without exceptions. *)
Definition local_board (grid : Grid) (boardIndex : Z) : Grid :=
  map (fun row =>
    map (fun col => at_ grid (boardIndex / 3 * 3 + row) (Z.rem boardIndex 3 * 3 + col))
      [0; 1; 2])
    [0; 1; 2].

Definition g_example : Grid :=
  [ [Some sX; Some sX; Some sX];
    [Some sO; Some sO; Some sEmpty];
    [Some sEmpty; Some sEmpty; Some sEmpty] ].

(** X holds the top of column 0, O holds the end of row 3. *)
Definition g_both : Grid :=
  [ [Some sX; Some sEmpty; Some sEmpty; Some sEmpty];
    [Some sX; Some sEmpty; Some sEmpty; Some sEmpty];
    [Some sX; Some sEmpty; Some sEmpty; Some sEmpty];
    [Some sEmpty; Some sO; Some sO; Some sO] ].

Definition eRow : list Cell := replicate 9 (Some sEmpty).

(** Sub-board 0 is won by X along its top row; everything else is empty. *)
Definition g_won0 : Grid :=
  (replicate 3 (Some sX) ++ replicate 6 (Some sEmpty)) :: replicate 8 eRow.

(** C2 as stated: a free move is accepted only into a sub-board that is
    neither won nor full. *)
Definition free_move_restricted (grid : Grid) (row col : Z) : Prop :=
  UltimateGameLogic.isValidMove grid row col None = true →
  cell grid row col = Ok (Some sEmpty) ∧
  UltimateGameLogic.checkLocalWinner grid (UltimateGameLogic.getLocalBoardIndex row col)
    = Ok None ∧
  UltimateGameLogic.isLocalBoardFull grid (UltimateGameLogic.getLocalBoardIndex row col)
    = Ok false.

(** The meta-grid that [checkGlobalWinner] builds from the local winners. *)
Definition meta_grid (localWinners : list Winner) : Grid :=
  map (fun row =>
    map (fun col => or_empty (index localWinners (row * 3 + col))) [0; 1; 2])
    [0; 1; 2].

Definition g_full : Grid := replicate 9 (replicate 9 (Some sX)).

Definition room_ultimate : GameRoom.t :=
  {| GameRoom.room_code := "0A1B2"; GameRoom.mode := ultimate;
     GameRoom.grid_size := None; GameRoom.win_length := None;
     GameRoom.players := []; GameRoom.grid := replicate 9 eRow;
     GameRoom.restart_votes := ∅; GameRoom.match_id := 0;
     GameRoom.created_at := 0; GameRoom.updated_at := 0 |}.

(** A world with one classic 3x3 room, "00000", whose centre is taken. *)
Definition row0 : RoomRow.t :=
  {| RoomRow.room_code := "00000"; RoomRow.mode := classic;
     RoomRow.grid_size := Some 3; RoomRow.win_length := Some 3;
     RoomRow.players :=
       [ {| name := "Ann"; status := player; symbol := pX; client_id := "c1" |} ];
     RoomRow.grid :=
       [ JSON_stringify
           [ [Some sEmpty; Some sEmpty; Some sEmpty];
             [Some sEmpty; Some sX; Some sEmpty];
             [Some sEmpty; Some sEmpty; Some sEmpty] ] ];
     RoomRow.restart_votes := {[ "X"%string := true ]};
     RoomRow.match_id := 4;
     RoomRow.created_at := 10; RoomRow.updated_at := 20 |}.

Definition w0 : World :=
  {| rooms := {[ "00000"%string := row0 ]}; localStorage := ∅; now := 100;
     random_bytes := fun _ => 0; bytes_drawn := 0;
     random_uuids := fun _ => "uuid"%string; uuids_drawn := 0; trace := [] |}.

(** The same room with its match counter at the largest [INT]. *)
Definition row_max : RoomRow.t :=
  {| RoomRow.room_code := "00000"; RoomRow.mode := classic;
     RoomRow.grid_size := Some 3; RoomRow.win_length := Some 3;
     RoomRow.players := RoomRow.players row0;
     RoomRow.grid := RoomRow.grid row0;
     RoomRow.restart_votes := RoomRow.restart_votes row0;
     RoomRow.match_id := 2147483647;
     RoomRow.created_at := 10; RoomRow.updated_at := 20 |}.

Definition w_max : World :=
  {| rooms := {[ "00000"%string := row_max ]}; localStorage := ∅; now := 100;
     random_bytes := fun _ => 0; bytes_drawn := 0;
     random_uuids := fun _ => "uuid"%string; uuids_drawn := 0; trace := [] |}.

(** The size of a room's grid: 9 for ultimate, [grid_size] or 3 for classic. *)
Definition room_size (r : RoomRow.t) : Z :=
  match RoomRow.mode r with
  | ultimate => 9
  | classic => default 3 (RoomRow.grid_size r)
  end.

Definition all_empty (size : Z) : Grid :=
  replicate (Z.to_nat size) (replicate (Z.to_nat size) (Some sEmpty)).

(** C8 as stated, for a row whose [match_id] is [currentMatchId]: after
    [resetGame] the row holds the all-empty grid of the room's size, no votes
    and the next match counter. *)
Definition reset_increments (w : World) (roomCode : string) (r : RoomRow.t)
    (currentMatchId : Z) : Prop :=
  RoomRow.match_id r = currentMatchId →
  ∃ r',
    rooms (GameService.resetGame roomCode currentMatchId w).2 !! roomCode = Some r' ∧
    RoomRow.grid r' = [JSON_stringify (all_empty (room_size r))] ∧
    RoomRow.restart_votes r' = ∅ ∧
    RoomRow.match_id r' = currentMatchId + 1.

(** The code that the [k]-th next call of [generateRoomCode] produces. *)
Definition nth_code (w : World) (k : nat) : string :=
  foldl (fun result byte => result +:+ GameService.hex_digit byte) EmptyString
    (map (fun i => random_bytes w (bytes_drawn w + 5 * k + i)%nat mod 256) (seq 0 5)).

(** One attempt: a code is generated and looked up. *)
Definition attempt_events (w : World) (k : nat) : list Event :=
  [GetRandomValues 5; SelectRoomCode (nth_code w k)].

(** The world after [n] attempts that all hit an existing room. *)
Definition after_attempts (n : nat) (w : World) : World :=
  {| rooms := rooms w; localStorage := localStorage w; now := now w;
     random_bytes := random_bytes w; bytes_drawn := (bytes_drawn w + 5 * n)%nat;
     random_uuids := random_uuids w; uuids_drawn := uuids_drawn w;
     trace := trace w ++ flat_map (attempt_events w) (seq 0 n) |}.

(** ** services/gameService.ts: joining and voting *)

(** [from('rooms').update(p).eq('room_code', c).select().single()]:
    [(data, error)]; no row is an error. *)
Definition update_eq_select_single (roomCode : string) (p : Patch)
  : M (option RoomRow.t * option Exn) := fun w =>
  let w' := log (Update roomCode p) w in
  match rooms w !! roomCode with
  | None => (Ok (None, Some (PostgrestError "PGRST116")), w')
  | Some r =>
      let r' := update_updated_at_column (now w) (apply_patch p r) in
      if negb (int_columns r') then
        (Ok (None, Some (PostgrestError "22003")), w')
      else if negb (validate_classic_settings r') then
        (Ok (None, Some (PostgrestError "P0001")), w')
      else if negb (column_checks r') then
        (Ok (None, Some (PostgrestError "23514")), w')
      else (Ok (Some r', None), with_rooms (<[roomCode := r']> (rooms w)) w')
  end.

(** The seat [joinRoom] gives to a newcomer: O when exactly one player is
    there and holds X, a viewer's seat otherwise. *)
Definition seat_for (players : list Player) : PlayerSymbol * PlayerStatus :=
  match players with
  | [p] => if bool_decide (symbol p = pX) then (pO, player) else (pNone, viewer)
  | _ => (pNone, viewer)
  end.

(** The key of a vote: the symbol as a string. *)
Definition Symbol_key (s : Symbol) : string :=
  match s with
  | sX => "X"
  | sO => "O"
  | sEmpty => EmptyString
  end.

Module GameServiceMore.

Definition players_patch (players : list Player) : Patch :=
  {| set_players := Some players; set_grid := None;
     set_restart_votes := None; set_match_id := None |}.

Definition joinRoom (roomCode playerName : string) : M GameRoom.t :=
  '(room, error) ← select_single roomCode;
  match error, room with
  | Some e, _ => throw e
  | None, None => throw (Error "Room not found")
  | None, Some room =>
      clientId ← randomUUID;
      let players := RoomRow.players room in
      let '(symbol_, status_) := seat_for players in
      let newPlayer :=
        {| name := playerName; status := status_; symbol := symbol_;
           client_id := clientId |} in
      let players := players ++ [newPlayer] in
      '(updatedRoom, updateError) ← update_eq_select_single roomCode (players_patch players);
      match updateError, updatedRoom with
      | Some e, _ => throw e
      | None, None => throw TypeError
      | None, Some updatedRoom =>
          _ ← setItem ("client_id_" +:+ roomCode) clientId;
          mret (GameService.to_GameRoom updatedRoom)
      end
  end.

Definition votes_patch (votes : gmap string bool) : Patch :=
  {| set_players := None; set_grid := None;
     set_restart_votes := Some votes; set_match_id := None |}.

Definition setRestartVote (roomCode : string) (symbol : Symbol) (vote : bool) : M unit :=
  '(room, fetchError) ← select_single roomCode;
  match fetchError, room with
  | Some e, _ => throw e
  | None, None => throw (Error "Room not found")
  | None, Some room =>
      let newVotes := <[Symbol_key symbol := vote]> (RoomRow.restart_votes room) in
      updateError ← update_eq roomCode (votes_patch newVotes);
      match updateError with
      | Some e => throw e
      | None => mret tt
      end
  end.

End GameServiceMore.

(** ** components/GameBoard.tsx: the restart effect *)

(** [currentRoom.restart_votes.X && currentRoom.restart_votes.O]. *)
Definition bothPlayersVotedRestart (currentRoom : GameRoom.t) : bool :=
  default false (GameRoom.restart_votes currentRoom !! "X"%string) &&
  default false (GameRoom.restart_votes currentRoom !! "O"%string).

(** [currentRoom.players.filter(p => p.status === 'player').length === 2]. *)
Definition bothPlayersPresent (currentRoom : GameRoom.t) : bool :=
  bool_decide (length (filter (fun p => status p = player) (GameRoom.players currentRoom))
               = 2%nat).

(** The effect "auto-restart if both voted". *)
Definition GameBoard_autoRestart (currentRoom : GameRoom.t) (isOffline : bool)
    (currentPlayer : option Player) : M unit :=
  if negb isOffline && bothPlayersVotedRestart currentRoom
     && bothPlayersPresent currentRoom
     && match currentPlayer with
        | Some p => bool_decide (status p = player)
        | None => false
        end
  then GameService.resetGame (GameRoom.room_code currentRoom) (GameRoom.match_id currentRoom)
  else mret tt.

(** ** pages/Index.tsx: the offline game *)

(** [winner: PlayerSymbol | 'draw' | null] of the offline state. *)
Inductive Outcome : Type :=
| Won (s : Symbol)
| Draw.

(** [OfflineGameState]. The current symbol is the string written into the
    grid, so it is a cell symbol; an absent optional field is [None]. *)
Module OfflineGameState.
Record t : Type := mk {
  mode : GameMode;
  gridSize : option Z;
  winLength : option Z;
  grid : Grid;
  currentSymbol : Symbol;
  winner : option Outcome;
  winningLine : option (list (list Z));
  isGameOver : bool;
  moveCount : Z;
  lastMove : option (Z * Z);
  localBoards : option (list (list Winner));
  targetBoard : option Z;
  localWinners : option (list Winner)
}.
End OfflineGameState.

(** [n || null] for a number or [null]/[undefined]: [0] is falsy. *)
Definition number_or_null (n : option Z) : option Z :=
  match n with
  | Some k => if k =? 0 then None else Some k
  | None => None
  end.

(** [row[col] = v] on an array: an existing slot is overwritten, an index past
    the end extends the array with holes; a negative index names a property
    and leaves the elements as they are. *)
Definition assign_slot (gridRow : list Cell) (col : Z) (v : Cell) : list Cell :=
  if col <? 0 then gridRow
  else if col <? Z.of_nat (length gridRow) then <[Z.to_nat col := v]> gridRow
  else gridRow ++ replicate (Z.to_nat col - length gridRow) None ++ [v].

(** [grid[row][col] = v]. *)
Definition assign_cell (grid : Grid) (row col : Z) (v : Cell) : result Grid :=
  match index grid row with
  | None => Throw TypeError
  | Some gridRow => Ok (<[Z.to_nat row := assign_slot gridRow col v]> grid)
  end.

Module Index.

(** [mode === 'ultimate' ? 9 : (gridSize || 3)]. *)
Definition board_size (mode : GameMode) (gridSize : option Z) : Z :=
  match mode with
  | ultimate => 9
  | classic =>
      match gridSize with
      | Some n => if n =? 0 then 3 else n
      | None => 3
      end
  end.

Definition handleStartOfflineGame (mode : GameMode) (gridSize winLength : option Z)
  : result OfflineGameState.t :=
  let size := board_size mode gridSize in
  grid ← GameUtils.createEmptyGrid size;
  Ok {| OfflineGameState.mode := mode;
        OfflineGameState.gridSize := gridSize;
        OfflineGameState.winLength := winLength;
        OfflineGameState.grid := grid;
        OfflineGameState.currentSymbol := sX;
        OfflineGameState.winner := None;
        OfflineGameState.winningLine := None;
        OfflineGameState.isGameOver := false;
        OfflineGameState.moveCount := 0;
        OfflineGameState.lastMove := None;
        OfflineGameState.localBoards :=
          match mode with
          | ultimate => Some (replicate 9 (replicate 9 None))
          | classic => None
          end;
        OfflineGameState.targetBoard := None;
        OfflineGameState.localWinners :=
          match mode with
          | ultimate => Some (replicate 9 None)
          | classic => None
          end |}.

(** What a move derives: [(winner, winningLine, isDraw, newTargetBoard,
    newLocalWinners)]. *)
Definition move_outcome (offlineGame : OfflineGameState.t) (row col : Z) (newGrid : Grid)
  : result (Winner * option (list (list Z)) * bool * option Z * option (list Winner)) :=
  match OfflineGameState.mode offlineGame with
  | classic =>
      match OfflineGameState.winLength offlineGame with
      | Some winLength =>
          if winLength =? 0
          then Ok (None, None, false, OfflineGameState.targetBoard offlineGame,
                   OfflineGameState.localWinners offlineGame)
          else
            result ← ClassicGameLogic.checkWin newGrid winLength;
            let isDraw := negb (truthy (winner result)) && ClassicGameLogic.checkDraw newGrid in
            Ok (winner result, winningLine result, isDraw,
                OfflineGameState.targetBoard offlineGame,
                OfflineGameState.localWinners offlineGame)
      | None =>
          Ok (None, None, false, OfflineGameState.targetBoard offlineGame,
              OfflineGameState.localWinners offlineGame)
      end
  | ultimate =>
      newLocalWinners ← UltimateGameLogic.getLocalWinners newGrid;
      globalResult ← UltimateGameLogic.checkGlobalWinner newLocalWinners;
      isDraw ←
        (if negb (truthy (winner globalResult))
         then UltimateGameLogic.checkDraw newGrid newLocalWinners
         else Ok false);
      newTargetBoard ← UltimateGameLogic.getTargetBoard row col newGrid newLocalWinners;
      Ok (winner globalResult, winningLine globalResult, isDraw, newTargetBoard,
          Some newLocalWinners)
  end.

(** [handleOfflineMove]: the state it sets ([None] while no game exists). *)
Definition handleOfflineMove (offlineGame : option OfflineGameState.t) (row col : Z)
  : result (option OfflineGameState.t) :=
  match offlineGame with
  | None => Ok None
  | Some game =>
      if OfflineGameState.isGameOver game then Ok (Some game)
      else
        let isValid :=
          match OfflineGameState.mode game with
          | classic => ClassicGameLogic.isValidMove (OfflineGameState.grid game) row col
          | ultimate =>
              UltimateGameLogic.isValidMove (OfflineGameState.grid game) row col
                (number_or_null (OfflineGameState.targetBoard game))
          end in
        if negb isValid then Ok (Some game)
        else
          newGrid ← assign_cell (GameUtils.copyGrid (OfflineGameState.grid game)) row col
                      (Some (OfflineGameState.currentSymbol game));
          let newMoveCount := OfflineGameState.moveCount game + 1 in
          '(winner_, winningLine_, isDraw, newTargetBoard, newLocalWinners) ←
            move_outcome game row col newGrid;
          let nextSymbol :=
            if Symbol_eqb (OfflineGameState.currentSymbol game) sX then sO else sX in
          Ok (Some
            {| OfflineGameState.mode := OfflineGameState.mode game;
               OfflineGameState.gridSize := OfflineGameState.gridSize game;
               OfflineGameState.winLength := OfflineGameState.winLength game;
               OfflineGameState.grid := newGrid;
               OfflineGameState.currentSymbol := nextSymbol;
               OfflineGameState.winner :=
                 match winner_ with
                 | Some s => if truthy (Some s) then Some (Won s)
                             else if (isDraw : bool) then Some Draw else None
                 | None => if (isDraw : bool) then Some Draw else None
                 end;
               OfflineGameState.winningLine := winningLine_;
               OfflineGameState.isGameOver := bool_decide (winner_ ≠ None) || isDraw;
               OfflineGameState.moveCount := newMoveCount;
               OfflineGameState.lastMove := Some (row, col);
               OfflineGameState.localBoards := OfflineGameState.localBoards game;
               OfflineGameState.targetBoard := newTargetBoard;
               OfflineGameState.localWinners := newLocalWinners |})
  end.

Definition handleOfflineRestart (offlineGame : option OfflineGameState.t)
  : result (option OfflineGameState.t) :=
  match offlineGame with
  | None => Ok None
  | Some game =>
      let size := board_size (OfflineGameState.mode game) (OfflineGameState.gridSize game) in
      grid ← GameUtils.createEmptyGrid size;
      Ok (Some
        {| OfflineGameState.mode := OfflineGameState.mode game;
           OfflineGameState.gridSize := OfflineGameState.gridSize game;
           OfflineGameState.winLength := OfflineGameState.winLength game;
           OfflineGameState.grid := grid;
           OfflineGameState.currentSymbol := sX;
           OfflineGameState.winner := None;
           OfflineGameState.winningLine := None;
           OfflineGameState.isGameOver := false;
           OfflineGameState.moveCount := 0;
           OfflineGameState.lastMove := None;
           OfflineGameState.localBoards := OfflineGameState.localBoards game;
           OfflineGameState.targetBoard := None;
           OfflineGameState.localWinners := Some (replicate 9 None) |})
  end.

(** [getOfflineRoom]; the two timestamps are the two readings of the clock. *)
Definition getOfflineRoom (offlineGame : option OfflineGameState.t)
    (created updated : Timestamp) : option GameRoom.t :=
  match offlineGame with
  | None => None
  | Some game =>
      Some {| GameRoom.room_code := "OFFLINE";
              GameRoom.mode := OfflineGameState.mode game;
              GameRoom.grid_size := number_or_null (OfflineGameState.gridSize game);
              GameRoom.win_length := number_or_null (OfflineGameState.winLength game);
              GameRoom.players := [];
              GameRoom.grid := OfflineGameState.grid game;
              GameRoom.restart_votes := ∅;
              GameRoom.match_id := 0;
              GameRoom.created_at := created;
              GameRoom.updated_at := updated |}
  end.

End Index.

(** ** components/GameBoard.tsx: the offline view *)

(** The state the first effect sets from the props of an offline board. *)
Definition GameBoard_offlineGameState (room : GameRoom.t)
    (offlineCurrentPlayer : option PlayerSymbol) (offlineTargetBoard : option Z)
  : OfflineView :=
  {| ov_grid := GameRoom.grid room;
     ov_currentSymbol := offlineCurrentPlayer;
     ov_targetBoard := offlineTargetBoard;
     ov_mode := GameRoom.mode room |}.

(** The prop [offlineCurrentPlayer={offlineGame.currentSymbol}]: the symbol
    to move is ['X'] or ['O']. *)
Definition as_PlayerSymbol (s : Symbol) : option PlayerSymbol :=
  match s with
  | sX => Some pX
  | sO => Some pO
  | sEmpty => None
  end.

(** ** Definitions the further statements use *)

(** The row [createRoom] inserts, as the store keeps it. *)
Definition new_room_row (mode : GameMode) (playerName : string)
    (gridSize winLength : option Z) (roomCode clientId : string)
    (grid : Grid) (t : Timestamp) : RoomRow.t :=
  {| RoomRow.room_code := roomCode;
     RoomRow.mode := mode;
     RoomRow.grid_size := match mode with classic => gridSize | ultimate => None end;
     RoomRow.win_length := match mode with classic => winLength | ultimate => None end;
     RoomRow.players :=
       [ {| name := playerName; status := player; symbol := pX; client_id := clientId |} ];
     RoomRow.grid := [JSON_stringify grid];
     RoomRow.restart_votes := ∅;
     RoomRow.match_id := 0;
     RoomRow.created_at := t;
     RoomRow.updated_at := t |}.

(** Whether the table lets a room with these settings in. *)
Definition settings_accepted (mode : GameMode) (gridSize winLength : option Z) : bool :=
  row_accepted (new_room_row mode EmptyString gridSize winLength EmptyString EmptyString [] 0).

(** The seating of a room: the creator holds X, the second player holds O,
    everyone after them watches. *)
Definition seated (players : list Player) : Prop :=
  match players with
  | [] => False
  | x :: rest =>
      symbol x = pX ∧ status x = player ∧
      match rest with
      | [] => True
      | o :: viewers =>
          symbol o = pO ∧ status o = player ∧
          Forall (fun v => symbol v = pNone ∧ status v = viewer) viewers
      end
  end.

(** Whether the numbers a patch names fit their [INT] columns. *)
Definition patch_in_range (p : Patch) : bool :=
  from_option int4 true (set_match_id p).

(** The world after a request that succeeded in rewriting a row. *)
Definition after_update (roomCode : string) (p : Patch) (r : RoomRow.t) (w : World) : World :=
  with_rooms (<[roomCode := update_updated_at_column (now w) (apply_patch p r)]> (rooms w))
    (log (Update roomCode p) w).

(** What the offline game keeps true of its state. *)
Definition offline_consistent (game : OfflineGameState.t) : Prop :=
  square (OfflineGameState.grid game) ∧
  OfflineGameState.moveCount game = GameUtils.getMoveCount (OfflineGameState.grid game) ∧
  OfflineGameState.currentSymbol game
  = ClassicGameLogic.getCurrentPlayer (OfflineGameState.grid game) ∧
  match OfflineGameState.mode game with
  | ultimate => grid9 (OfflineGameState.grid game)
  | classic =>
      match OfflineGameState.winLength game with
      | Some winLength => 0 <= winLength
      | None => True
      end
  end.

(** A classic 3x3 game before its first move. *)
Definition game_fresh3 : OfflineGameState.t :=
  {| OfflineGameState.mode := classic;
     OfflineGameState.gridSize := None;
     OfflineGameState.winLength := Some 3;
     OfflineGameState.grid := all_empty 3;
     OfflineGameState.currentSymbol := sX;
     OfflineGameState.winner := None;
     OfflineGameState.winningLine := None;
     OfflineGameState.isGameOver := false;
     OfflineGameState.moveCount := 0;
     OfflineGameState.lastMove := None;
     OfflineGameState.localBoards := None;
     OfflineGameState.targetBoard := None;
     OfflineGameState.localWinners := None |}.

(** An ultimate game after X has taken the top left corner: O is sent to
    board 0. *)
Definition game_target0 : OfflineGameState.t :=
  {| OfflineGameState.mode := ultimate;
     OfflineGameState.gridSize := None;
     OfflineGameState.winLength := None;
     OfflineGameState.grid := GameService.place (all_empty 9) 0 0 sX;
     OfflineGameState.currentSymbol := sO;
     OfflineGameState.winner := None;
     OfflineGameState.winningLine := None;
     OfflineGameState.isGameOver := false;
     OfflineGameState.moveCount := 1;
     OfflineGameState.lastMove := Some (0, 0);
     OfflineGameState.localBoards := Some (replicate 9 (replicate 9 None));
     OfflineGameState.targetBoard := Some 0;
     OfflineGameState.localWinners := Some (replicate 9 None) |}.

(** The creator of a room, seated as X. *)
Definition player_x : Player :=
  {| name := "Ann"; status := player; symbol := pX; client_id := "uuid" |}.

(** A classic 3x3 room before its first move. *)
Definition room_classic3 : GameRoom.t :=
  {| GameRoom.room_code := "00000";
     GameRoom.mode := classic;
     GameRoom.grid_size := Some 3;
     GameRoom.win_length := Some 3;
     GameRoom.players := [player_x];
     GameRoom.grid := all_empty 3;
     GameRoom.restart_votes := ∅;
     GameRoom.match_id := 0;
     GameRoom.created_at := 10;
     GameRoom.updated_at := 10 |}.

(** The second player of a room, seated as O. *)
Definition player_o : Player :=
  {| name := "Bob"; status := player; symbol := pO; client_id := "uuid2" |}.

(** A world with one classic 3x3 room, "00000", that both players have
    joined. *)
Definition row_pair : RoomRow.t :=
  {| RoomRow.room_code := "00000"; RoomRow.mode := classic;
     RoomRow.grid_size := Some 3; RoomRow.win_length := Some 3;
     RoomRow.players := [player_x; player_o];
     RoomRow.grid := [JSON_stringify (GameService.place (all_empty 3) 1 1 sX)];
     RoomRow.restart_votes := ∅;
     RoomRow.match_id := 0;
     RoomRow.created_at := 10; RoomRow.updated_at := 20 |}.

Definition w_pair : World :=
  {| rooms := {[ "00000"%string := row_pair ]}; localStorage := ∅; now := 100;
     random_bytes := fun _ => 0; bytes_drawn := 0;
     random_uuids := fun _ => "uuid"%string; uuids_drawn := 0; trace := [] |}.

(* ================================================================== *)
(** * Properties *)

(** ** Loops as searches *)

Lemma first_some_app {A B} (f : A -> option B) (l1 l2 : list A) :
  first_some f (l1 ++ l2) =
  match first_some f l1 with
  | Some b => Some b
  | None => first_some f l2
  end.
Proof.
  induction l1 as [|x l1 IH]; simpl; [done|].
  destruct (f x); [done|apply IH].
Qed.

Lemma first_some_bind {A B C} (f : B -> option C) (h : A -> list B) (l : list A) :
  first_some f (x ← l; h x) = first_some (fun x => first_some f (h x)) l.
Proof.
  induction l as [|x l IH]; [done|].
  rewrite bind_cons, first_some_app, IH. done.
Qed.

Lemma first_some_ext {A B} (f g : A -> option B) (l : list A) :
  (∀ x, x ∈ l → f x = g x) → first_some f l = first_some g l.
Proof.
  induction l as [|x l IH]; intros Hfg; simpl; [done|].
  rewrite (Hfg x) by set_solver.
  destruct (g x); [done|]. apply IH. intros y Hy. apply Hfg. set_solver.
Qed.

Lemma first_some_find {A B} (p : A -> bool) (g : A -> B) (l : list A) :
  first_some (fun x => if p x then Some (g x) else None) l = g <$> List.find p l.
Proof.
  induction l as [|x l IH]; simpl; [done|].
  destruct (p x); [done|apply IH].
Qed.

Lemma for_upto_pure {A} (body : Z -> result (option A)) (f : Z -> option A) :
  ∀ (n : nat) (i : Z),
    (∀ j, i <= j < i + Z.of_nat n → body j = Ok (f j)) →
    for_upto n i body = Ok (first_some f (seqZ i (Z.of_nat n))).
Proof.
  induction n as [|n IH]; intros i Hbody.
  - done.
  - rewrite seqZ_cons by lia. simpl for_upto. simpl first_some.
    rewrite Hbody by lia.
    destruct (f i); [done|].
    rewrite IH by (intros j Hj; apply Hbody; lia).
    do 3 f_equal. lia.
Qed.

Lemma for_range_pure {A} (lo hi : Z) (body : Z -> result (option A)) (f : Z -> option A) :
  (∀ j, lo <= j < hi → body j = Ok (f j)) →
  for_range lo hi body = Ok (first_some f (seqZ lo (hi - lo))).
Proof.
  intros Hbody. unfold for_range.
  rewrite (for_upto_pure body f) by (intros j Hj; apply Hbody; lia).
  destruct (Z_le_gt_dec 0 (hi - lo)).
  - by rewrite Z2Nat.id.
  - unfold seqZ. by rewrite Nat2Z.id.
Qed.

(** ** [checkWin] against the scan *)

Lemma index_is_Some {A} (arr : list A) (i : Z) :
  is_Some (index arr i) ↔ 0 <= i < Z.of_nat (length arr).
Proof.
  unfold index. destruct (Z.ltb_spec i 0).
  - split; [intros [? ?]; done | lia].
  - rewrite lookup_lt_is_Some. lia.
Qed.

Lemma cell_at (grid : Grid) (row col : Z) :
  0 <= row < Z.of_nat (length grid) → cell grid row col = Ok (at_ grid row col).
Proof.
  intros Hrow. apply index_is_Some in Hrow as [gridRow Hrow].
  unfold cell, at_. by rewrite Hrow.
Qed.

Lemma collect_pure (grid : Grid) (row col dr dc : Z) (symbol : Cell) (n : nat) :
  ∀ (i : Z) (line : list (list Z)),
    (∀ k, i <= k < i + Z.of_nat n → 0 <= row + k * dr < Z.of_nat (length grid)) →
    ∃ line',
      collect n i grid row col dr dc symbol line
        = Ok (forallb (matches_at grid row col dr dc symbol) (seqZ i (Z.of_nat n)), line') ∧
      (forallb (matches_at grid row col dr dc symbol) (seqZ i (Z.of_nat n)) = true →
         line' = line ++ map (coords_at row col dr dc) (seqZ i (Z.of_nat n))).
Proof.
  induction n as [|n IH]; intros i line Hrows.
  - exists line. split; [done|]. intros _. by rewrite app_nil_r.
  - rewrite seqZ_cons by lia. simpl collect.
    rewrite cell_at by (apply Hrows; lia). simpl.
    fold (matches_at grid row col dr dc symbol i).
    destruct (matches_at grid row col dr dc symbol i) eqn:Hm; simpl.
    + destruct (IH (i + 1) (line ++ [coords_at row col dr dc i])) as (line' & Hc & Hl).
      { intros k Hk. apply Hrows. lia. }
      replace (Z.succ i) with (i + 1) by lia.
      replace (Z.pred (Z.of_nat (S n))) with (Z.of_nat n) by lia.
      exists line'. split; [exact Hc|].
      intros Hall. rewrite (Hl Hall), <- app_assoc. done.
    + exists line. split; [done|]. intros; discriminate.
Qed.

Lemma probe_pure (grid : Grid) (winLength row col dr dc : Z) :
  0 <= row < Z.of_nat (length grid) →
  (∀ k, 0 <= k < winLength → 0 <= row + k * dr < Z.of_nat (length grid)) →
  probe grid winLength row col dr dc = Ok (run_at grid winLength (row, col, (dr, dc))).
Proof.
  intros Hrow Hrows. unfold probe, run_at, is_run.
  rewrite cell_at by done. simpl.
  destruct (truthy (at_ grid row col)); [|done].
  destruct (collect_pure grid row col dr dc (at_ grid row col)
              (Z.to_nat winLength) 0 []) as (line' & Hc & Hl).
  { intros k Hk. apply Hrows. lia. }
  assert (Hseq : seqZ 0 (Z.of_nat (Z.to_nat winLength)) = seqZ 0 winLength).
  { unfold seqZ. by rewrite Nat2Z.id. }
  rewrite Hseq in Hc, Hl. rewrite Hc. simpl.
  destruct (forallb _ (seqZ 0 winLength)) eqn:Hall; [|done].
  rewrite (Hl eq_refl). done.
Qed.

Lemma first_some_singleton {A B} (f : A -> option B) (x : A) :
  first_some f [x] = f x.
Proof. simpl. by destruct (f x). Qed.

(** Two nested counting loops search the windows they enumerate, in order. *)
Lemma nested_loops_pure {A} (lo1 hi1 lo2 hi2 : Z)
    (body : Z -> Z -> result (option A)) (mk : Z -> Z -> Window)
    (g : Window -> option A) :
  (∀ a b, lo1 <= a < hi1 → lo2 <= b < hi2 → body a b = Ok (g (mk a b))) →
  for_range lo1 hi1 (fun a => for_range lo2 hi2 (fun b => body a b))
  = Ok (first_some g (a ← seqZ lo1 (hi1 - lo1); b ← seqZ lo2 (hi2 - lo2); [mk a b])).
Proof.
  intros Hbody.
  rewrite (for_range_pure lo1 hi1 _
             (fun a => first_some (fun b => g (mk a b)) (seqZ lo2 (hi2 - lo2)))).
  - f_equal. rewrite first_some_bind. apply first_some_ext. intros a _.
    rewrite first_some_bind. apply first_some_ext. intros b _.
    by rewrite first_some_singleton.
  - intros a Ha. apply for_range_pure. intros b Hb. by apply Hbody.
Qed.

Lemma and_then_pure {A} (a b : option A) :
  and_then (Ok a) (Ok b) = Ok (match a with Some x => Some x | None => b end).
Proof. by destruct a. Qed.

(** For a positive run length the scan reads inside the grid only, and
    [checkWin] is the search of the first run in scan order. *)
Lemma checkWin_scan (grid : Grid) (winLength : Z) :
  1 <= winLength →
  ClassicGameLogic.checkWin grid winLength = Ok (first_run grid winLength).
Proof.
  intros Hlen. unfold ClassicGameLogic.checkWin.
  set (size := Z.of_nat (length grid)).
  assert (Hrows : ClassicGameLogic.checkRows grid winLength = Ok (first_some (run_at grid winLength)
            (row ← seqZ 0 size; col ← seqZ 0 (size - winLength + 1); [(row, col, (0, 1))]))).
  { unfold ClassicGameLogic.checkRows. fold size.
    rewrite (nested_loops_pure 0 size 0 (size - winLength + 1) _
               (fun row col => (row, col, (0, 1))) (run_at grid winLength)).
    - by rewrite !Z.sub_0_r.
    - intros row col Hrow Hcol. apply probe_pure; fold size; lia. }
  assert (Hcols : ClassicGameLogic.checkColumns grid winLength = Ok (first_some (run_at grid winLength)
            (col ← seqZ 0 size; row ← seqZ 0 (size - winLength + 1); [(row, col, (1, 0))]))).
  { unfold ClassicGameLogic.checkColumns. fold size.
    rewrite (nested_loops_pure 0 size 0 (size - winLength + 1) _
               (fun col row => (row, col, (1, 0))) (run_at grid winLength)).
    - by rewrite !Z.sub_0_r.
    - intros col row Hcol Hrow. apply probe_pure; fold size; lia. }
  assert (Hdiag : ClassicGameLogic.checkDiagonals grid winLength = Ok (first_some (run_at grid winLength)
            (row ← seqZ 0 (size - winLength + 1); col ← seqZ 0 (size - winLength + 1);
               [(row, col, (1, 1))]))).
  { unfold ClassicGameLogic.checkDiagonals. fold size.
    rewrite (nested_loops_pure 0 (size - winLength + 1) 0 (size - winLength + 1) _
               (fun row col => (row, col, (1, 1))) (run_at grid winLength)).
    - by rewrite !Z.sub_0_r.
    - intros row col Hrow Hcol. apply probe_pure; fold size; lia. }
  assert (Hanti : ClassicGameLogic.checkAntiDiagonals grid winLength = Ok (first_some (run_at grid winLength)
            (row ← seqZ 0 (size - winLength + 1); col ← seqZ (winLength - 1) (size - winLength + 1);
               [(row, col, (1, -1))]))).
  { unfold ClassicGameLogic.checkAntiDiagonals. fold size.
    rewrite (nested_loops_pure 0 (size - winLength + 1) (winLength - 1) size _
               (fun row col => (row, col, (1, -1))) (run_at grid winLength)).
    - rewrite !Z.sub_0_r.
      by replace (size - (winLength - 1)) with (size - winLength + 1) by lia.
    - intros row col Hrow Hcol. apply probe_pure; fold size; lia. }
  rewrite Hrows, Hcols, Hdiag, Hanti, !and_then_pure, <- !first_some_app.
  unfold first_run. fold size. fold (scan_order size winLength).
  unfold run_at.
  rewrite (first_some_find (is_run grid winLength)
             (fun w => {| winner := at_ grid w.1.1 w.1.2;
                          winningLine := Some (run_cells winLength w) |})).
  simpl. destruct (List.find _ _) as [[[row col] d]|]; done.
Qed.

(** ** What a reported win rests on *)

Lemma Cell_eqb_eq (a b : Cell) : Cell_eqb a b = true ↔ a = b.
Proof.
  destruct a as [[]|], b as [[]|]; simpl; split; (done || discriminate).
Qed.

Lemma truthy_symbol (v : Cell) :
  truthy v = true → ∃ s, v = Some s ∧ (s = sX ∨ s = sO).
Proof. destruct v as [[]|]; simpl; intros; try discriminate; eauto. Qed.

Lemma at_Some_bounds (grid : Grid) (row col : Z) (s : Symbol) :
  square grid →
  at_ grid row col = Some s →
  0 <= row < Z.of_nat (length grid) ∧ 0 <= col < Z.of_nat (length grid).
Proof.
  intros Hsq Hat. unfold at_ in Hat.
  destruct (index grid row) as [gridRow|] eqn:Hrow; [|done].
  assert (Hr : 0 <= row < Z.of_nat (length grid)) by (apply index_is_Some; eauto).
  split; [done|].
  destruct (index gridRow col) as [v|] eqn:Hcol; [|done].
  assert (Hc : 0 <= col < Z.of_nat (length gridRow)) by (apply index_is_Some; eauto).
  unfold index in Hrow. destruct (row <? 0); [done|].
  unfold square in Hsq. rewrite Forall_lookup in Hsq.
  rewrite <- (Hsq _ _ Hrow). done.
Qed.

Lemma scan_order_direction (size winLength : Z) (w : Window) :
  w ∈ scan_order size winLength → w.2 ∈ directions.
Proof.
  unfold scan_order, directions. rewrite !elem_of_app, !list_elem_of_bind.
  intros [H|[H|[H|H]]]; destruct H as (a & H & _);
    apply list_elem_of_bind in H as (b & H & _);
    apply list_elem_of_singleton in H; subst w; simpl; set_solver.
Qed.

Lemma first_run_supported (grid : Grid) (winLength : Z) :
  square grid → 1 <= winLength →
  win_supported grid winLength (first_run grid winLength).
Proof.
  intros Hsq Hlen. unfold first_run.
  destruct (List.find _ _) as [[[row col] [dr dc]]|] eqn:Hfind; [|by left].
  apply find_some in Hfind as [Hin Hrun].
  apply list_elem_of_In, scan_order_direction in Hin. simpl in Hin.
  unfold is_run in Hrun. apply andb_true_iff in Hrun as [Htruthy Hall].
  apply truthy_symbol in Htruthy as (s & Hs & HXO).
  rewrite Hs in Hall |- *. rewrite forallb_forall in Hall.
  right. exists s, (run_cells winLength (row, col, (dr, dc))).
  split; [done|]. split; [done|]. split.
  { unfold run_cells. rewrite length_map, length_seqZ. lia. }
  split; [by exists row, col, (dr, dc)|].
  unfold run_cells. apply Forall_map, Forall_forall. intros i Hi.
  apply list_elem_of_In, Hall, Cell_eqb_eq in Hi.
  destruct (at_Some_bounds _ _ _ _ Hsq Hi) as [Hr Hc].
  exists (row + i * dr), (col + i * dc).
  rewrite cell_at, Hi by done. done.
Qed.

(** ** The ultimate engine on a 9x9 grid *)

Lemma map_r_pure {A B} (f : A -> result B) (g : A -> B) (xs : list A) :
  (∀ x, x ∈ xs → f x = Ok (g x)) → map_r f xs = Ok (map g xs).
Proof.
  induction xs as [|x xs IH]; intros Hf; simpl; [done|].
  rewrite (Hf x) by set_solver. simpl.
  rewrite IH by (intros y Hy; apply Hf; set_solver). done.
Qed.

Lemma getLocalBoard_pure (grid : Grid) (boardIndex : Z) :
  length grid = 9%nat → 0 <= boardIndex < 9 →
  UltimateGameLogic.getLocalBoard grid boardIndex = Ok (local_board grid boardIndex).
Proof.
  intros Hlen Hbi. unfold UltimateGameLogic.getLocalBoard, local_board.
  apply map_r_pure. intros row Hrow.
  apply map_r_pure. intros col _.
  apply cell_at. rewrite Hlen.
  apply list_elem_of_In in Hrow. simpl in Hrow.
  Z.to_euclidean_division_equations. lia.
Qed.

Lemma checkLocalWinner_pure (grid : Grid) (boardIndex : Z) :
  length grid = 9%nat → 0 <= boardIndex < 9 →
  UltimateGameLogic.checkLocalWinner grid boardIndex
  = Ok (winner (first_run (local_board grid boardIndex) 3)).
Proof.
  intros Hlen Hbi. unfold UltimateGameLogic.checkLocalWinner.
  rewrite getLocalBoard_pure by done. simpl.
  rewrite checkWin_scan by lia. done.
Qed.

Lemma isLocalBoardFull_pure (grid : Grid) (boardIndex : Z) :
  length grid = 9%nat → 0 <= boardIndex < 9 →
  UltimateGameLogic.isLocalBoardFull grid boardIndex
  = Ok (forallb (fun row => forallb ClassicGameLogic.filled row)
          (local_board grid boardIndex)).
Proof.
  intros Hlen Hbi. unfold UltimateGameLogic.isLocalBoardFull.
  by rewrite getLocalBoard_pure.
Qed.

Lemma getLocalWinners_pure (grid : Grid) :
  length grid = 9%nat →
  UltimateGameLogic.getLocalWinners grid
  = Ok (map (fun i => winner (first_run (local_board grid i) 3)) (seqZ 0 9)).
Proof.
  intros Hlen. unfold UltimateGameLogic.getLocalWinners.
  change [0; 1; 2; 3; 4; 5; 6; 7; 8] with (seqZ 0 9).
  apply map_r_pure. intros i Hi. apply elem_of_seqZ in Hi.
  apply checkLocalWinner_pure; [done|lia].
Qed.

Lemma index_map_seqZ {A} (g : Z -> A) (n i : Z) :
  0 <= i < n → index (map g (seqZ 0 n)) i = Some (g i).
Proof.
  intros Hi. unfold index. destruct (Z.ltb_spec i 0); [lia|].
  change (map g (seqZ 0 n)) with (g <$> seqZ 0 n).
  rewrite list_lookup_fmap, lookup_seqZ_lt by lia. simpl.
  do 2 f_equal. lia.
Qed.

(** ** Classic engine: the claims *)

(** C1: for every square grid and every [winLength >= 1] (the callers pass
    3 or a win length of the room, which the table keeps at 3 or more),
    [checkWin] returns either [{null, null}] or a winner [s] in [{X, O}]
    with a winning line of exactly [winLength] in-bounds coordinate pairs
    that are consecutive cells of one row, one column or one diagonal, all
    holding [s]. *)
Theorem checkWin_supported (grid : Grid) (winLength : Z) :
  square grid → 1 <= winLength → checkWin_sound grid winLength.
Proof.
  intros Hsq Hlen. exists (first_run grid winLength). split.
  - by apply checkWin_scan.
  - by apply first_run_supported.
Qed.

Lemma checkWin_supported_witness :
  square g_example ∧ 1 <= 3 ∧ checkWin_sound g_example 3.
Proof.
  assert (Hsq : square g_example) by repeat constructor.
  split; [exact Hsq|]. split; [lia|].
  apply (checkWin_supported g_example 3); [exact Hsq|lia].
Defined.

(** C7: [checkWin] returns the first run of [winLength] cells in scan order
    (horizontal runs row-major, then vertical, then diagonal down-right, then
    diagonal down-left); on [[X,X,X],[O,O,''],['','','']] with [winLength = 3]
    it returns winner X with line [[0,0],[0,1],[0,2]]. *)
Theorem checkWin_first_in_scan_order :
  (∀ (grid : Grid) (winLength : Z),
      1 <= winLength →
      ClassicGameLogic.checkWin grid winLength = Ok (first_run grid winLength)) ∧
  ClassicGameLogic.checkWin g_example 3
  = Ok {| winner := Some sX; winningLine := Some [[0; 0]; [0; 1]; [0; 2]] |}.
Proof.
  split.
  - intros grid winLength Hlen. by apply checkWin_scan.
  - reflexivity.
Qed.

Lemma checkWin_first_in_scan_order_witness :
  1 <= 3 ∧ ClassicGameLogic.checkWin g_example 3 = Ok (first_run g_example 3).
Proof.
  split; [lia|]. apply (proj1 checkWin_first_in_scan_order). lia.
Defined.

(** Horizontal runs are found before vertical ones: O's row 3 is reported
    although X's column 0 starts at an earlier cell. *)
Example checkWin_horizontal_before_vertical :
  ClassicGameLogic.checkWin g_both 3
  = Ok {| winner := Some sO; winningLine := Some [[3; 1]; [3; 2]; [3; 3]] |}.
Proof. reflexivity. Qed.

(** ** Ultimate engine: the claims *)

Lemma grid9_g_won0 : grid9 g_won0.
Proof. split; [done|]. repeat constructor. Qed.

(** C2, as stated, at a concrete input: with sub-board 0 already won by X, the
    free move to its empty cell (1, 0) is accepted. *)
Lemma free_move_into_won_board :
  grid9 g_won0 ∧ ¬ free_move_restricted g_won0 1 0.
Proof.
  split; [exact grid9_g_won0|].
  intros H. destruct (H eq_refl) as (_ & Hwon & _).
  vm_compute in Hwon. discriminate.
Qed.

Lemma local_board_filled (grid : Grid) (boardIndex r c : Z) :
  0 <= r < 3 → 0 <= c < 3 →
  forallb (fun row => forallb ClassicGameLogic.filled row) (local_board grid boardIndex) = true →
  ClassicGameLogic.filled
    (at_ grid (boardIndex / 3 * 3 + r) (Z.rem boardIndex 3 * 3 + c)) = true.
Proof.
  intros Hr Hc Hfull. unfold local_board in Hfull.
  cbn [map forallb] in Hfull. rewrite !andb_true_iff in Hfull.
  assert (r = 0 ∨ r = 1 ∨ r = 2) as [->|[->| ->]] by lia;
    assert (c = 0 ∨ c = 1 ∨ c = 2) as [->|[->| ->]] by lia; tauto.
Qed.

(** C2 (amended): with no target board, [isValidMove] accepts exactly the
    empty cells; the sub-board of an accepted cell is then not full, and
    whether it is already won is not looked at. *)
Theorem isValidMove_free (grid : Grid) (row col : Z) :
  grid9 grid → 0 <= row < 9 → 0 <= col < 9 →
  (UltimateGameLogic.isValidMove grid row col None = true
     ↔ cell grid row col = Ok (Some sEmpty)) ∧
  (UltimateGameLogic.isValidMove grid row col None = true →
     UltimateGameLogic.isLocalBoardFull grid (UltimateGameLogic.getLocalBoardIndex row col)
     = Ok false).
Proof.
  intros [Hlen Hrows] Hrow Hcol.
  assert (Hvalid : UltimateGameLogic.isValidMove grid row col None = true
                   ↔ at_ grid row col = Some sEmpty).
  { unfold UltimateGameLogic.isValidMove, at_.
    destruct (index grid row) as [gridRow|]; [|done].
    rewrite <- Cell_eqb_eq.
    by destruct (Cell_eqb (default None (index gridRow col)) (Some sEmpty)). }
  split.
  - rewrite Hvalid, cell_at by lia. split; [by intros ->|by intros [= ->]].
  - intros Hat%Hvalid.
    assert (Hbi : 0 <= UltimateGameLogic.getLocalBoardIndex row col < 9).
    { unfold UltimateGameLogic.getLocalBoardIndex.
      Z.to_euclidean_division_equations. lia. }
    rewrite isLocalBoardFull_pure by done. f_equal.
    apply not_true_is_false. intros Hfull.
    apply (local_board_filled grid _ (Z.rem row 3) (Z.rem col 3)) in Hfull.
    + replace (UltimateGameLogic.getLocalBoardIndex row col / 3 * 3 + Z.rem row 3)
        with row in Hfull
        by (unfold UltimateGameLogic.getLocalBoardIndex;
            Z.to_euclidean_division_equations; lia).
      replace (Z.rem (UltimateGameLogic.getLocalBoardIndex row col) 3 * 3 + Z.rem col 3)
        with col in Hfull
        by (unfold UltimateGameLogic.getLocalBoardIndex;
            Z.to_euclidean_division_equations; lia).
      rewrite Hat in Hfull. discriminate.
    + Z.to_euclidean_division_equations. lia.
    + Z.to_euclidean_division_equations. lia.
Qed.

Lemma isValidMove_free_witness :
  grid9 g_won0 ∧ 0 <= 1 < 9 ∧ 0 <= 0 < 9 ∧
  (UltimateGameLogic.isValidMove g_won0 1 0 None = true
     ↔ cell g_won0 1 0 = Ok (Some sEmpty)) ∧
  (UltimateGameLogic.isValidMove g_won0 1 0 None = true →
     UltimateGameLogic.isLocalBoardFull g_won0 (UltimateGameLogic.getLocalBoardIndex 1 0)
     = Ok false).
Proof.
  split; [exact grid9_g_won0|]. split; [lia|]. split; [lia|].
  apply (isValidMove_free g_won0 1 0); [exact grid9_g_won0|lia|lia].
Defined.

Lemma filled_spec (v : Cell) : ClassicGameLogic.filled v = true ↔ v ≠ Some sEmpty.
Proof.
  unfold ClassicGameLogic.filled. rewrite negb_true_iff, <- Cell_eqb_eq.
  by destruct (Cell_eqb v (Some sEmpty)).
Qed.

Lemma local_board_full (grid : Grid) (boardIndex : Z) :
  forallb (fun row => forallb ClassicGameLogic.filled row) (local_board grid boardIndex)
  = true ↔
  ∀ i j, 0 <= i < 3 → 0 <= j < 3 →
    at_ grid (boardIndex / 3 * 3 + i) (Z.rem boardIndex 3 * 3 + j) ≠ Some sEmpty.
Proof.
  split.
  - intros Hfull i j Hi Hj. by apply filled_spec, local_board_filled.
  - intros Hall. unfold local_board. cbn [map forallb].
    rewrite !andb_true_iff.
    repeat split; try apply filled_spec; try apply Hall; lia.
Qed.

(** C3: on a 9x9 grid, after an in-bounds last move [(r, c)] and with the
    local winners of that grid, [getTargetBoard] returns [null] when the
    sub-board [(r mod 3) * 3 + (c mod 3)] has a local winner or is full, and
    that index otherwise. The local winner is the one the scan of the nine
    cells of that sub-board finds, and the sub-board is full exactly when none
    of its nine cells is empty. *)
Theorem getTargetBoard_spec (grid : Grid) (r c : Z) :
  grid9 grid → 0 <= r < 9 → 0 <= c < 9 →
  let target := (r mod 3) * 3 + (c mod 3) in
  ∃ (localWinners : list Winner) (w : Winner) (full : bool),
    UltimateGameLogic.getLocalWinners grid = Ok localWinners ∧
    index localWinners target = Some w ∧
    UltimateGameLogic.checkLocalWinner grid target = Ok w ∧
    UltimateGameLogic.isLocalBoardFull grid target = Ok full ∧
    UltimateGameLogic.getTargetBoard r c grid localWinners
    = Ok (if bool_decide (w ≠ None) || full then None else Some target) ∧
    w = winner (first_run (local_board grid target) 3) ∧
    (full = true ↔
     ∀ i j, 0 <= i < 3 → 0 <= j < 3 →
       ∃ v, cell grid (target / 3 * 3 + i) (Z.rem target 3 * 3 + j) = Ok v ∧
            v ≠ Some sEmpty).
Proof.
  intros [Hlen Hrows] Hr Hc target.
  assert (Htarget : 0 <= target < 9).
  { unfold target. Z.to_euclidean_division_equations. lia. }
  exists (map (fun i => winner (first_run (local_board grid i) 3)) (seqZ 0 9)),
    (winner (first_run (local_board grid target) 3)),
    (forallb (fun row => forallb ClassicGameLogic.filled row) (local_board grid target)).
  split; [by apply getLocalWinners_pure|].
  split.
  { by apply (index_map_seqZ (fun i => winner (first_run (local_board grid i) 3))). }
  split; [by apply checkLocalWinner_pure|].
  split; [by apply isLocalBoardFull_pure|].
  split.
  { unfold UltimateGameLogic.getTargetBoard, UltimateGameLogic.getLocalCellCoords.
    rewrite !Z.rem_mod_nonneg by lia. fold target.
    rewrite (index_map_seqZ (fun i => winner (first_run (local_board grid i) 3))) by done.
    rewrite isLocalBoardFull_pure by done.
    generalize (forallb (fun row => forallb ClassicGameLogic.filled row)
                  (local_board grid target)).
    intros full.
    destruct (winner (first_run (local_board grid target) 3)) as [s|]; simpl; [done|].
    by destruct full. }
  split; [done|].
  rewrite local_board_full.
  assert (Hcell : ∀ i j, 0 <= i < 3 →
            cell grid (target / 3 * 3 + i) (Z.rem target 3 * 3 + j)
            = Ok (at_ grid (target / 3 * 3 + i) (Z.rem target 3 * 3 + j))).
  { intros i j Hi. apply cell_at. rewrite Hlen.
    Z.to_euclidean_division_equations. lia. }
  split.
  - intros Hall i j Hi Hj. eexists. split; [by apply Hcell|]. by apply Hall.
  - intros Hall i j Hi Hj. destruct (Hall i j Hi Hj) as (v & Hv & Hne).
    rewrite Hcell in Hv by done. by injection Hv as <-.
Qed.

Lemma getTargetBoard_spec_witness :
  grid9 g_won0 ∧ 0 <= 0 < 9 ∧ 0 <= 1 < 9 ∧
  ∃ (localWinners : list Winner) (w : Winner) (full : bool),
    UltimateGameLogic.getLocalWinners g_won0 = Ok localWinners ∧
    index localWinners 1 = Some w ∧
    UltimateGameLogic.checkLocalWinner g_won0 1 = Ok w ∧
    UltimateGameLogic.isLocalBoardFull g_won0 1 = Ok full ∧
    UltimateGameLogic.getTargetBoard 0 1 g_won0 localWinners
    = Ok (if bool_decide (w ≠ None) || full then None else Some 1).
Proof.
  split; [exact grid9_g_won0|]. split; [lia|]. split; [lia|].
  destruct (getTargetBoard_spec g_won0 0 1) as (lw & w & full & H1 & H2 & H3 & H4 & H5 & _);
    [exact grid9_g_won0|lia|lia|].
  exists lw, w, full. repeat split; assumption.
Defined.

(** After a move at (0, 0) the next player is sent to sub-board 0, unless it
    is already won. *)
Example getTargetBoard_after_corner_move :
  (localWinners ← UltimateGameLogic.getLocalWinners (replicate 9 eRow);
   UltimateGameLogic.getTargetBoard 0 0 (replicate 9 eRow) localWinners) = Ok (Some 0) ∧
  (localWinners ← UltimateGameLogic.getLocalWinners g_won0;
   UltimateGameLogic.getTargetBoard 0 0 g_won0 localWinners) = Ok None.
Proof. split; reflexivity. Qed.

Lemma meta_grid_square (localWinners : list Winner) : square (meta_grid localWinners).
Proof. repeat constructor. Qed.

Lemma checkGlobalWinner_pure (localWinners : list Winner) :
  UltimateGameLogic.checkGlobalWinner localWinners
  = Ok match winningLine (first_run (meta_grid localWinners) 3) with
       | Some line =>
           {| winner := winner (first_run (meta_grid localWinners) 3);
              winningLine := Some (map UltimateGameLogic.to_board_index line) |}
       | None => first_run (meta_grid localWinners) 3
       end.
Proof.
  unfold UltimateGameLogic.checkGlobalWinner. fold (meta_grid localWinners).
  rewrite checkWin_scan by lia. simpl.
  by destruct (winningLine _).
Qed.

(** The cells a reported win rests on, one by one. *)
Lemma win_supported_cells (grid : Grid) (winLength : Z) (r : WinResult) (s : Symbol) :
  win_supported grid winLength r → winner r = Some s →
  (s = sX ∨ s = sO) ∧
  ∃ row col d,
    d ∈ directions ∧
    winningLine r = Some (run_cells winLength (row, col, d)) ∧
    ∀ i, 0 <= i < winLength →
      0 <= row + i * d.1 < Z.of_nat (length grid) ∧
      0 <= col + i * d.2 < Z.of_nat (length grid) ∧
      cell grid (row + i * d.1) (col + i * d.2) = Ok (Some s).
Proof.
  intros [->|(s' & line & -> & HXO & _ & (row & col & [dr dc] & Hd & ->) & Hall)] Hw;
    [done|].
  simpl in Hw. injection Hw as ->. split; [done|].
  exists row, col, (dr, dc). split; [done|]. split; [done|].
  intros i Hi. unfold run_cells in Hall.
  rewrite Forall_map, Forall_forall in Hall.
  destruct (Hall i) as (row' & col' & Heq & Hr & Hc & Hcell).
  { apply elem_of_seqZ. lia. }
  unfold coords_at in Heq. injection Heq as <- <-. done.
Qed.

Lemma meta_grid_cell (localWinners : list Winner) (r c : Z) :
  0 <= r < 3 → 0 <= c < 3 →
  cell (meta_grid localWinners) r c = Ok (or_empty (index localWinners (r * 3 + c))).
Proof.
  intros Hr Hc.
  assert (r = 0 ∨ r = 1 ∨ r = 2) as [->|[->| ->]] by lia;
    assert (c = 0 ∨ c = 1 ∨ c = 2) as [->|[->| ->]] by lia; reflexivity.
Qed.

Lemma or_empty_symbol (w : option Winner) (s : Symbol) :
  or_empty w = Some s → s = sX ∨ s = sO → w = Some (Some s).
Proof.
  unfold or_empty. destruct w as [[[]|]|]; simpl; intros [= <-] [?|?]; done.
Qed.

(** C5: whenever [checkGlobalWinner] returns a winning line, every entry of
    it holds one sub-board index in the range 0-8 (a one-element array), never
    a [row, col] pair. The index is the meta-grid position [row * 3 + col] of
    the pair [[row, col]] that the classic engine reports on the 3x3 grid of
    local winners: three positions in a row, a column or a diagonal, whose
    sub-boards are all won by the reported winner. *)
Theorem checkGlobalWinner_line_indices (localWinners : list Winner) :
  ∃ r, UltimateGameLogic.checkGlobalWinner localWinners = Ok r ∧
       match winningLine r with
       | Some line =>
           Forall (fun entry => ∃ k, entry = [k] ∧ 0 <= k <= 8) line ∧
           ∃ (classic : WinResult) (s : Symbol) (row col : Z) (d : Z * Z),
             ClassicGameLogic.checkWin (meta_grid localWinners) 3 = Ok classic ∧
             d ∈ directions ∧
             winner classic = Some s ∧ winner r = Some s ∧
             winningLine classic
             = Some (map (fun i => [row + i * d.1; col + i * d.2]) [0; 1; 2]) ∧
             line = map (fun i => [(row + i * d.1) * 3 + (col + i * d.2)]) [0; 1; 2] ∧
             ∀ i, 0 <= i < 3 →
               0 <= row + i * d.1 < 3 ∧ 0 <= col + i * d.2 < 3 ∧
               index localWinners ((row + i * d.1) * 3 + (col + i * d.2)) = Some (Some s)
       | None => True
       end.
Proof.
  eexists. split; [apply checkGlobalWinner_pure|].
  pose proof (first_run_supported (meta_grid localWinners) 3
                (meta_grid_square localWinners) ltac:(lia)) as Hsup.
  destruct (winningLine (first_run (meta_grid localWinners) 3)) as [line|] eqn:Hline;
    cbn [winningLine]; [|by rewrite Hline].
  destruct (winner (first_run (meta_grid localWinners) 3)) as [s|] eqn:Hw.
  2: { destruct Hsup as [Hnone|(s & line' & Hr & _)].
       - rewrite Hnone in Hline. done.
       - rewrite Hr in Hw. done. }
  destruct (win_supported_cells _ _ _ _ Hsup Hw)
    as (HXO & row & col & [dr dc] & Hd & Hrun & Hcells).
  rewrite Hline in Hrun. injection Hrun as ->.
  split.
  { cbn. repeat constructor; eexists; (split; [reflexivity|]);
      [destruct (Hcells 0 ltac:(lia)) as (Hr & Hc & _)
      |destruct (Hcells 1 ltac:(lia)) as (Hr & Hc & _)
      |destruct (Hcells 2 ltac:(lia)) as (Hr & Hc & _)];
      change (Z.of_nat (length (meta_grid localWinners))) with 3 in Hr, Hc;
      cbn in Hr, Hc; lia. }
  exists (first_run (meta_grid localWinners) 3), s, row, col, (dr, dc).
  split; [apply checkWin_scan; lia|]. split; [done|]. split; [done|].
  split; [done|]. split; [by rewrite Hline|]. split; [done|].
  intros i Hi. destruct (Hcells i Hi) as (Hr & Hc & Hcell).
  change (Z.of_nat (length (meta_grid localWinners))) with 3 in Hr, Hc.
  simpl in Hr, Hc, Hcell.
  split; [done|]. split; [done|].
  rewrite meta_grid_cell in Hcell by done. injection Hcell as Hcell.
  by apply or_empty_symbol.
Qed.

(** X has won the sub-boards of the main diagonal. *)
Example checkGlobalWinner_diagonal :
  UltimateGameLogic.checkGlobalWinner
    [Some sX; None; None; None; Some sX; None; None; None; Some sX]
  = Ok {| winner := Some sX; winningLine := Some [[0]; [4]; [8]] |}.
Proof. reflexivity. Qed.

Lemma index_of_nat {A} (arr : list A) (i : nat) : index arr (Z.of_nat i) = arr !! i.
Proof.
  unfold index. destruct (Z.ltb_spec (Z.of_nat i) 0); [lia|]. by rewrite Nat2Z.id.
Qed.

(** The grid has no empty cell exactly when no in-bounds read gives ['']. *)
Lemma all_filled_cells (grid : Grid) :
  square grid →
  forallb (fun row => forallb ClassicGameLogic.filled row) grid = true ↔
  ∀ row col, 0 <= row < Z.of_nat (length grid) → 0 <= col < Z.of_nat (length grid) →
             at_ grid row col ≠ Some sEmpty.
Proof.
  intros Hsq. unfold square in Hsq. rewrite Forall_lookup in Hsq. split.
  - intros Hall row col Hrow Hcol.
    rewrite forallb_forall in Hall.
    destruct (proj2 (index_is_Some grid row) Hrow) as [gridRow HgridRow].
    unfold at_. rewrite HgridRow.
    assert (Hin : gridRow ∈ grid).
    { unfold index in HgridRow. destruct (row <? 0); [done|].
      by eapply list_elem_of_lookup_2. }
    assert (Hlen : length gridRow = length grid).
    { unfold index in HgridRow. destruct (row <? 0); [done|]. by eapply Hsq. }
    destruct (proj2 (index_is_Some gridRow col)) as [v Hv]; [lia|].
    rewrite Hv. simpl. apply filled_spec.
    apply list_elem_of_In, Hall in Hin. rewrite forallb_forall in Hin.
    apply Hin, list_elem_of_In.
    unfold index in Hv. destruct (col <? 0); [done|]. by eapply list_elem_of_lookup_2.
  - intros Hcells. apply forallb_forall. intros gridRow Hin.
    apply list_elem_of_In, list_elem_of_lookup in Hin as [i Hi].
    apply forallb_forall. intros v Hv.
    apply list_elem_of_In, list_elem_of_lookup in Hv as [j Hj].
    apply filled_spec.
    assert (Hlen := Hsq _ _ Hi).
    apply lookup_lt_Some in Hi as Hi'. apply lookup_lt_Some in Hj as Hj'.
    specialize (Hcells (Z.of_nat i) (Z.of_nat j)).
    unfold at_ in Hcells. rewrite !index_of_nat, Hi, index_of_nat, Hj in Hcells.
    apply Hcells; lia.
Qed.

(** C6: on a 9x9 grid with its local winners, [checkDraw] is [false] when
    [checkGlobalWinner] reports a winner, and otherwise [true] exactly when
    each of the 81 cells is non-empty. *)
Theorem checkDraw_spec (grid : Grid) :
  grid9 grid →
  ∃ (localWinners : list Winner) (g : WinResult),
    UltimateGameLogic.getLocalWinners grid = Ok localWinners ∧
    UltimateGameLogic.checkGlobalWinner localWinners = Ok g ∧
    match winner g with
    | Some _ => UltimateGameLogic.checkDraw grid localWinners = Ok false
    | None =>
        ∃ b, UltimateGameLogic.checkDraw grid localWinners = Ok b ∧
             (b = true ↔ ∀ row col, 0 <= row < 9 → 0 <= col < 9 →
                                     cell grid row col ≠ Ok (Some sEmpty))
    end.
Proof.
  intros [Hlen Hrows].
  eexists _, _. split; [by apply getLocalWinners_pure|].
  split; [apply checkGlobalWinner_pure|].
  set (localWinners := map _ (seqZ 0 9)).
  unfold UltimateGameLogic.checkDraw. rewrite checkGlobalWinner_pure.
  destruct (first_run_supported (meta_grid localWinners) 3
              (meta_grid_square localWinners))
    as [Hnone|(s & line & Hr & HXO & _)]; [lia| |].
  - rewrite Hnone. simpl. eexists. split; [done|].
    rewrite all_filled_cells by (unfold square; by rewrite Hlen).
    rewrite Hlen. split.
    + intros Hcells row col Hrow Hcol. rewrite cell_at by lia.
      intros [= Hat]. apply (Hcells row col); [lia|lia|done].
    + intros Hcells row col Hrow Hcol Hat. apply (Hcells row col); [lia|lia|].
      rewrite cell_at by lia. by rewrite Hat.
  - rewrite Hr. simpl. by destruct HXO as [-> | ->].
Qed.

Lemma checkDraw_spec_witness :
  grid9 g_full ∧
  ∃ (localWinners : list Winner) (g : WinResult),
    UltimateGameLogic.getLocalWinners g_full = Ok localWinners ∧
    UltimateGameLogic.checkGlobalWinner localWinners = Ok g ∧
    match winner g with
    | Some _ => UltimateGameLogic.checkDraw g_full localWinners = Ok false
    | None =>
        ∃ b, UltimateGameLogic.checkDraw g_full localWinners = Ok b ∧
             (b = true ↔ ∀ row col, 0 <= row < 9 → 0 <= col < 9 →
                                     cell g_full row col ≠ Ok (Some sEmpty))
    end.
Proof.
  assert (H9 : grid9 g_full) by (split; [done|repeat constructor]).
  split; [exact H9|]. apply (checkDraw_spec g_full H9).
Defined.

(** ** The board component: the claims *)

Lemma rbind_Ok {A B} (m : result A) (k : A -> result B) (b : B) :
  m ≫= k = Ok b → ∃ a, m = Ok a ∧ k a = Ok b.
Proof. destruct m as [a|e]; [by exists a|done]. Qed.

Lemma rbind_Throw {A B} (m : result A) (k : A -> result B) (e : Exn) :
  m ≫= k = Throw e → m = Throw e ∨ ∃ a, m = Ok a ∧ k a = Throw e.
Proof.
  destruct m as [a|e']; simpl.
  - intros H. right. by exists a.
  - intros [= ->]. by left.
Qed.

Lemma getTargetBoardFromGrid_undefined :
  UltimateGameLogic_class !! "getTargetBoardFromGrid"%string = None.
Proof. vm_compute. reflexivity. Qed.

Lemma checkDraw_pure (grid : Grid) (localWinners : list Winner) :
  ∃ b, UltimateGameLogic.checkDraw grid localWinners = Ok b.
Proof.
  unfold UltimateGameLogic.checkDraw. rewrite checkGlobalWinner_pure.
  cbn [mbind result_bind]. destruct (truthy _); eauto.
Qed.

(** C4: for an online room in ultimate mode the component derives the target
    board by calling [UltimateGameLogic.getTargetBoardFromGrid], a static the
    class does not have: the call throws a [TypeError], the state derivation
    yields no state (on a 9x9 grid it is that [TypeError] which ends it), and
    no click gets through move validation. *)
Theorem online_ultimate_targetBoard_faults
    (call_static : UltimateStatic -> Grid -> list Winner -> result (option Z))
    (room currentRoom : GameRoom.t)
    (offlineCurrentPlayer : option PlayerSymbol) (offlineTargetBoard : option Z)
    (offlineGameState : option OfflineView)
    (currentPlayer : option Player) (inputBlocked : bool) :
  GameRoom.mode currentRoom = ultimate →
  UltimateGameLogic_class !! "getTargetBoardFromGrid"%string = None ∧
  (∀ gameGrid localWinners,
      GameBoard_targetBoard call_static false offlineTargetBoard offlineGameState
        (GameRoom.mode currentRoom) gameGrid localWinners = Throw TypeError) ∧
  (∀ st, GameBoard_state call_static room currentRoom false offlineCurrentPlayer
           offlineTargetBoard offlineGameState currentPlayer inputBlocked ≠ Ok st) ∧
  (grid9 (GameRoom.grid currentRoom) →
     GameBoard_state call_static room currentRoom false offlineCurrentPlayer
       offlineTargetBoard offlineGameState currentPlayer inputBlocked = Throw TypeError) ∧
  (∀ row col accepted,
      GameBoard_click call_static room currentRoom false offlineCurrentPlayer
        offlineTargetBoard offlineGameState currentPlayer inputBlocked row col
      ≠ Ok accepted).
Proof.
  intros Hmode.
  assert (Htarget : ∀ gameGrid localWinners,
             GameBoard_targetBoard call_static false offlineTargetBoard offlineGameState
               (GameRoom.mode currentRoom) gameGrid localWinners = Throw TypeError).
  { intros gameGrid localWinners. rewrite Hmode.
    unfold GameBoard_targetBoard, call_UltimateGameLogic.
    by rewrite getTargetBoardFromGrid_undefined. }
  assert (Hstate : ∀ st, GameBoard_state call_static room currentRoom false
             offlineCurrentPlayer offlineTargetBoard offlineGameState currentPlayer
             inputBlocked ≠ Ok st).
  { intros st H. unfold GameBoard_state in H.
    apply rbind_Ok in H as (classicWin & _ & H).
    apply rbind_Ok in H as (localWinners & _ & H).
    apply rbind_Ok in H as (ultimateGlobal & _ & H).
    apply rbind_Ok in H as (ultimateDraw & _ & H).
    apply rbind_Ok in H as (targetBoard & H & _).
    rewrite Htarget in H. discriminate. }
  split; [exact getTargetBoardFromGrid_undefined|].
  split; [exact Htarget|]. split; [exact Hstate|]. split.
  - intros [Hlen _].
    destruct (GameBoard_state _ _ _ _ _ _ _ _ _) as [st|e] eqn:H;
      [by destruct (Hstate st)|].
    f_equal. unfold GameBoard_state in H. cbv beta iota zeta in H.
    rewrite Hmode in H, Htarget.
    apply rbind_Throw in H as [H|(classicWin & _ & H)]; [done|].
    apply rbind_Throw in H as [H|(localWinners & _ & H)].
    { by rewrite getLocalWinners_pure in H. }
    apply rbind_Throw in H as [H|(ultimateGlobal & _ & H)].
    { by rewrite checkGlobalWinner_pure in H. }
    apply rbind_Throw in H as [H|(ultimateDraw & _ & H)].
    { destruct (negb _); [|done].
      destruct (checkDraw_pure (GameRoom.grid currentRoom) localWinners) as [b Hb].
      by rewrite Hb in H. }
    apply rbind_Throw in H as [H|(targetBoard & H & _)];
      rewrite Htarget in H; congruence.
  - intros row col accepted H. unfold GameBoard_click in H.
    apply rbind_Ok in H as (st & H & _). by apply Hstate in H.
Qed.

Lemma online_ultimate_targetBoard_faults_witness :
  GameRoom.mode room_ultimate = ultimate ∧
  GameBoard_state (fun _ _ _ => Ok None) room_ultimate room_ultimate false
    None None None None false = Throw TypeError.
Proof.
  split; [reflexivity|].
  apply (online_ultimate_targetBoard_faults (fun _ _ _ => Ok None)
           room_ultimate room_ultimate None None None None false eq_refl).
  split; [reflexivity|]. repeat constructor.
Defined.

(** ** The room client: the claims *)

Lemma M_bind_Ok {A B} (m : M A) (k : A -> M B) (w w' : World) (a : A) :
  m w = (Ok a, w') → (m ≫= k) w = k a w'.
Proof. intros H. unfold mbind, M_bind. by rewrite H. Qed.

Lemma select_single_found (roomCode : string) (r : RoomRow.t) (w : World) :
  rooms w !! roomCode = Some r →
  select_single roomCode w = (Ok (Some r, None), log (SelectSingle roomCode) w).
Proof. intros H. unfold select_single. by rewrite H. Qed.

Lemma row_accepted_int4 (r : RoomRow.t) :
  row_accepted r = true → -2147483648 <= RoomRow.match_id r <= 2147483647.
Proof.
  unfold row_accepted, int_columns, int4. rewrite !andb_true_iff. lia.
Qed.

(** A patch of the grid, the players, the votes and the match counter leaves
    the columns the triggers and checks look at as they were; the row stays
    acceptable when the new match counter fits its column. *)
Lemma row_accepted_patch (p : Patch) (t : Timestamp) (r : RoomRow.t) :
  row_accepted r = true → patch_in_range p = true →
  int_columns (update_updated_at_column t (apply_patch p r)) = true ∧
  validate_classic_settings (update_updated_at_column t (apply_patch p r)) = true ∧
  column_checks (update_updated_at_column t (apply_patch p r)) = true.
Proof.
  unfold row_accepted, patch_in_range. rewrite !andb_true_iff.
  intros [[Hv Hc] Hint] Hp. split; [|done].
  unfold int_columns in *. cbn [RoomRow.grid_size RoomRow.win_length RoomRow.match_id
    update_updated_at_column apply_patch].
  rewrite !andb_true_iff in *. destruct Hint as [[Hg Hw] Hm].
  split; [done|]. by destruct (set_match_id p).
Qed.

Lemma update_eq_found (roomCode : string) (p : Patch) (r : RoomRow.t) (w : World) :
  rooms w !! roomCode = Some r → row_accepted r = true → patch_in_range p = true →
  update_eq roomCode p w
  = (Ok None,
     with_rooms (<[roomCode := update_updated_at_column (now w) (apply_patch p r)]> (rooms w))
       (log (Update roomCode p) w)).
Proof.
  intros Hr Hacc Hp. unfold update_eq. rewrite Hr.
  destruct (row_accepted_patch p (now w) r Hacc Hp) as (-> & -> & ->). done.
Qed.

(** A match counter that does not fit its column: the update is refused with
    [22003] and the table stays as it was. *)
Lemma update_eq_out_of_range (roomCode : string) (p : Patch) (r : RoomRow.t) (w : World)
    (m : Z) :
  rooms w !! roomCode = Some r → set_match_id p = Some m → int4 m = false →
  update_eq roomCode p w
  = (Ok (Some (PostgrestError "22003")), log (Update roomCode p) w).
Proof.
  intros Hr Hp Hm. unfold update_eq. rewrite Hr.
  assert (Hint : int_columns (update_updated_at_column (now w) (apply_patch p r)) = false).
  { unfold int_columns.
    cbn [RoomRow.grid_size RoomRow.win_length RoomRow.match_id
         update_updated_at_column apply_patch].
    rewrite Hp. change (default (RoomRow.match_id r) (Some m)) with m.
    rewrite Hm. apply andb_false_r. }
  by rewrite Hint.
Qed.

Lemma accepted_room_size (r : RoomRow.t) :
  row_accepted r = true →
  empty_matrix
    match RoomRow.mode r with
    | ultimate => 9
    | classic =>
        match RoomRow.grid_size r with
        | Some n => if n =? 0 then 3 else n
        | None => 3
        end
    end = Ok (all_empty (room_size r)).
Proof.
  unfold row_accepted. rewrite !andb_true_iff. intros [[Hv Hc] _].
  unfold validate_classic_settings, column_checks in Hv, Hc.
  unfold room_size, empty_matrix, all_empty, array_length_ok.
  destruct (RoomRow.mode r); [|done].
  destruct (RoomRow.grid_size r) as [n|]; simpl in *; [|done].
  destruct (Z.eqb_spec n 0); [lia|].
  destruct (Z.leb_spec 0 n); [|lia].
  destruct (Z.leb_spec n 4294967295); [done|lia].
Qed.

Lemma place_lookup (currentGrid : Grid) (row col : Z) (symbol : Symbol) (i j : nat) :
  GameService.place currentGrid row col symbol !! i ≫= (.!! j)
  = (fun c => if bool_decide (Z.of_nat i = row ∧ Z.of_nat j = col) then Some symbol else c)
      <$> (currentGrid !! i ≫= (.!! j)).
Proof.
  unfold GameService.place, Grid, Cell in *. rewrite list_lookup_imap.
  destruct (currentGrid !! i) as [gridRow|]; simpl; [|done].
  rewrite list_lookup_imap.
  destruct (gridRow !! j) as [c|]; simpl; [|done].
  f_equal. destruct (Z.eqb_spec (Z.of_nat i) row), (Z.eqb_spec (Z.of_nat j) col); simpl;
    case_bool_decide; (done || tauto).
Qed.

(** C10: for a stored room, [makeMove] fetches the row and writes back its
    grid with cell [(row, col)] replaced by the symbol and every other cell
    as it was; players, votes, match counter, mode, grid size and win length
    are not touched. The write is unconditional: nothing is asked of the
    cell's content or of whose turn it is. The fetched grid is the matrix
    that the first text of the stored [grid] column encodes (the empty matrix
    when the column holds no text). *)
Theorem makeMove_writes_cell (w : World) (roomCode : string) (r : RoomRow.t)
    (row col : Z) (symbol : Symbol) :
  rooms w !! roomCode = Some r → row_accepted r = true →
  let currentGrid := GameService.parseGrid (RoomRow.grid r) in
  let newGrid := GameService.place currentGrid row col symbol in
  GameService.makeMove roomCode row col symbol w
  = (Ok tt,
     with_rooms
       (<[roomCode :=
            {| RoomRow.room_code := RoomRow.room_code r;
               RoomRow.mode := RoomRow.mode r;
               RoomRow.grid_size := RoomRow.grid_size r;
               RoomRow.win_length := RoomRow.win_length r;
               RoomRow.players := RoomRow.players r;
               RoomRow.grid := [JSON_stringify newGrid];
               RoomRow.restart_votes := RoomRow.restart_votes r;
               RoomRow.match_id := RoomRow.match_id r;
               RoomRow.created_at := RoomRow.created_at r;
               RoomRow.updated_at := now w |}]> (rooms w))
       (log (Update roomCode (GameService.grid_patch newGrid))
          (log (SelectSingle roomCode) w))) ∧
  (∀ i j : nat,
      newGrid !! i ≫= (.!! j)
      = (fun c => if bool_decide (Z.of_nat i = row ∧ Z.of_nat j = col)
                  then Some symbol else c)
          <$> (currentGrid !! i ≫= (.!! j))) ∧
  (∀ (stored : Grid) (rest : list JsonText),
      RoomRow.grid r = JSON_stringify stored :: rest →
      currentGrid = stored ∧
      ∃ r' written,
        rooms (GameService.makeMove roomCode row col symbol w).2 !! roomCode = Some r' ∧
        RoomRow.grid r' = [JSON_stringify written] ∧
        length written = length stored ∧
        ∀ i j : nat,
          written !! i ≫= (.!! j)
          = (fun c => if bool_decide (Z.of_nat i = row ∧ Z.of_nat j = col)
                      then Some symbol else c)
              <$> (stored !! i ≫= (.!! j))) ∧
  (RoomRow.grid r = [] → currentGrid = []).
Proof.
  intros Hr Hacc currentGrid newGrid.
  assert (Hrun : GameService.makeMove roomCode row col symbol w
    = (Ok tt,
       with_rooms
         (<[roomCode := update_updated_at_column (now (log (SelectSingle roomCode) w))
                          (apply_patch (GameService.grid_patch newGrid) r)]> (rooms w))
         (log (Update roomCode (GameService.grid_patch newGrid))
            (log (SelectSingle roomCode) w)))).
  { unfold GameService.makeMove.
    rewrite (M_bind_Ok _ _ _ _ _ (select_single_found roomCode r w Hr)).
    cbv beta iota. fold currentGrid. fold newGrid.
    rewrite (M_bind_Ok _ _ _ _ _
               (update_eq_found roomCode (GameService.grid_patch newGrid) r
                  (log (SelectSingle roomCode) w) Hr Hacc eq_refl)).
    done. }
  split; [exact Hrun|]. split; [apply place_lookup|]. split.
  - intros stored rest Hgrid.
    assert (Hcurrent : currentGrid = stored).
    { unfold currentGrid. by rewrite Hgrid. }
    split; [exact Hcurrent|].
    eexists _, newGrid. rewrite Hrun. cbn [snd with_rooms log rooms].
    split; [apply lookup_insert_eq|]. split; [reflexivity|].
    unfold newGrid. rewrite Hcurrent.
    split; [unfold GameService.place; apply length_imap|].
    apply place_lookup.
  - intros Hgrid. unfold currentGrid. by rewrite Hgrid.
Qed.

Lemma makeMove_writes_cell_witness :
  rooms w0 !! "00000"%string = Some row0 ∧ row_accepted row0 = true ∧
  (GameService.makeMove "00000" 1 1 sO w0).1 = Ok tt ∧
  RoomRow.grid <$> rooms (GameService.makeMove "00000" 1 1 sO w0).2 !! "00000"%string
  = Some [ JSON_stringify
             [ [Some sEmpty; Some sEmpty; Some sEmpty];
               [Some sEmpty; Some sO; Some sEmpty];
               [Some sEmpty; Some sEmpty; Some sEmpty] ] ].
Proof.
  split; [reflexivity|]. split; [reflexivity|].
  destruct (makeMove_writes_cell w0 "00000" row0 1 1 sO eq_refl eq_refl) as [Hrun _].
  rewrite Hrun. split; reflexivity.
Defined.

(** C8, as stated, at a concrete input: on a stored room whose match counter
    is the largest [INT], the store refuses the next counter with [22003];
    [resetGame] throws that error and the row stays as it was, votes and
    grid included. *)
Lemma resetGame_at_int_max :
  rooms w_max !! "00000"%string = Some row_max ∧ row_accepted row_max = true ∧
  ¬ reset_increments w_max "00000" row_max 2147483647 ∧
  (GameService.resetGame "00000" 2147483647 w_max).1 = Throw (PostgrestError "22003") ∧
  rooms (GameService.resetGame "00000" 2147483647 w_max).2 !! "00000"%string
  = Some row_max.
Proof.
  assert (Hrow : rooms (GameService.resetGame "00000" 2147483647 w_max).2 !! "00000"%string
                 = Some row_max) by (vm_compute; reflexivity).
  split; [reflexivity|]. split; [reflexivity|].
  split.
  { intros H. destruct (H eq_refl) as (r' & Hr' & _ & _ & Hm).
    rewrite Hrow in Hr'. injection Hr' as <-. simpl in Hm. lia. }
  split; [vm_compute; reflexivity|exact Hrow].
Qed.

(** C8 (amended): for a stored room, [resetGame] with a [currentMatchId]
    other than the row's [match_id] only reads the row: nothing is written
    and the call returns normally. With the row's [match_id], and as long as
    that is not the largest [INT], it writes an all-empty grid of the room's
    size, empty restart votes and [match_id = currentMatchId + 1]; mode, grid
    size, win length and players stay as they were. At the largest [INT] the
    store refuses the write with [22003]: [resetGame] throws and the table is
    unchanged. *)
Theorem resetGame_spec (w : World) (roomCode : string) (r : RoomRow.t)
    (currentMatchId : Z) :
  rooms w !! roomCode = Some r → row_accepted r = true →
  (RoomRow.match_id r ≠ currentMatchId →
     GameService.resetGame roomCode currentMatchId w
     = (Ok tt, log (SelectSingle roomCode) w) ∧
     rooms (log (SelectSingle roomCode) w) = rooms w) ∧
  (RoomRow.match_id r = currentMatchId → currentMatchId < 2147483647 →
     GameService.resetGame roomCode currentMatchId w
     = (Ok tt,
        with_rooms
          (<[roomCode :=
               {| RoomRow.room_code := RoomRow.room_code r;
                  RoomRow.mode := RoomRow.mode r;
                  RoomRow.grid_size := RoomRow.grid_size r;
                  RoomRow.win_length := RoomRow.win_length r;
                  RoomRow.players := RoomRow.players r;
                  RoomRow.grid := [JSON_stringify (all_empty (room_size r))];
                  RoomRow.restart_votes := ∅;
                  RoomRow.match_id := currentMatchId + 1;
                  RoomRow.created_at := RoomRow.created_at r;
                  RoomRow.updated_at := now w |}]> (rooms w))
          (log (Update roomCode
                  (GameService.reset_patch (all_empty (room_size r)) currentMatchId))
             (log (SelectSingle roomCode) w)))) ∧
  (RoomRow.match_id r = currentMatchId → currentMatchId = 2147483647 →
     GameService.resetGame roomCode currentMatchId w
     = (Throw (PostgrestError "22003"),
        log (Update roomCode
               (GameService.reset_patch (all_empty (room_size r)) currentMatchId))
          (log (SelectSingle roomCode) w)) ∧
     rooms (GameService.resetGame roomCode currentMatchId w).2 = rooms w).
Proof.
  intros Hr Hacc.
  assert (Hread :
    RoomRow.match_id r = currentMatchId →
    GameService.resetGame roomCode currentMatchId w
    = (updateError ← update_eq roomCode
                       (GameService.reset_patch (all_empty (room_size r)) currentMatchId);
       match updateError with
       | Some e => throw e
       | None => mret tt
       end) (log (SelectSingle roomCode) w)).
  { intros Heq. unfold GameService.resetGame.
    rewrite (M_bind_Ok _ _ _ _ _ (select_single_found roomCode r w Hr)).
    cbv beta iota.
    destruct (Z.eqb_spec (RoomRow.match_id r) currentMatchId); [|done].
    cbn [negb]. rewrite (accepted_room_size r Hacc).
    by rewrite (M_bind_Ok (lift _) _ _ _ _ eq_refl). }
  pose proof (row_accepted_int4 r Hacc) as Hint.
  split; [|split].
  - intros Hne. split; [|done]. unfold GameService.resetGame.
    rewrite (M_bind_Ok _ _ _ _ _ (select_single_found roomCode r w Hr)).
    cbv beta iota.
    destruct (Z.eqb_spec (RoomRow.match_id r) currentMatchId); [done|]. done.
  - intros Heq Hlt. rewrite (Hread Heq).
    rewrite (M_bind_Ok _ _ _ _ _
               (update_eq_found roomCode
                  (GameService.reset_patch (all_empty (room_size r)) currentMatchId) r
                  (log (SelectSingle roomCode) w) Hr Hacc
                  ltac:(unfold patch_in_range, int4; cbn; lia))).
    done.
  - intros Heq Hmax. rewrite (Hread Heq).
    rewrite (M_bind_Ok _ _ _ _ _
               (update_eq_out_of_range roomCode
                  (GameService.reset_patch (all_empty (room_size r)) currentMatchId) r
                  (log (SelectSingle roomCode) w) (currentMatchId + 1) Hr eq_refl
                  ltac:(unfold int4; lia))).
    done.
Qed.

Lemma resetGame_spec_witness :
  rooms w0 !! "00000"%string = Some row0 ∧ row_accepted row0 = true ∧
  RoomRow.match_id row0 ≠ 3 ∧
  GameService.resetGame "00000" 3 w0 = (Ok tt, log (SelectSingle "00000") w0) ∧
  RoomRow.match_id <$> rooms (GameService.resetGame "00000" 4 w0).2 !! "00000"%string
  = Some 5.
Proof.
  split; [reflexivity|]. split; [reflexivity|].
  assert (Hne : RoomRow.match_id row0 ≠ 3) by (simpl; lia).
  split; [exact Hne|].
  destruct (resetGame_spec w0 "00000" row0 3 eq_refl eq_refl) as (Hstale & _ & _).
  split; [exact (proj1 (Hstale Hne))|].
  destruct (resetGame_spec w0 "00000" row0 4 eq_refl eq_refl) as (_ & Hreset & _).
  rewrite (Hreset eq_refl ltac:(lia)). reflexivity.
Defined.

Lemma generateRoomCode_run (w : World) :
  GameService.generateRoomCode w
  = (Ok (nth_code w 0),
     {| rooms := rooms w; localStorage := localStorage w; now := now w;
        random_bytes := random_bytes w; bytes_drawn := (bytes_drawn w + 5)%nat;
        random_uuids := random_uuids w; uuids_drawn := uuids_drawn w;
        trace := trace w ++ [GetRandomValues 5] |}).
Proof.
  unfold GameService.generateRoomCode, nth_code, mbind, M_bind, getRandomValues, mret, M_ret, log.
  cbn [rooms localStorage now random_bytes bytes_drawn random_uuids uuids_drawn trace].
  do 3 f_equal. apply map_ext. intros i. do 2 f_equal. lia.
Qed.

Lemma flat_map_shift {A} (f g : nat -> list A) (l : list nat) :
  (∀ k, f k = g (S k)) → flat_map f l = flat_map g (map S l).
Proof.
  intros Hfg. induction l as [|k l IH]; [done|].
  cbn [map flat_map]. by rewrite Hfg, IH.
Qed.

Lemma unique_code_loop_exhausted (n : nat) :
  ∀ (w : World) (roomCode : string) (attempts : Z),
    (∀ k, (k < n)%nat → is_Some (rooms w !! nth_code w k)) →
    ∃ roomCode',
      GameService.unique_code_loop n roomCode attempts w
      = (Ok (roomCode', attempts + Z.of_nat n), after_attempts n w).
Proof.
  induction n as [|n IH]; intros w roomCode attempts Htaken.
  - exists roomCode. cbn [GameService.unique_code_loop]. unfold mret, M_ret, after_attempts.
    destruct w; cbn. rewrite Z.add_0_r, Nat.add_0_r, app_nil_r. done.
  - cbn [GameService.unique_code_loop].
    rewrite (M_bind_Ok _ _ _ _ _ (generateRoomCode_run w)).
    set (w1 := {| rooms := rooms w; localStorage := localStorage w; now := now w;
                  random_bytes := random_bytes w; bytes_drawn := (bytes_drawn w + 5)%nat;
                  random_uuids := random_uuids w; uuids_drawn := uuids_drawn w;
                  trace := trace w ++ [GetRandomValues 5] |}).
    destruct (Htaken 0%nat) as [r0 Hr0]; [lia|].
    assert (Hsel : select_room_code (nth_code w 0) w1
                   = (Ok (Some (RoomRow.room_code r0)), log (SelectRoomCode (nth_code w 0)) w1)).
    { unfold select_room_code. subst w1. cbn [rooms]. by rewrite Hr0. }
    rewrite (M_bind_Ok _ _ _ _ _ Hsel). cbv beta iota.
    set (w2 := log (SelectRoomCode (nth_code w 0)) w1).
    assert (Hshift : ∀ k, nth_code w2 k = nth_code w (S k)).
    { intros k. unfold nth_code. subst w2 w1. cbn [log random_bytes bytes_drawn].
      f_equal. apply map_ext. intros i. do 2 f_equal. lia. }
    destruct (IH w2 (nth_code w 0) (attempts + 1)) as [roomCode' Hloop].
    { intros k Hk. rewrite Hshift. subst w2 w1. cbn [log rooms]. apply Htaken. lia. }
    exists roomCode'. rewrite Hloop. f_equal; [do 2 f_equal; lia|].
    assert (Htrace : trace w2 = trace w ++ attempt_events w 0).
    { subst w2 w1. cbn [log trace]. by rewrite <- app_assoc. }
    assert (Hbytes : bytes_drawn w2 = (bytes_drawn w + 5)%nat) by done.
    unfold after_attempts. rewrite Htrace, Hbytes.
    f_equal; [lia|].
    rewrite <- app_assoc. f_equal.
    rewrite <- cons_seq. cbn [flat_map]. f_equal.
    rewrite <- seq_shift. apply flat_map_shift. intros k. unfold attempt_events.
    by rewrite Hshift.
Qed.

(** C9: when every generated room code is reported as existing,
    [createRoom] makes exactly 10 attempts (a code generated, then looked
    up), throws the allocation error, and inserts nothing: the table is as it
    was and the only requests sent are the 10 lookups. *)
Theorem createRoom_exhausts (w : World) (mode : GameMode) (playerName : string)
    (gridSize winLength : option Z) :
  (∀ k, (k < 10)%nat → is_Some (rooms w !! nth_code w k)) →
  ∃ w',
    GameService.createRoom mode playerName gridSize winLength w
    = (Throw (Error "Failed to generate unique room code"), w') ∧
    rooms w' = rooms w ∧
    localStorage w' = localStorage w ∧
    bytes_drawn w' = (bytes_drawn w + 5 * 10)%nat ∧
    trace w' = trace w ++ flat_map (attempt_events w) (seq 0 10).
Proof.
  intros Htaken. exists (after_attempts 10 w).
  split; [|done].
  unfold GameService.createRoom.
  destruct (unique_code_loop_exhausted 10 w EmptyString 0 Htaken) as [roomCode' Hloop].
  change (Z.to_nat GameService.maxAttempts) with 10%nat.
  rewrite (M_bind_Ok _ _ _ _ _ Hloop). done.
Qed.

Lemma createRoom_exhausts_witness :
  (∀ k, (k < 10)%nat → is_Some (rooms w0 !! nth_code w0 k)) ∧
  (GameService.createRoom classic "Bob" (Some 3) (Some 3) w0).1
  = Throw (Error "Failed to generate unique room code").
Proof.
  assert (Htaken : ∀ k, (k < 10)%nat → is_Some (rooms w0 !! nth_code w0 k)).
  { intros k _. exists row0. reflexivity. }
  split; [exact Htaken|].
  destruct (createRoom_exhausts w0 classic "Bob" (Some 3) (Some 3) Htaken)
    as (w' & Hrun & _).
  rewrite Hrun. reflexivity.
Defined.


(* ================================================================== *)
(** * Further properties of the code *)

(** ** Classic engine *)

Lemma cell_Ok_at (grid : Grid) (row col : Z) (v : Cell) :
  cell grid row col = Ok v → at_ grid row col = v.
Proof.
  unfold cell, at_. destruct (index grid row); [by intros [= ->]|done].
Qed.

Lemma scan_order_complete (size winLength row col : Z) (d : Z * Z) :
  1 <= winLength → d ∈ directions →
  0 <= row < size → 0 <= col < size →
  0 <= row + (winLength - 1) * d.1 < size →
  0 <= col + (winLength - 1) * d.2 < size →
  (row, col, d) ∈ scan_order size winLength.
Proof.
  intros Hlen Hd Hrow Hcol Hrow' Hcol'. unfold scan_order, directions in *.
  rewrite !elem_of_app.
  apply list_elem_of_In in Hd. simpl in Hd.
  destruct Hd as [<-|[<-|[<-|[<-|[]]]]]; simpl in *.
  - left. apply list_elem_of_bind. exists row. split; [|apply elem_of_seqZ; lia].
    apply list_elem_of_bind. exists col. split; [|apply elem_of_seqZ; lia].
    by apply list_elem_of_singleton.
  - right; left. apply list_elem_of_bind. exists col. split; [|apply elem_of_seqZ; lia].
    apply list_elem_of_bind. exists row. split; [|apply elem_of_seqZ; lia].
    by apply list_elem_of_singleton.
  - right; right; left.
    apply list_elem_of_bind. exists row. split; [|apply elem_of_seqZ; lia].
    apply list_elem_of_bind. exists col. split; [|apply elem_of_seqZ; lia].
    by apply list_elem_of_singleton.
  - right; right; right.
    apply list_elem_of_bind. exists row. split; [|apply elem_of_seqZ; lia].
    apply list_elem_of_bind. exists col. split; [|apply elem_of_seqZ; lia].
    by apply list_elem_of_singleton.
Qed.

Lemma first_run_finds (grid : Grid) (winLength row col : Z) (d : Z * Z) (s : Symbol) :
  square grid → 1 <= winLength → d ∈ directions → s = sX ∨ s = sO →
  (∀ i, 0 <= i < winLength → at_ grid (row + i * d.1) (col + i * d.2) = Some s) →
  winner (first_run grid winLength) ≠ None.
Proof.
  intros Hsq Hlen Hd HXO Hcells. destruct d as [dr dc]. simpl in Hcells.
  unfold first_run.
  destruct (List.find _ _) as [[[row' col'] d']|] eqn:Hfind.
  - apply find_some in Hfind as [_ Hrun]. unfold is_run in Hrun.
    destruct d' as [dr' dc']. apply andb_true_iff in Hrun as [Ht _].
    apply truthy_symbol in Ht as (s' & -> & _). done.
  - exfalso.
    assert (H0 := Hcells 0). assert (H1 := Hcells (winLength - 1)).
    rewrite !Z.mul_0_l, !Z.add_0_r in H0.
    apply (at_Some_bounds _ _ _ _ Hsq) in H0; [|lia].
    apply (at_Some_bounds _ _ _ _ Hsq) in H1; [|lia].
    assert (Hin : (row, col, (dr, dc)) ∈ scan_order (Z.of_nat (length grid)) winLength)
      by (apply scan_order_complete; simpl; (done || lia)).
    apply list_elem_of_In in Hin.
    apply (find_none _ _ Hfind) in Hin.
    unfold is_run in Hin. apply andb_false_iff in Hin as [Hin|Hin].
    + specialize (Hcells 0). rewrite !Z.mul_0_l, !Z.add_0_r in Hcells.
      rewrite Hcells in Hin by lia. by destruct HXO as [-> | ->].
    + apply not_true_iff_false in Hin. apply Hin. apply forallb_forall.
      intros i Hi. apply list_elem_of_In, elem_of_seqZ in Hi.
      unfold matches_at. apply Cell_eqb_eq.
      rewrite (Hcells i) by lia.
      specialize (Hcells 0). rewrite !Z.mul_0_l, !Z.add_0_r in Hcells.
      rewrite Hcells by lia. done.
Qed.

(** X1: a run of [winLength] equal X or O cells along a row, a column or a
    diagonal of a square grid never goes unnoticed: [checkWin] (with
    [winLength >= 1]) then reports a winner. *)
Theorem checkWin_finds_run (grid : Grid) (winLength row col : Z) (d : Z * Z) (s : Symbol) :
  square grid → 1 <= winLength → d ∈ directions → s = sX ∨ s = sO →
  (∀ i, 0 <= i < winLength →
        cell grid (row + i * d.1) (col + i * d.2) = Ok (Some s)) →
  ∃ r, ClassicGameLogic.checkWin grid winLength = Ok r ∧ winner r ≠ None.
Proof.
  intros Hsq Hlen Hd HXO Hcells. exists (first_run grid winLength).
  split; [by apply checkWin_scan|].
  apply (first_run_finds grid winLength row col d s); try done.
  intros i Hi. by apply cell_Ok_at, Hcells.
Qed.

Lemma checkWin_finds_run_witness :
  ∃ r, ClassicGameLogic.checkWin g_both 3 = Ok r ∧ winner r ≠ None.
Proof.
  apply (checkWin_finds_run g_both 3 0 0 (1, 0) sX).
  - repeat constructor.
  - lia.
  - unfold directions. set_solver.
  - by left.
  - intros i Hi. assert (i = 0 ∨ i = 1 ∨ i = 2) as [->|[->| ->]] by lia; reflexivity.
Defined.

Lemma bind_nil_inner {A B} (f : A -> list B) (l : list A) :
  (∀ x, f x = []) → l ≫= f = [].
Proof.
  intros Hf. induction l as [|x l IH]; [done|]. by rewrite bind_cons, Hf, IH.
Qed.

Lemma seqZ_nonpos (m n : Z) : n <= 0 → seqZ m n = [].
Proof. intros Hn. unfold seqZ. by replace (Z.to_nat n) with 0%nat by lia. Qed.

(** X2: when [winLength] exceeds the side of the grid no run fits, and
    [checkWin] returns [{null, null}] whatever the grid holds. *)
Theorem checkWin_too_long (grid : Grid) (winLength : Z) :
  Z.of_nat (length grid) < winLength →
  ClassicGameLogic.checkWin grid winLength = Ok {| winner := None; winningLine := None |}.
Proof.
  intros Hlong. rewrite checkWin_scan by lia. f_equal.
  assert (Hnone : scan_order (Z.of_nat (length grid)) winLength = []).
  { unfold scan_order.
    rewrite (seqZ_nonpos _ (Z.of_nat (length grid) - winLength + 1)) by lia.
    rewrite !(bind_nil_inner _ (seqZ 0 (Z.of_nat (length grid)))) by done. done. }
  unfold first_run. by rewrite Hnone.
Qed.

Lemma checkWin_too_long_witness :
  ClassicGameLogic.checkWin g_example 4 = Ok {| winner := None; winningLine := None |}.
Proof. apply (checkWin_too_long g_example 4). simpl. lia. Defined.

(** X3: the classic [isValidMove] accepts exactly the cells that exist and
    hold ['']; outside the grid it answers [false], it never throws. *)
Theorem classic_isValidMove_spec (grid : Grid) (row col : Z) :
  (ClassicGameLogic.isValidMove grid row col = true ↔
     cell grid row col = Ok (Some sEmpty)) ∧
  (ClassicGameLogic.isValidMove grid row col = true →
     0 <= row < Z.of_nat (length grid) ∧
     ∃ gridRow, index grid row = Some gridRow ∧ 0 <= col < Z.of_nat (length gridRow)) ∧
  (row < 0 ∨ Z.of_nat (length grid) <= row → ClassicGameLogic.isValidMove grid row col = false).
Proof.
  unfold ClassicGameLogic.isValidMove, cell.
  destruct (index grid row) as [gridRow|] eqn:Hrow.
  - assert (Hr : 0 <= row < Z.of_nat (length grid)) by (apply index_is_Some; eauto).
    split; [|split].
    + rewrite Cell_eqb_eq. split; [by intros ->|by intros [= ->]].
    + intros Hv%Cell_eqb_eq. split; [done|]. exists gridRow. split; [done|].
      apply index_is_Some. destruct (index gridRow col); [eauto|done].
    + lia.
  - split; [|split]; try done.
Qed.

Lemma forallb_concat {A} (f : A -> bool) (ll : list (list A)) :
  forallb (fun l => forallb f l) ll = forallb f (concat ll).
Proof.
  induction ll as [|l ll IH]; simpl; [done|]. by rewrite forallb_app, IH.
Qed.

Lemma filter_all_length {A} (f : A -> bool) (l : list A) :
  forallb f l = true ↔ length (filter (fun x => f x = true) l) = length l.
Proof.
  induction l as [|x l IH]; [done|].
  rewrite filter_cons. case_decide as Hx; simpl.
  - rewrite Hx. simpl. rewrite IH. lia.
  - apply not_true_is_false in Hx. rewrite Hx. simpl.
    pose proof (length_filter (fun x => f x = true) l). split; [done|lia].
Qed.

Lemma checkDraw_moveCount_aux (grid : Grid) :
  ClassicGameLogic.checkDraw grid = true ↔
  GameUtils.getMoveCount grid = Z.of_nat (length (concat grid)).
Proof.
  unfold ClassicGameLogic.checkDraw, GameUtils.getMoveCount.
  rewrite forallb_concat, filter_all_length. lia.
Qed.

(** X4: [checkDraw] holds exactly when the move count has reached the number
    of cells of the grid. *)
Theorem checkDraw_moveCount (grid : Grid) :
  ClassicGameLogic.checkDraw grid = true ↔
  GameUtils.getMoveCount grid = Z.of_nat (length (concat grid)).
Proof. apply checkDraw_moveCount_aux. Qed.

(** ** Fresh grids *)

Lemma find_all_false {A} (p : A -> bool) (l : list A) :
  (∀ x, p x = false) → List.find p l = None.
Proof.
  intros Hp. induction l as [|x l IH]; simpl; [done|]. by rewrite Hp.
Qed.

Lemma first_run_no_symbol (grid : Grid) (winLength : Z) :
  (∀ row col, truthy (at_ grid row col) = false) →
  first_run grid winLength = {| winner := None; winningLine := None |}.
Proof.
  intros Hno. unfold first_run. rewrite find_all_false; [done|].
  intros [[row col] [dr dc]]. unfold is_run. by rewrite Hno.
Qed.

Lemma at_all_empty (size row col : Z) :
  at_ (all_empty size) row col
  = if bool_decide (0 <= row < size ∧ 0 <= col < size) then Some sEmpty else None.
Proof.
  unfold at_, all_empty, index.
  destruct (Z.ltb_spec row 0).
  { rewrite bool_decide_eq_false_2 by lia. done. }
  destruct (decide (row < size)) as [Hr|Hr].
  - rewrite lookup_replicate_2 by lia.
    destruct (Z.ltb_spec col 0).
    { rewrite bool_decide_eq_false_2 by lia. done. }
    destruct (decide (col < size)) as [Hc|Hc].
    + rewrite lookup_replicate_2 by lia. rewrite bool_decide_eq_true_2 by lia. done.
    + rewrite (proj1 (lookup_replicate_None _ _ _)) by lia. rewrite bool_decide_eq_false_2 by lia. done.
  - rewrite (proj1 (lookup_replicate_None _ _ _)) by lia. rewrite bool_decide_eq_false_2 by lia. done.
Qed.

Lemma moveCount_all_empty (size : Z) : GameUtils.getMoveCount (all_empty size) = 0.
Proof.
  unfold GameUtils.getMoveCount, all_empty.
  generalize (Z.to_nat size) at 1. intros m.
  assert (Hrow : ∀ n, filter (fun c => ClassicGameLogic.filled c = true)
                        (replicate n (Some sEmpty)) = []).
  { induction n as [|n IH]; [done|]. simpl. rewrite filter_cons_False by done. exact IH. }
  induction m as [|m IH]; [done|].
  simpl. rewrite filter_app, Hrow. simpl. exact IH.
Qed.

(** X5: [createEmptyGrid] refuses a size that is no array length with a
    [RangeError]; otherwise it gives the square grid of that size whose cells
    all hold ['']: no move counted, X to move, no winner for any
    [winLength >= 1], and a draw only in the degenerate size 0. *)
Theorem createEmptyGrid_spec (size : Z) :
  (size < 0 ∨ 4294967295 < size → GameUtils.createEmptyGrid size = Throw RangeError) ∧
  (0 <= size <= 4294967295 →
     GameUtils.createEmptyGrid size = Ok (all_empty size) ∧
     Z.of_nat (length (all_empty size)) = size ∧
     square (all_empty size) ∧
     (∀ row col, 0 <= row < size → 0 <= col < size →
                 cell (all_empty size) row col = Ok (Some sEmpty)) ∧
     GameUtils.getMoveCount (all_empty size) = 0 ∧
     ClassicGameLogic.getCurrentPlayer (all_empty size) = sX ∧
     (ClassicGameLogic.checkDraw (all_empty size) = true ↔ size = 0) ∧
     (∀ winLength, 1 <= winLength →
        ClassicGameLogic.checkWin (all_empty size) winLength
        = Ok {| winner := None; winningLine := None |})).
Proof.
  unfold GameUtils.createEmptyGrid, empty_matrix, array_length_ok. split.
  - intros Hbad. destruct (Z.leb_spec 0 size); simpl; [|done].
    destruct (Z.leb_spec size 4294967295); [lia|done].
  - intros Hok.
    assert (Hlen : Z.of_nat (length (all_empty size)) = size).
    { unfold all_empty. rewrite length_replicate. lia. }
    split.
    { destruct (Z.leb_spec 0 size); [|lia].
      destruct (Z.leb_spec size 4294967295); [done|lia]. }
    split; [exact Hlen|]. split.
    { unfold square, all_empty. apply Forall_forall. intros gridRow Hin.
      apply elem_of_replicate in Hin as [-> _]. by rewrite !length_replicate. }
    split.
    { intros row col Hrow Hcol. rewrite cell_at by lia.
      rewrite at_all_empty, bool_decide_eq_true_2 by lia. done. }
    split; [apply moveCount_all_empty|]. split.
    { unfold ClassicGameLogic.getCurrentPlayer.
      change (Z.of_nat (length (filter _ (concat (all_empty size)))))
        with (GameUtils.getMoveCount (all_empty size)).
      by rewrite moveCount_all_empty. }
    split.
    { rewrite checkDraw_moveCount_aux, moveCount_all_empty.
      unfold all_empty. destruct (Z.to_nat size) as [|n] eqn:Hn.
      - simpl. lia.
      - simpl. rewrite length_app, length_replicate. lia. }
    intros winLength Hwl. rewrite checkWin_scan by done. f_equal.
    apply first_run_no_symbol. intros row col. rewrite at_all_empty.
    by case_bool_decide.
Qed.

Lemma createEmptyGrid_spec_witness :
  GameUtils.createEmptyGrid 3 = Ok (all_empty 3) ∧
  GameUtils.createEmptyGrid (-1) = Throw RangeError.
Proof.
  split.
  - apply (proj2 (createEmptyGrid_spec 3)). lia.
  - apply (proj1 (createEmptyGrid_spec (-1))). lia.
Defined.

(** ** Placing a symbol *)

Lemma place_rows (grid : Grid) (row col : Z) (s : Symbol) (i : nat) :
  GameService.place grid row col s !! i
  = (fun gridRow =>
       if Z.of_nat i =? row
       then imap (fun j c => if Z.of_nat j =? col then Some s else c) gridRow
       else gridRow) <$> grid !! i.
Proof.
  unfold GameService.place, Grid, Cell in *. rewrite list_lookup_imap.
  destruct (grid !! i) as [gridRow|]; simpl; [|done]. f_equal.
  destruct (Z.of_nat i =? row); simpl; [done|].
  apply list_eq. intros j. rewrite list_lookup_imap. by destruct (gridRow !! j).
Qed.

Lemma imap_set_insert (gridRow : list Cell) (col : Z) (v : Cell) :
  0 <= col →
  imap (fun j c => if Z.of_nat j =? col then v else c) gridRow
  = <[Z.to_nat col := v]> gridRow.
Proof.
  intros Hcol. unfold Cell in *. apply list_eq. intros j. rewrite list_lookup_imap.
  destruct (decide (j = Z.to_nat col)) as [->|Hne].
  - rewrite Z2Nat.id, Z.eqb_refl by done.
    destruct (gridRow !! Z.to_nat col) as [c|] eqn:Hc; simpl.
    + by rewrite list_lookup_insert_eq by (by eapply lookup_lt_Some).
    + rewrite (proj2 (lookup_ge_None _ _)); [done|].
      rewrite length_insert. by apply lookup_ge_None.
  - rewrite list_lookup_insert_ne by done.
    destruct (Z.eqb_spec (Z.of_nat j) col); [lia|]. by destruct (gridRow !! j).
Qed.

(** Where the row exists and the column is not negative, [place] is an
    update in place. *)
Lemma place_insert (grid : Grid) (row col : Z) (s : Symbol) (gridRow : list Cell) :
  index grid row = Some gridRow → 0 <= col →
  GameService.place grid row col s
  = <[Z.to_nat row := <[Z.to_nat col := Some s]> gridRow]> grid.
Proof.
  intros Hrow Hcol.
  assert (Hr : 0 <= row < Z.of_nat (length grid)) by (apply index_is_Some; eauto).
  unfold index in Hrow. destruct (Z.ltb_spec row 0); [lia|].
  unfold Grid, Cell in *. apply list_eq. intros i. rewrite place_rows.
  unfold Grid, Cell in *.
  destruct (decide (i = Z.to_nat row)) as [->|Hne].
  - rewrite Z2Nat.id, Z.eqb_refl, Hrow by lia. simpl.
    rewrite list_lookup_insert_eq by lia. f_equal. by apply imap_set_insert.
  - rewrite list_lookup_insert_ne by done.
    destruct (Z.eqb_spec (Z.of_nat i) row); [lia|]. by destruct (grid !! i).
Qed.

(** The cell a symbol is counted for. *)
Lemma filled_count_insert (l : list Cell) (i : nat) (s : Symbol) :
  l !! i = Some (Some sEmpty) → s ≠ sEmpty →
  length (filter (fun c => ClassicGameLogic.filled c = true) (<[i := Some s]> l))
  = S (length (filter (fun c => ClassicGameLogic.filled c = true) l)).
Proof.
  intros Hi Hs. unfold Cell in *.
  rewrite insert_take_drop by (by eapply lookup_lt_Some).
  rewrite <- (take_drop_middle l i (Some sEmpty) Hi) at 3.
  rewrite !filter_app, !length_app.
  rewrite filter_cons_True by (by destruct s).
  rewrite (filter_cons_False _ (Some sEmpty)) by done.
  simpl. lia.
Qed.

Lemma moveCount_insert (grid : Grid) (r c : nat) (gridRow : list Cell) (s : Symbol) :
  grid !! r = Some gridRow → gridRow !! c = Some (Some sEmpty) → s ≠ sEmpty →
  GameUtils.getMoveCount (<[r := <[c := Some s]> gridRow]> grid)
  = GameUtils.getMoveCount grid + 1.
Proof.
  intros Hr Hc Hs.
  pose proof (filled_count_insert gridRow c s Hc Hs) as Hcount.
  unfold GameUtils.getMoveCount, Grid, Cell in *.
  rewrite insert_take_drop by (by eapply lookup_lt_Some).
  rewrite <- (take_drop_middle grid r gridRow Hr) at 3.
  rewrite !concat_app, !concat_cons, !filter_app, !length_app.
  rewrite Hcount. lia.
Qed.

Lemma moveCount_nonneg (grid : Grid) : 0 <= GameUtils.getMoveCount grid.
Proof. unfold GameUtils.getMoveCount. lia. Qed.

Lemma currentPlayer_moveCount (grid : Grid) :
  ClassicGameLogic.getCurrentPlayer grid
  = if Z.rem (GameUtils.getMoveCount grid) 2 =? 0 then sX else sO.
Proof. reflexivity. Qed.

Lemma currentPlayer_flips (g g' : Grid) :
  GameUtils.getMoveCount g' = GameUtils.getMoveCount g + 1 →
  ClassicGameLogic.getCurrentPlayer g'
  = if Symbol_eqb (ClassicGameLogic.getCurrentPlayer g) sX then sO else sX.
Proof.
  intros Hcount. rewrite !currentPlayer_moveCount, Hcount.
  pose proof (moveCount_nonneg g).
  destruct (Z.eqb_spec (Z.rem (GameUtils.getMoveCount g) 2) 0) as [He|He];
    destruct (Z.eqb_spec (Z.rem (GameUtils.getMoveCount g + 1) 2) 0) as [He'|He'];
    simpl; try done; exfalso; revert He He'; Z.to_euclidean_division_equations; lia.
Qed.

Lemma cell_empty_lookup (grid : Grid) (row col : Z) :
  cell grid row col = Ok (Some sEmpty) →
  0 <= row ∧ 0 <= col ∧
  ∃ gridRow, index grid row = Some gridRow ∧
             grid !! Z.to_nat row = Some gridRow ∧
             gridRow !! Z.to_nat col = Some (Some sEmpty).
Proof.
  unfold cell, index, Grid, Cell in *. destruct (Z.ltb_spec row 0); [done|].
  destruct (grid !! Z.to_nat row) as [gridRow|] eqn:Hrow; simpl; [|done].
  destruct (Z.ltb_spec col 0); [by simpl|].
  destruct (gridRow !! Z.to_nat col) as [v|] eqn:Hcol; simpl; [|done].
  intros [= ->]. split; [done|]. split; [done|]. by exists gridRow.
Qed.

(** X6: writing X or O into an empty cell, as [makeMove] does, raises the
    move count by one and passes the turn that [getCurrentPlayer] derives to
    the other symbol. *)
Theorem move_passes_turn (grid : Grid) (row col : Z) (s : Symbol) :
  cell grid row col = Ok (Some sEmpty) → s ≠ sEmpty →
  GameUtils.getMoveCount (GameService.place grid row col s)
  = GameUtils.getMoveCount grid + 1 ∧
  ClassicGameLogic.getCurrentPlayer (GameService.place grid row col s)
  = if Symbol_eqb (ClassicGameLogic.getCurrentPlayer grid) sX then sO else sX.
Proof.
  intros Hcell Hs.
  destruct (cell_empty_lookup _ _ _ Hcell) as (Hr & Hc & gridRow & Hidx & Hrow & Hcol).
  assert (Hcount : GameUtils.getMoveCount (GameService.place grid row col s)
                   = GameUtils.getMoveCount grid + 1).
  { rewrite (place_insert grid row col s gridRow) by done. by apply moveCount_insert. }
  split; [exact Hcount|]. by apply currentPlayer_flips.
Qed.

Lemma move_passes_turn_witness :
  ClassicGameLogic.getCurrentPlayer (GameService.place g_example 2 2 sX) = sX.
Proof.
  rewrite (proj2 (move_passes_turn g_example 2 2 sX eq_refl ltac:(discriminate))).
  reflexivity.
Defined.

Lemma place_shape (grid : Grid) (row col : Z) (s : Symbol) :
  length (GameService.place grid row col s) = length grid ∧
  ∀ i, length <$> (GameService.place grid row col s !! i) = length <$> (grid !! i).
Proof.
  split.
  - unfold GameService.place. apply length_imap.
  - intros i. rewrite place_rows. unfold Grid, Cell in *.
    destruct (grid !! i) as [gridRow|]; simpl; [|done]. f_equal.
    destruct (Z.of_nat i =? row); [apply length_imap|done].
Qed.

Lemma place_outside (grid : Grid) (row col : Z) (s : Symbol) :
  index grid row ≫= (fun gridRow => index gridRow col) = None →
  GameService.place grid row col s = grid.
Proof.
  intros Hout. unfold Grid, Cell in *. apply list_eq. intros i. rewrite place_rows.
  unfold Grid, Cell in *.
  destruct (grid !! i) as [gridRow|] eqn:Hi; simpl; [|done]. f_equal.
  destruct (Z.eqb_spec (Z.of_nat i) row) as [<-|]; [|done].
  rewrite index_of_nat in Hout. unfold Grid, Cell in *. rewrite Hi in Hout. simpl in Hout.
  apply list_eq. intros j. rewrite list_lookup_imap.
  destruct (gridRow !! j) as [c|] eqn:Hj; simpl; [|done]. f_equal.
  destruct (Z.eqb_spec (Z.of_nat j) col) as [<-|]; [|done].
  rewrite index_of_nat in Hout. congruence.
Qed.

Lemma place_place (grid : Grid) (row col : Z) (s1 s2 : Symbol) :
  GameService.place (GameService.place grid row col s1) row col s2
  = GameService.place grid row col s2.
Proof.
  unfold Grid, Cell in *. apply list_eq. intros i. rewrite !place_rows.
  unfold Grid, Cell in *.
  destruct (grid !! i) as [gridRow|]; simpl; [|done]. f_equal.
  destruct (Z.of_nat i =? row); [|done].
  apply list_eq. intros j. rewrite !list_lookup_imap.
  destruct (gridRow !! j) as [c|]; simpl; [|done].
  by destruct (Z.of_nat j =? col).
Qed.

(** ** Ultimate engine: coordinates and sub-boards *)

Lemma board_coordinates_round_trip_aux :
  (∀ row col, 0 <= row < 9 → 0 <= col < 9 →
     0 <= UltimateGameLogic.getLocalBoardIndex row col < 9 ∧
     0 <= Z.rem row 3 < 3 ∧ 0 <= Z.rem col 3 < 3 ∧
     row = UltimateGameLogic.getLocalBoardIndex row col / 3 * 3 + Z.rem row 3 ∧
     col = Z.rem (UltimateGameLogic.getLocalBoardIndex row col) 3 * 3 + Z.rem col 3) ∧
  (∀ boardIndex localRow localCol,
     0 <= boardIndex < 9 → 0 <= localRow < 3 → 0 <= localCol < 3 →
     0 <= boardIndex / 3 * 3 + localRow < 9 ∧
     0 <= Z.rem boardIndex 3 * 3 + localCol < 9 ∧
     UltimateGameLogic.getLocalBoardIndex
       (boardIndex / 3 * 3 + localRow) (Z.rem boardIndex 3 * 3 + localCol) = boardIndex ∧
     UltimateGameLogic.getLocalCellCoords
       (boardIndex / 3 * 3 + localRow) (Z.rem boardIndex 3 * 3 + localCol)
     = (localRow, localCol)).
Proof.
  unfold UltimateGameLogic.getLocalBoardIndex, UltimateGameLogic.getLocalCellCoords.
  split.
  - intros row col Hrow Hcol.
    repeat split; Z.to_euclidean_division_equations; lia.
  - intros boardIndex localRow localCol Hb Hr Hc.
    split; [Z.to_euclidean_division_equations; lia|].
    split; [Z.to_euclidean_division_equations; lia|].
    split; [Z.to_euclidean_division_equations; lia|].
    f_equal; Z.to_euclidean_division_equations; lia.
Qed.

(** X7: on the 9x9 board, [getLocalBoardIndex] and [getLocalCellCoords] split
    a cell into a sub-board 0-8 and a local cell (0-2, 0-2) from which the cell
    is recovered, and every such pair comes from exactly that cell. *)
Theorem board_coordinates_round_trip :
  (∀ row col, 0 <= row < 9 → 0 <= col < 9 →
     let boardIndex := UltimateGameLogic.getLocalBoardIndex row col in
     let '(localRow, localCol) := UltimateGameLogic.getLocalCellCoords row col in
     0 <= boardIndex < 9 ∧ 0 <= localRow < 3 ∧ 0 <= localCol < 3 ∧
     row = boardIndex / 3 * 3 + localRow ∧
     col = Z.rem boardIndex 3 * 3 + localCol) ∧
  (∀ boardIndex localRow localCol,
     0 <= boardIndex < 9 → 0 <= localRow < 3 → 0 <= localCol < 3 →
     let row := boardIndex / 3 * 3 + localRow in
     let col := Z.rem boardIndex 3 * 3 + localCol in
     0 <= row < 9 ∧ 0 <= col < 9 ∧
     UltimateGameLogic.getLocalBoardIndex row col = boardIndex ∧
     UltimateGameLogic.getLocalCellCoords row col = (localRow, localCol)).
Proof. exact board_coordinates_round_trip_aux. Qed.

Lemma board_coordinates_round_trip_witness :
  UltimateGameLogic.getLocalBoardIndex 4 7 = 5 ∧
  UltimateGameLogic.getLocalCellCoords 4 7 = (1, 1).
Proof.
  destruct (proj2 board_coordinates_round_trip 5 1 1) as (_ & _ & Hb & Hc); try lia.
  split; [exact Hb|exact Hc].
Defined.

Lemma local_board_cell (grid : Grid) (boardIndex r c : Z) :
  0 <= r < 3 → 0 <= c < 3 →
  cell (local_board grid boardIndex) r c
  = Ok (at_ grid (boardIndex / 3 * 3 + r) (Z.rem boardIndex 3 * 3 + c)).
Proof.
  intros Hr Hc.
  assert (r = 0 ∨ r = 1 ∨ r = 2) as [->|[->| ->]] by lia;
    assert (c = 0 ∨ c = 1 ∨ c = 2) as [->|[->| ->]] by lia; reflexivity.
Qed.

Lemma local_board_square (grid : Grid) (boardIndex : Z) :
  square (local_board grid boardIndex).
Proof. repeat constructor. Qed.

Lemma getLocalBoard_throws (grid : Grid) (boardIndex : Z) :
  length grid = 9%nat → boardIndex < 0 ∨ 9 <= boardIndex →
  UltimateGameLogic.getLocalBoard grid boardIndex = Throw TypeError.
Proof.
  intros Hlen Hout. unfold UltimateGameLogic.getLocalBoard.
  assert (Hnone : index grid (boardIndex / 3 * 3 + 0) = None).
  { destruct (index grid (boardIndex / 3 * 3 + 0)) as [gridRow|] eqn:Hrow; [|done].
    assert (Hin : 0 <= boardIndex / 3 * 3 + 0 < Z.of_nat (length grid))
      by (apply index_is_Some; eauto).
    rewrite Hlen in Hin. exfalso. revert Hin. Z.to_euclidean_division_equations. lia. }
  assert (Hcell : ∀ col, cell grid (boardIndex / 3 * 3 + 0) col = Throw TypeError).
  { intros col. unfold cell. by rewrite Hnone. }
  cbn [map_r]. rewrite (Hcell (Z.rem boardIndex 3 * 3 + 0)). reflexivity.
Qed.

(** X8: on a grid of nine rows [getLocalBoard] succeeds exactly for the
    sub-board indices 0-8 and throws a [TypeError] for any other index; on a
    9x9 grid its result is the 3x3 block of the grid at that sub-board, so the
    cell [(row, col)] is found again at its local coordinates in its own
    sub-board. *)
Theorem getLocalBoard_spec (grid : Grid) (boardIndex : Z) :
  grid9 grid →
  (boardIndex < 0 ∨ 9 <= boardIndex →
     UltimateGameLogic.getLocalBoard grid boardIndex = Throw TypeError) ∧
  (0 <= boardIndex < 9 →
     ∃ board,
       UltimateGameLogic.getLocalBoard grid boardIndex = Ok board ∧
       length board = 3%nat ∧ square board ∧
       ∀ r c, 0 <= r < 3 → 0 <= c < 3 →
         cell board r c
         = cell grid (boardIndex / 3 * 3 + r) (Z.rem boardIndex 3 * 3 + c)) ∧
  (∀ row col, 0 <= row < 9 → 0 <= col < 9 →
     ∃ board,
       UltimateGameLogic.getLocalBoard grid (UltimateGameLogic.getLocalBoardIndex row col)
       = Ok board ∧
       cell board (Z.rem row 3) (Z.rem col 3) = cell grid row col).
Proof.
  intros [Hlen Hrows].
  assert (Hblock : ∀ bi r c, 0 <= bi < 9 → 0 <= r < 3 → 0 <= c < 3 →
            cell (local_board grid bi) r c
            = cell grid (bi / 3 * 3 + r) (Z.rem bi 3 * 3 + c)).
  { intros bi r c Hb Hr Hc. rewrite local_board_cell by done.
    symmetry. apply cell_at. rewrite Hlen.
    Z.to_euclidean_division_equations. lia. }
  split; [by apply getLocalBoard_throws|]. split.
  - intros Hb. exists (local_board grid boardIndex).
    split; [by apply getLocalBoard_pure|]. split; [done|].
    split; [apply local_board_square|].
    intros r c Hr Hc. by apply Hblock.
  - intros row col Hrow Hcol.
    destruct (proj1 board_coordinates_round_trip_aux row col Hrow Hcol)
      as (Hb & Hr & Hc & Erow & Ecol).
    exists (local_board grid (UltimateGameLogic.getLocalBoardIndex row col)).
    split; [by apply getLocalBoard_pure|].
    rewrite Hblock by done. by rewrite <- Erow, <- Ecol.
Qed.

Lemma getLocalBoard_spec_witness :
  UltimateGameLogic.getLocalBoard g_won0 9 = Throw TypeError.
Proof.
  apply (proj1 (getLocalBoard_spec g_won0 9 grid9_g_won0)). lia.
Defined.

(** ** Ultimate engine: winners *)

(** X9: on a 9x9 grid [getLocalWinners] returns nine entries; an entry is X
    or O only if that sub-board holds three of that symbol in a line (row,
    column or diagonal of the sub-board), and it is [null] only if the
    sub-board holds no such line. *)
Theorem getLocalWinners_sound (grid : Grid) :
  grid9 grid →
  ∃ localWinners,
    UltimateGameLogic.getLocalWinners grid = Ok localWinners ∧
    length localWinners = 9%nat ∧
    (∀ boardIndex s, 0 <= boardIndex < 9 →
       index localWinners boardIndex = Some (Some s) →
       (s = sX ∨ s = sO) ∧
       ∃ r c d, d ∈ directions ∧
         ∀ i, 0 <= i < 3 →
           0 <= r + i * d.1 < 3 ∧ 0 <= c + i * d.2 < 3 ∧
           cell grid (boardIndex / 3 * 3 + (r + i * d.1))
                     (Z.rem boardIndex 3 * 3 + (c + i * d.2)) = Ok (Some s)) ∧
    (∀ boardIndex s r c d, 0 <= boardIndex < 9 → s = sX ∨ s = sO → d ∈ directions →
       (∀ i, 0 <= i < 3 →
          0 <= r + i * d.1 < 3 ∧ 0 <= c + i * d.2 < 3 ∧
          cell grid (boardIndex / 3 * 3 + (r + i * d.1))
                    (Z.rem boardIndex 3 * 3 + (c + i * d.2)) = Ok (Some s)) →
       index localWinners boardIndex ≠ Some None).
Proof.
  intros [Hlen Hrows]. eexists. split; [by apply getLocalWinners_pure|].
  split; [done|].
  assert (Hgrid : ∀ bi r c, 0 <= bi < 9 → 0 <= r < 3 → 0 <= c < 3 →
            cell (local_board grid bi) r c
            = cell grid (bi / 3 * 3 + r) (Z.rem bi 3 * 3 + c)).
  { intros bi r c Hb Hr Hc. rewrite local_board_cell by done.
    symmetry. apply cell_at. rewrite Hlen.
    Z.to_euclidean_division_equations. lia. }
  split.
  - intros bi s Hb Hidx.
    rewrite (index_map_seqZ (fun i => winner (first_run (local_board grid i) 3))) in Hidx
      by done.
    injection Hidx as Hw.
    destruct (win_supported_cells _ _ _ _
                (first_run_supported (local_board grid bi) 3
                   (local_board_square grid bi) ltac:(lia)) Hw)
      as (HXO & row & col & d & Hd & _ & Hcells).
    split; [done|]. exists row, col, d. split; [done|].
    intros i Hi. destruct (Hcells i Hi) as (Hr & Hc & Hcell).
    change (Z.of_nat (length (local_board grid bi))) with 3 in Hr, Hc.
    split; [done|]. split; [done|]. by rewrite <- Hgrid.
  - intros bi s r c d Hb HXO Hd Hcells Hidx.
    rewrite (index_map_seqZ (fun i => winner (first_run (local_board grid i) 3))) in Hidx
      by done.
    injection Hidx as Hw. revert Hw.
    apply (first_run_finds (local_board grid bi) 3 r c d s);
      [apply local_board_square|lia|done|done|].
    intros i Hi. destruct (Hcells i Hi) as (Hr & Hc & Hcell).
    apply cell_Ok_at. by rewrite Hgrid.
Qed.

Lemma getLocalWinners_sound_witness :
  ∃ localWinners,
    UltimateGameLogic.getLocalWinners g_won0 = Ok localWinners ∧
    length localWinners = 9%nat.
Proof.
  destruct (getLocalWinners_sound g_won0 grid9_g_won0) as (lw & Hlw & Hlen & _).
  by exists lw.
Defined.



(** X10: [checkGlobalWinner] never throws, whatever the list; it reports a
    winner exactly when it reports a line, and then the winner is X or O and
    the line names three sub-boards in a row, column or diagonal of the
    meta-grid whose local winner is that symbol. *)
Theorem checkGlobalWinner_backed (localWinners : list Winner) :
  ∃ g,
    UltimateGameLogic.checkGlobalWinner localWinners = Ok g ∧
    ((winner g = None ∧ winningLine g = None) ∨
     ∃ s r c d,
       (s = sX ∨ s = sO) ∧ d ∈ directions ∧
       winner g = Some s ∧
       winningLine g
       = Some (map (fun i => [(r + i * d.1) * 3 + (c + i * d.2)]) [0; 1; 2]) ∧
       ∀ i, 0 <= i < 3 →
         0 <= r + i * d.1 < 3 ∧ 0 <= c + i * d.2 < 3 ∧
         index localWinners ((r + i * d.1) * 3 + (c + i * d.2)) = Some (Some s)).
Proof.
  eexists. split; [apply checkGlobalWinner_pure|].
  pose proof (first_run_supported (meta_grid localWinners) 3
                (meta_grid_square localWinners) ltac:(lia)) as Hsup.
  destruct (winner (first_run (meta_grid localWinners) 3)) as [s|] eqn:Hw.
  - destruct (win_supported_cells _ _ _ _ Hsup Hw)
      as (HXO & row & col & [dr dc] & Hd & Hline & Hcells).
    right. exists s, row, col, (dr, dc). rewrite Hline. simpl.
    split; [done|]. split; [done|]. split; [done|]. split; [done|].
    intros i Hi. destruct (Hcells i Hi) as (Hr & Hc & Hcell).
    change (Z.of_nat (length (meta_grid localWinners))) with 3 in Hr, Hc.
    simpl in Hr, Hc, Hcell.
    split; [done|]. split; [done|].
    rewrite meta_grid_cell in Hcell by done. injection Hcell as Hcell.
    by apply or_empty_symbol.
  - destruct Hsup as [Hnone|(s & line & Hr & _)].
    + rewrite Hnone. by left.
    + rewrite Hr in Hw. done.
Qed.

(** ** Ultimate engine: legal moves *)

Lemma filled_false (v : Cell) : ClassicGameLogic.filled v = false ↔ v = Some sEmpty.
Proof.
  unfold ClassicGameLogic.filled. rewrite negb_false_iff. apply Cell_eqb_eq.
Qed.

Lemma local_board_not_full (grid : Grid) (boardIndex : Z) :
  forallb (fun row => forallb ClassicGameLogic.filled row) (local_board grid boardIndex)
  = false →
  ∃ r c, 0 <= r < 3 ∧ 0 <= c < 3 ∧
         at_ grid (boardIndex / 3 * 3 + r) (Z.rem boardIndex 3 * 3 + c) = Some sEmpty.
Proof.
  intros Hfull. unfold local_board in Hfull. cbn [map forallb] in Hfull.
  repeat match type of Hfull with
         | _ && _ = false => apply andb_false_iff in Hfull as [Hfull|Hfull]
         end;
    try discriminate;
    apply filled_false in Hfull;
    match type of Hfull with
    | at_ _ (_ + ?r) (_ + ?c) = _ => exists r, c
    end; (split; [lia|split; [lia|exact Hfull]]).
Qed.

Lemma ultimate_isValidMove_target (grid : Grid) (row col target : Z) :
  UltimateGameLogic.isValidMove grid row col (Some target) = true ↔
  cell grid row col = Ok (Some sEmpty) ∧
  UltimateGameLogic.getLocalBoardIndex row col = target.
Proof.
  unfold UltimateGameLogic.isValidMove, cell.
  destruct (index grid row) as [gridRow|]; [|by split; [|intros [? _]]].
  destruct (Cell_eqb (default None (index gridRow col)) (Some sEmpty)) eqn:Hc; simpl.
  - apply Cell_eqb_eq in Hc. rewrite Hc, Z.eqb_eq. by split; [|intros [_ ?]].
  - split; [done|]. intros [[= Hv] _]. rewrite Hv in Hc. done.
Qed.

(** X11: a target board is never a dead end. On a 9x9 grid, whenever
    [getTargetBoard] returns a sub-board (for any last move and any list of
    local winners), that index is in 0-8 and the sub-board has an empty cell
    that [isValidMove] accepts under this target. *)
Theorem target_board_has_a_move (grid : Grid) (lastMoveRow lastMoveCol target : Z)
    (localWinners : list Winner) :
  grid9 grid →
  UltimateGameLogic.getTargetBoard lastMoveRow lastMoveCol grid localWinners
  = Ok (Some target) →
  0 <= target < 9 ∧
  index localWinners target = Some None ∧
  ∃ row col, 0 <= row < 9 ∧ 0 <= col < 9 ∧
             UltimateGameLogic.isValidMove grid row col (Some target) = true.
Proof.
  intros [Hlen Hrows] Hget.
  unfold UltimateGameLogic.getTargetBoard, UltimateGameLogic.getLocalCellCoords in Hget.
  set (t := Z.rem lastMoveRow 3 * 3 + Z.rem lastMoveCol 3) in Hget.
  destruct (index localWinners t) as [[w|]|] eqn:Hidx; simpl in Hget; try done.
  unfold UltimateGameLogic.isLocalBoardFull in Hget.
  destruct (decide (0 <= t < 9)) as [Ht|Ht].
  - rewrite getLocalBoard_pure in Hget by done. cbn [mbind result_bind] in Hget.
    destruct (forallb (fun row => forallb ClassicGameLogic.filled row)
                (local_board grid t)) eqn:Hfull; [done|].
    injection Hget as <-. split; [done|]. split; [done|].
    destruct (local_board_not_full _ _ Hfull) as (r & c & Hr & Hc & Hat).
    destruct (proj2 board_coordinates_round_trip_aux t r c Ht Hr Hc)
      as (Hrow & Hcol & Hb & _).
    exists (t / 3 * 3 + r), (Z.rem t 3 * 3 + c).
    split; [done|]. split; [done|].
    apply ultimate_isValidMove_target. split; [|done].
    rewrite cell_at by lia. by rewrite Hat.
  - rewrite getLocalBoard_throws in Hget by (done || lia). done.
Qed.

Lemma target_board_has_a_move_witness :
  ∃ row col, UltimateGameLogic.isValidMove g_won0 row col (Some 1) = true.
Proof.
  destruct (target_board_has_a_move g_won0 0 1 1
              [Some sX; None; None; None; None; None; None; None; None]
              grid9_g_won0 eq_refl) as (_ & _ & row & col & _ & _ & Hvalid).
  by exists row, col.
Defined.

(** X12: on a 9x9 grid the moves [isValidMove] accepts under a target board
    are exactly the empty cells of that sub-board's 3x3 block. *)
Theorem targeted_moves_are_the_empty_cells_of_the_block (grid : Grid) (row col target : Z) :
  grid9 grid →
  UltimateGameLogic.isValidMove grid row col (Some target) = true ↔
  0 <= target < 9 ∧
  ∃ r c, 0 <= r < 3 ∧ 0 <= c < 3 ∧
         row = target / 3 * 3 + r ∧ col = Z.rem target 3 * 3 + c ∧
         cell grid row col = Ok (Some sEmpty).
Proof.
  intros [Hlen Hrows]. rewrite ultimate_isValidMove_target. split.
  - intros [Hcell <-].
    destruct (cell_empty_lookup _ _ _ Hcell) as (Hr0 & Hc0 & gridRow & _ & Hrow & Hcol).
    assert (Hr : 0 <= row < 9).
    { apply lookup_lt_Some in Hrow. lia. }
    assert (Hc : 0 <= col < 9).
    { rewrite Forall_lookup in Hrows. pose proof (Hrows _ _ Hrow) as Hl. simpl in Hl.
      apply lookup_lt_Some in Hcol. unfold Cell in *. lia. }
    destruct (proj1 board_coordinates_round_trip_aux row col Hr Hc)
      as (Hb & Hlr & Hlc & Erow & Ecol).
    split; [done|]. exists (Z.rem row 3), (Z.rem col 3). done.
  - intros (Ht & r & c & Hr & Hc & -> & -> & Hcell). split; [done|].
    by destruct (proj2 board_coordinates_round_trip_aux target r c Ht Hr Hc)
      as (_ & _ & Hb & _).
Qed.

Lemma targeted_moves_witness :
  UltimateGameLogic.isValidMove g_won0 1 0 (Some 0) = true.
Proof.
  apply (targeted_moves_are_the_empty_cells_of_the_block g_won0 1 0 0 grid9_g_won0).
  split; [lia|]. exists 1, 0. repeat split; lia.
Defined.

(** ** Room client: codes *)

Lemma hex_digit_spec (byte : Z) :
  0 <= byte →
  ∃ ch, GameService.hex_digit byte = String ch EmptyString ∧
        In ch (list_ascii_of_string GameService.chars).
Proof.
  intros Hb. unfold GameService.hex_digit.
  assert (Hn : (Z.to_nat (Z.rem byte 16) < 16)%nat).
  { Z.to_euclidean_division_equations. lia. }
  destruct (Z.to_nat (Z.rem byte 16)) as [|n]; [eexists; split; [reflexivity|simpl; tauto]|].
  do 15 (destruct n as [|n]; [eexists; split; [reflexivity|simpl; tauto]|]).
  lia.
Qed.

(** X13: whatever the random bytes, [generateRoomCode] returns a code of
    exactly five characters, each one of [0123456789ABCDEF]; it draws five
    bytes and touches neither the table nor the local storage. *)
Theorem generateRoomCode_format (w : World) :
  ∃ code w',
    GameService.generateRoomCode w = (Ok code, w') ∧
    String.length code = 5%nat ∧
    Forall (fun ch => In ch (list_ascii_of_string GameService.chars))
      (list_ascii_of_string code) ∧
    rooms w' = rooms w ∧ localStorage w' = localStorage w ∧
    bytes_drawn w' = (bytes_drawn w + 5)%nat ∧
    trace w' = trace w ++ [GetRandomValues 5].
Proof.
  eexists _, _. split; [apply generateRoomCode_run|].
  cbn [rooms localStorage bytes_drawn trace].
  assert (Hcode : String.length (nth_code w 0) = 5%nat ∧
                  Forall (fun ch => In ch (list_ascii_of_string GameService.chars))
                    (list_ascii_of_string (nth_code w 0))).
  { unfold nth_code. cbn [seq map foldl].
    repeat match goal with
           | |- context [GameService.hex_digit ?b] =>
               let ch := fresh "ch" in
               let E := fresh "E" in
               let Hin := fresh "Hin" in
               destruct (hex_digit_spec b) as (ch & E & Hin);
               [apply Z.mod_pos_bound; lia|rewrite E; clear E]
           end.
    simpl. split; [done|]. repeat (constructor; [assumption|]). constructor. }
  destruct Hcode as [Hl Hc]. done.
Qed.

(** ** Room client: creating a room *)

(** One attempt of the loop, from [w]: the world once the code is generated
    and looked up. *)
Lemma attempt_shift (w : World) :
  let w2 :=
    log (SelectRoomCode (nth_code w 0))
      {| rooms := rooms w; localStorage := localStorage w; now := now w;
         random_bytes := random_bytes w; bytes_drawn := (bytes_drawn w + 5)%nat;
         random_uuids := random_uuids w; uuids_drawn := uuids_drawn w;
         trace := trace w ++ [GetRandomValues 5] |} in
  (∀ k, nth_code w2 k = nth_code w (S k)) ∧
  (∀ n, after_attempts n w2 = after_attempts (S n) w) ∧
  w2 = after_attempts 1 w.
Proof.
  intros w2.
  assert (Hshift : ∀ k, nth_code w2 k = nth_code w (S k)).
  { intros k. unfold nth_code. subst w2. cbn [log random_bytes bytes_drawn].
    f_equal. apply map_ext. intros i. do 2 f_equal. lia. }
  assert (Htrace : trace w2 = trace w ++ attempt_events w 0).
  { subst w2. cbn [log trace]. by rewrite <- app_assoc. }
  assert (Hbytes : bytes_drawn w2 = (bytes_drawn w + 5)%nat) by done.
  split; [exact Hshift|]. split.
  - intros n. unfold after_attempts. rewrite Htrace, Hbytes.
    f_equal; [lia|].
    rewrite <- app_assoc. f_equal.
    rewrite <- cons_seq. cbn [flat_map]. f_equal.
    rewrite <- seq_shift. apply flat_map_shift. intros k. unfold attempt_events.
    by rewrite Hshift.
  - unfold after_attempts. subst w2. unfold log, attempt_events.
    cbn [rooms localStorage now random_bytes bytes_drawn random_uuids uuids_drawn
         trace seq flat_map].
    f_equal. by rewrite app_nil_r, <- app_assoc.
Qed.

Lemma unique_code_loop_free (k : nat) :
  ∀ (n : nat) (w : World) (roomCode : string) (attempts : Z),
    (k < n)%nat →
    (∀ j, (j < k)%nat → is_Some (rooms w !! nth_code w j)) →
    rooms w !! nth_code w k = None →
    GameService.unique_code_loop n roomCode attempts w
    = (Ok (nth_code w k, attempts + Z.of_nat k), after_attempts (S k) w).
Proof.
  induction k as [|k IH]; intros n w roomCode attempts Hn Htaken Hfree;
    (destruct n as [|n]; [lia|]); cbn [GameService.unique_code_loop];
    rewrite (M_bind_Ok _ _ _ _ _ (generateRoomCode_run w));
    destruct (attempt_shift w) as (Hshift & Hafter & Hone);
    set (w1 := {| rooms := rooms w; localStorage := localStorage w; now := now w;
                  random_bytes := random_bytes w; bytes_drawn := (bytes_drawn w + 5)%nat;
                  random_uuids := random_uuids w; uuids_drawn := uuids_drawn w;
                  trace := trace w ++ [GetRandomValues 5] |}) in *.
  - assert (Hsel : select_room_code (nth_code w 0) w1
                   = (Ok None, log (SelectRoomCode (nth_code w 0)) w1)).
    { unfold select_room_code. subst w1. cbn [rooms]. by rewrite Hfree. }
    rewrite (M_bind_Ok _ _ _ _ _ Hsel). cbv beta iota.
    unfold mret, M_ret. rewrite Z.add_0_r. f_equal. exact Hone.
  - destruct (Htaken 0%nat) as [r0 Hr0]; [lia|].
    assert (Hsel : select_room_code (nth_code w 0) w1
                   = (Ok (Some (RoomRow.room_code r0)),
                      log (SelectRoomCode (nth_code w 0)) w1)).
    { unfold select_room_code. subst w1. cbn [rooms]. by rewrite Hr0. }
    rewrite (M_bind_Ok _ _ _ _ _ Hsel). cbv beta iota.
    rewrite (IH n _ (nth_code w 0) (attempts + 1)).
    + rewrite Hshift, Hafter. do 3 f_equal. lia.
    + lia.
    + intros j Hj. rewrite Hshift. apply Htaken. lia.
    + rewrite Hshift. exact Hfree.
Qed.

Lemma insert_free (r : RoomRow.t) (w : World) :
  rooms w !! RoomRow.room_code r = None →
  row_accepted (timestamp_defaults (now w) r) = true →
  insert_select_single r w
  = (Ok (Some (timestamp_defaults (now w) r), None),
     with_rooms (<[RoomRow.room_code r := timestamp_defaults (now w) r]> (rooms w))
       (log (Insert (RoomRow.room_code r)) w)).
Proof.
  intros Hfree Hacc. unfold insert_select_single. rewrite Hfree.
  unfold row_accepted in Hacc. rewrite !andb_true_iff in Hacc.
  destruct Hacc as [[-> ->] ->]. done.
Qed.

Lemma settings_accepted_size (mode : GameMode) (gridSize winLength : option Z) :
  settings_accepted mode gridSize winLength = true →
  GameService.createEmptyGrid mode gridSize
  = Ok [JSON_stringify
          (all_empty match mode with ultimate => 9 | classic => default 3 gridSize end)].
Proof.
  unfold settings_accepted, row_accepted. rewrite !andb_true_iff.
  intros [[Hv Hc] _]. revert Hv Hc.
  unfold validate_classic_settings, column_checks,
    GameService.createEmptyGrid, empty_matrix, array_length_ok, all_empty.
  destruct mode; simpl; [|done].
  destruct gridSize as [n|]; simpl; [|done].
  intros Hv Hc.
  destruct (Z.eqb_spec n 0); [lia|].
  destruct (Z.leb_spec 0 n); [|lia].
  destruct (Z.leb_spec n 4294967295); [done|lia].
Qed.

(** X14: when the first [k < 10] generated codes are taken, the next one is
    free and the table accepts the settings, [createRoom] inserts one row
    under that code: the caller as the only player, holding X, an all-empty
    grid of the room's size, no votes, match 0. It records the client id under
    [client_id_<code>], returns that room and leaves every other row alone. *)
Theorem createRoom_success (w : World) (mode : GameMode) (playerName : string)
    (gridSize winLength : option Z) (k : nat) :
  (k < 10)%nat →
  (∀ j, (j < k)%nat → is_Some (rooms w !! nth_code w j)) →
  rooms w !! nth_code w k = None →
  settings_accepted mode gridSize winLength = true →
  let roomCode := nth_code w k in
  let clientId := random_uuids w (uuids_drawn w) in
  let size := match mode with ultimate => 9 | classic => default 3 gridSize end in
  let stored :=
    new_room_row mode playerName gridSize winLength roomCode clientId
      (all_empty size) (now w) in
  ∃ w',
    GameService.createRoom mode playerName gridSize winLength w
    = (Ok (GameService.to_GameRoom stored), w') ∧
    GameRoom.grid (GameService.to_GameRoom stored) = all_empty size ∧
    rooms w' = <[roomCode := stored]> (rooms w) ∧
    (∀ other, other ≠ roomCode → rooms w' !! other = rooms w !! other) ∧
    localStorage w' = <["client_id_" +:+ roomCode := clientId]> (localStorage w) ∧
    trace w'
    = trace w ++ flat_map (attempt_events w) (seq 0 (S k))
        ++ [RandomUUID; Insert roomCode; SetItem ("client_id_" +:+ roomCode) clientId].
Proof.
  intros Hk Htaken Hfree Hacc roomCode clientId size stored.
  eexists. split.
  { unfold GameService.createRoom.
    change (Z.to_nat GameService.maxAttempts) with 10%nat.
    rewrite (M_bind_Ok _ _ _ _ _
               (unique_code_loop_free k 10 w EmptyString 0 Hk Htaken Hfree)).
    cbv beta iota.
    destruct (Z.eqb_spec (0 + Z.of_nat k) GameService.maxAttempts) as [He|_].
    { unfold GameService.maxAttempts in He. lia. }
    rewrite (M_bind_Ok randomUUID _ _ _ _ eq_refl).
    rewrite (settings_accepted_size _ _ _ Hacc).
    rewrite (M_bind_Ok (lift _) _ _ _ _ eq_refl).
    match goal with
    | |- (insert_select_single ?r ≫= _) ?wb = _ =>
        rewrite (M_bind_Ok _ _ _ _ _ (insert_free r wb Hfree Hacc))
    end.
    cbv beta iota.
    rewrite (M_bind_Ok (setItem _ _) _ _ _ _ eq_refl).
    reflexivity. }
  split; [reflexivity|]. split; [reflexivity|]. split.
  { intros other Hne. cbn. by rewrite lookup_insert_ne. }
  split; [reflexivity|].
  cbn. rewrite <- !app_assoc. reflexivity.
Qed.

Lemma createRoom_success_witness :
  ∃ room w', GameService.createRoom ultimate "Bob" None None
               (with_rooms ∅ w0) = (Ok room, w').
Proof.
  destruct (createRoom_success (with_rooms ∅ w0) ultimate "Bob" None None 0)
    as (w' & Hrun & _); [lia| |reflexivity|reflexivity|].
  - intros j Hj. lia.
  - eexists _, _. exact Hrun.
Defined.

Lemma M_bind_Throw {A B} (m : M A) (k : A -> M B) (w w' : World) (e : Exn) :
  m w = (Throw e, w') → (m ≫= k) w = (Throw e, w').
Proof. intros H. unfold mbind, M_bind. by rewrite H. Qed.

Lemma insert_rejected (r : RoomRow.t) (w : World) :
  rooms w !! RoomRow.room_code r = None →
  row_accepted (timestamp_defaults (now w) r) = false →
  ∃ code, insert_select_single r w
          = (Ok (None, Some (PostgrestError code)), log (Insert (RoomRow.room_code r)) w).
Proof.
  intros Hfree Hrej. unfold insert_select_single. rewrite Hfree.
  destruct (int_columns _) eqn:Hint; simpl; [|eauto].
  destruct (validate_classic_settings _) eqn:Hv; simpl; [|eauto].
  destruct (column_checks _) eqn:Hc; simpl; [|eauto].
  unfold row_accepted in Hrej. by rewrite Hint, Hv, Hc in Hrej.
Qed.

(** X15: with a free code at hand but settings the table refuses (a classic
    room without a grid size or win length, a size outside 3-10, a win length
    under 3 or over the size), [createRoom] throws; no row is inserted and no
    client id is recorded. *)
Theorem createRoom_rejected (w : World) (mode : GameMode) (playerName : string)
    (gridSize winLength : option Z) (k : nat) :
  (k < 10)%nat →
  (∀ j, (j < k)%nat → is_Some (rooms w !! nth_code w j)) →
  rooms w !! nth_code w k = None →
  settings_accepted mode gridSize winLength = false →
  ∃ e w',
    GameService.createRoom mode playerName gridSize winLength w = (Throw e, w') ∧
    (e = RangeError ∨ ∃ code, e = PostgrestError code) ∧
    rooms w' = rooms w ∧ localStorage w' = localStorage w.
Proof.
  intros Hk Htaken Hfree Hrej.
  unfold GameService.createRoom.
  change (Z.to_nat GameService.maxAttempts) with 10%nat.
  rewrite (M_bind_Ok _ _ _ _ _
             (unique_code_loop_free k 10 w EmptyString 0 Hk Htaken Hfree)).
  cbv beta iota.
  destruct (Z.eqb_spec (0 + Z.of_nat k) GameService.maxAttempts) as [He|_].
  { unfold GameService.maxAttempts in He. lia. }
  rewrite (M_bind_Ok randomUUID _ _ _ _ eq_refl).
  destruct (GameService.createEmptyGrid mode gridSize) as [grid|e] eqn:Hgrid.
  - rewrite (M_bind_Ok (lift _) _ _ _ _ eq_refl).
    match goal with
    | |- ∃ _ _, (insert_select_single ?r ≫= _) ?wb = _ ∧ _ =>
        destruct (insert_rejected r wb Hfree Hrej) as [code Hins];
        rewrite (M_bind_Ok _ _ _ _ _ Hins)
    end.
    cbv beta iota. eexists _, _. split; [reflexivity|]. split; [eauto|]. done.
  - assert (e = RangeError) as ->.
    { unfold GameService.createEmptyGrid, empty_matrix in Hgrid.
      destruct (array_length_ok _); simpl in Hgrid; congruence. }
    rewrite (M_bind_Throw (lift _) _ _ _ _ eq_refl).
    eexists _, _. split; [reflexivity|]. split; [by left|]. done.
Qed.

Lemma createRoom_rejected_witness :
  ∃ e w', GameService.createRoom classic "Bob" (Some 3) (Some 4)
            (with_rooms ∅ w0) = (Throw e, w').
Proof.
  destruct (createRoom_rejected (with_rooms ∅ w0) classic "Bob" (Some 3) (Some 4) 0)
    as (e & w' & Hrun & _); [lia| |reflexivity|reflexivity|].
  - intros j Hj. lia.
  - eexists _, _. exact Hrun.
Defined.

(** ** Room client: requests on a stored room *)

Lemma select_single_missing (roomCode : string) (w : World) :
  rooms w !! roomCode = None →
  select_single roomCode w
  = (Ok (None, Some (PostgrestError "PGRST116")), log (SelectSingle roomCode) w).
Proof. intros H. unfold select_single. by rewrite H. Qed.

Lemma update_eq_run (roomCode : string) (p : Patch) (r : RoomRow.t) (w : World) :
  rooms w !! roomCode = Some r → row_accepted r = true → patch_in_range p = true →
  update_eq roomCode p w = (Ok None, after_update roomCode p r w).
Proof. intros Hr Hacc Hp. by rewrite (update_eq_found roomCode p r w Hr Hacc Hp). Qed.

Lemma update_eq_select_single_run (roomCode : string) (p : Patch) (r : RoomRow.t)
    (w : World) :
  rooms w !! roomCode = Some r → row_accepted r = true → patch_in_range p = true →
  update_eq_select_single roomCode p w
  = (Ok (Some (update_updated_at_column (now w) (apply_patch p r)), None),
     after_update roomCode p r w).
Proof.
  intros Hr Hacc Hp. unfold update_eq_select_single. rewrite Hr.
  destruct (row_accepted_patch p (now w) r Hacc Hp) as (-> & -> & ->). done.
Qed.

Lemma row_accepted_patch_aux (p : Patch) (t : Timestamp) (r : RoomRow.t) :
  row_accepted r = true → patch_in_range p = true →
  row_accepted (update_updated_at_column t (apply_patch p r)) = true.
Proof.
  intros H Hp. destruct (row_accepted_patch p t r H Hp) as (Hint & Hv & Hc).
  unfold row_accepted. by rewrite Hint, Hv, Hc.
Qed.

Lemma after_update_rooms (roomCode : string) (p : Patch) (r : RoomRow.t) (w : World) :
  rooms (after_update roomCode p r w) !! roomCode
  = Some (update_updated_at_column (now w) (apply_patch p r)).
Proof. unfold after_update. cbn [with_rooms rooms]. apply lookup_insert_eq. Qed.

Lemma makeMove_run (w : World) (roomCode : string) (r : RoomRow.t) (row col : Z)
    (s : Symbol) :
  rooms w !! roomCode = Some r → row_accepted r = true →
  GameService.makeMove roomCode row col s w
  = (Ok tt,
     after_update roomCode
       (GameService.grid_patch
          (GameService.place (GameService.parseGrid (RoomRow.grid r)) row col s))
       r (log (SelectSingle roomCode) w)).
Proof.
  intros Hr Hacc. unfold GameService.makeMove.
  rewrite (M_bind_Ok _ _ _ _ _ (select_single_found roomCode r w Hr)).
  cbv beta iota.
  rewrite (M_bind_Ok _ _ _ _ _
             (update_eq_run roomCode (GameService.grid_patch _) r (log (SelectSingle roomCode) w) Hr Hacc eq_refl)).
  done.
Qed.

Lemma resetGame_run (w : World) (roomCode : string) (r : RoomRow.t) :
  rooms w !! roomCode = Some r → row_accepted r = true →
  RoomRow.match_id r < 2147483647 →
  GameService.resetGame roomCode (RoomRow.match_id r) w
  = (Ok tt,
     after_update roomCode
       (GameService.reset_patch (all_empty (room_size r)) (RoomRow.match_id r))
       r (log (SelectSingle roomCode) w)).
Proof.
  intros Hr Hacc Hlt. unfold GameService.resetGame.
  rewrite (M_bind_Ok _ _ _ _ _ (select_single_found roomCode r w Hr)).
  cbv beta iota. rewrite Z.eqb_refl. cbn [negb].
  rewrite (accepted_room_size r Hacc).
  rewrite (M_bind_Ok (lift _) _ _ _ _ eq_refl).
  assert (Hp : patch_in_range
                 (GameService.reset_patch (all_empty (room_size r)) (RoomRow.match_id r))
               = true).
  { pose proof (row_accepted_int4 r Hacc). unfold patch_in_range, int4. cbn. lia. }
  rewrite (M_bind_Ok _ _ _ _ _
             (update_eq_run roomCode _ r (log (SelectSingle roomCode) w) Hr Hacc Hp)).
  done.
Qed.

Lemma resetGame_stale (w : World) (roomCode : string) (r : RoomRow.t) (currentMatchId : Z) :
  rooms w !! roomCode = Some r → RoomRow.match_id r ≠ currentMatchId →
  GameService.resetGame roomCode currentMatchId w = (Ok tt, log (SelectSingle roomCode) w).
Proof.
  intros Hr Hne. unfold GameService.resetGame.
  rewrite (M_bind_Ok _ _ _ _ _ (select_single_found roomCode r w Hr)).
  cbv beta iota. by destruct (Z.eqb_spec (RoomRow.match_id r) currentMatchId).
Qed.

(** X16: a restart happens once. After [resetGame] has reset a stored room
    (whose match counter is below the largest [INT], so that the next one
    fits the column), a second [resetGame] with the same [currentMatchId]
    only reads the row: the match counter stands at [currentMatchId + 1] and
    nothing more is written. *)
Theorem resetGame_twice (w : World) (roomCode : string) (r : RoomRow.t) :
  rooms w !! roomCode = Some r → row_accepted r = true →
  RoomRow.match_id r < 2147483647 →
  ∃ w1 w2 r1,
    GameService.resetGame roomCode (RoomRow.match_id r) w = (Ok tt, w1) ∧
    rooms w1 !! roomCode = Some r1 ∧
    RoomRow.match_id r1 = RoomRow.match_id r + 1 ∧
    RoomRow.restart_votes r1 = ∅ ∧
    GameService.resetGame roomCode (RoomRow.match_id r) w1 = (Ok tt, w2) ∧
    rooms w2 = rooms w1 ∧
    trace w2 = trace w1 ++ [SelectSingle roomCode].
Proof.
  intros Hr Hacc Hlt. eexists _, _, _.
  split; [by apply resetGame_run|].
  split; [apply after_update_rooms|].
  split; [reflexivity|]. split; [reflexivity|].
  split.
  { eapply resetGame_stale; [apply after_update_rooms|]. simpl. lia. }
  split; reflexivity.
Qed.

Lemma resetGame_twice_witness :
  ∃ w1 w2,
    GameService.resetGame "00000" 4 w0 = (Ok tt, w1) ∧
    GameService.resetGame "00000" 4 w1 = (Ok tt, w2) ∧
    rooms w2 = rooms w1.
Proof.
  destruct (resetGame_twice w0 "00000" row0 eq_refl eq_refl ltac:(simpl; lia))
    as (w1 & w2 & r1 & H1 & _ & _ & _ & H2 & Hrooms & _).
  by exists w1, w2.
Defined.

(** X17: every request on a room code the table does not hold fails at the
    first read with the store's "no row" error; nothing is written, no client
    id is drawn or recorded. *)
Theorem missing_room_fails (w : World) (roomCode : string) :
  rooms w !! roomCode = None →
  (∀ row col s,
     GameService.makeMove roomCode row col s w
     = (Throw (PostgrestError "PGRST116"), log (SelectSingle roomCode) w)) ∧
  (∀ currentMatchId,
     GameService.resetGame roomCode currentMatchId w
     = (Throw (PostgrestError "PGRST116"), log (SelectSingle roomCode) w)) ∧
  (∀ s vote,
     GameServiceMore.setRestartVote roomCode s vote w
     = (Throw (PostgrestError "PGRST116"), log (SelectSingle roomCode) w)) ∧
  (∀ playerName,
     GameServiceMore.joinRoom roomCode playerName w
     = (Throw (PostgrestError "PGRST116"), log (SelectSingle roomCode) w)).
Proof.
  intros Hnone. pose proof (select_single_missing roomCode w Hnone) as Hsel.
  repeat split; intros;
    unfold GameService.makeMove, GameService.resetGame,
      GameServiceMore.setRestartVote, GameServiceMore.joinRoom;
    by rewrite (M_bind_Ok _ _ _ _ _ Hsel).
Qed.

Lemma missing_room_fails_witness :
  GameService.makeMove "FFFFF" 0 0 sX w0
  = (Throw (PostgrestError "PGRST116"), log (SelectSingle "FFFFF") w0).
Proof. apply (missing_room_fails w0 "FFFFF" eq_refl). Defined.

(** X18: [makeMove] never changes the dimensions of the stored grid, and a
    move addressed outside the grid writes the grid back as it was. *)
Theorem makeMove_keeps_dimensions (w : World) (roomCode : string) (r : RoomRow.t)
    (row col : Z) (s : Symbol) :
  rooms w !! roomCode = Some r → row_accepted r = true →
  ∃ w' r',
    GameService.makeMove roomCode row col s w = (Ok tt, w') ∧
    rooms w' !! roomCode = Some r' ∧
    let before := GameService.parseGrid (RoomRow.grid r) in
    let after := GameService.parseGrid (RoomRow.grid r') in
    length after = length before ∧
    (∀ i, length <$> (after !! i) = length <$> (before !! i)) ∧
    (index before row ≫= (fun gridRow => index gridRow col) = None → after = before).
Proof.
  intros Hr Hacc. eexists _, _.
  split; [by apply makeMove_run|]. split; [apply after_update_rooms|].
  cbn. split; [apply place_shape|]. split; [apply place_shape|].
  apply place_outside.
Qed.

Lemma makeMove_keeps_dimensions_witness :
  ∃ w' r',
    GameService.makeMove "00000" 7 7 sO w0 = (Ok tt, w') ∧
    rooms w' !! "00000"%string = Some r' ∧
    GameService.parseGrid (RoomRow.grid r') = GameService.parseGrid (RoomRow.grid row0).
Proof.
  destruct (makeMove_keeps_dimensions w0 "00000" row0 7 7 sO eq_refl eq_refl)
    as (w' & r' & Hrun & Hrooms & _ & _ & Hsame).
  exists w', r'. split; [exact Hrun|]. split; [exact Hrooms|]. by apply Hsame.
Defined.

Lemma grid_patch_read (g : Grid) (t : Timestamp) (r : RoomRow.t) :
  GameService.parseGrid
    (RoomRow.grid (update_updated_at_column t (apply_patch (GameService.grid_patch g) r)))
  = g.
Proof. reflexivity. Qed.

Lemma grid_patch_twice (g1 g2 : Grid) (t : Timestamp) (r : RoomRow.t) :
  update_updated_at_column t
    (apply_patch (GameService.grid_patch g2)
       (update_updated_at_column t (apply_patch (GameService.grid_patch g1) r)))
  = update_updated_at_column t (apply_patch (GameService.grid_patch g2) r).
Proof. reflexivity. Qed.

(** X19: the last write wins. Two [makeMove] calls on the same cell of a
    stored room leave the table as the second call alone would: the first
    symbol is overwritten, no error is raised. *)
Theorem makeMove_overwrites (w : World) (roomCode : string) (r : RoomRow.t)
    (row col : Z) (s1 s2 : Symbol) :
  rooms w !! roomCode = Some r → row_accepted r = true →
  ∃ w1 w2 w2',
    GameService.makeMove roomCode row col s1 w = (Ok tt, w1) ∧
    GameService.makeMove roomCode row col s2 w1 = (Ok tt, w2) ∧
    GameService.makeMove roomCode row col s2 w = (Ok tt, w2') ∧
    rooms w2 = rooms w2'.
Proof.
  intros Hr Hacc. eexists _, _, _.
  split; [by apply makeMove_run|].
  split.
  { apply makeMove_run; [apply after_update_rooms|].
    by apply row_accepted_patch_aux. }
  split; [by apply makeMove_run|].
  unfold after_update. cbn [with_rooms rooms log now].
  rewrite insert_insert_eq. f_equal.
  rewrite grid_patch_read, grid_patch_twice. by rewrite place_place.
Qed.

Lemma makeMove_overwrites_witness :
  ∃ w1 w2 w2',
    GameService.makeMove "00000" 1 1 sO w0 = (Ok tt, w1) ∧
    GameService.makeMove "00000" 1 1 sX w1 = (Ok tt, w2) ∧
    GameService.makeMove "00000" 1 1 sX w0 = (Ok tt, w2') ∧
    rooms w2 = rooms w2'.
Proof. exact (makeMove_overwrites w0 "00000" row0 1 1 sO sX eq_refl eq_refl). Defined.

(** ** Room client: joining *)

(** X20: joining a stored room appends exactly one player and changes no
    other column. The newcomer gets O and a player's seat precisely when the
    room held a single player with X; in every other case the newcomer is a
    viewer without a symbol. The fresh client id is recorded under
    [client_id_<code>] and the updated room is returned. *)
Theorem joinRoom_spec (w : World) (roomCode playerName : string) (r : RoomRow.t) :
  rooms w !! roomCode = Some r → row_accepted r = true →
  let clientId := random_uuids w (uuids_drawn w) in
  let newPlayer :=
    {| name := playerName; status := (seat_for (RoomRow.players r)).2;
       symbol := (seat_for (RoomRow.players r)).1; client_id := clientId |} in
  let r' :=
    {| RoomRow.room_code := RoomRow.room_code r;
       RoomRow.mode := RoomRow.mode r;
       RoomRow.grid_size := RoomRow.grid_size r;
       RoomRow.win_length := RoomRow.win_length r;
       RoomRow.players := RoomRow.players r ++ [newPlayer];
       RoomRow.grid := RoomRow.grid r;
       RoomRow.restart_votes := RoomRow.restart_votes r;
       RoomRow.match_id := RoomRow.match_id r;
       RoomRow.created_at := RoomRow.created_at r;
       RoomRow.updated_at := now w |} in
  (∃ w',
     GameServiceMore.joinRoom roomCode playerName w = (Ok (GameService.to_GameRoom r'), w') ∧
     rooms w' = <[roomCode := r']> (rooms w) ∧
     localStorage w' = <["client_id_" +:+ roomCode := clientId]> (localStorage w)) ∧
  ((∃ p, RoomRow.players r = [p] ∧ symbol p = pX) →
     symbol newPlayer = pO ∧ status newPlayer = player) ∧
  (¬ (∃ p, RoomRow.players r = [p] ∧ symbol p = pX) →
     symbol newPlayer = pNone ∧ status newPlayer = viewer).
Proof.
  intros Hr Hacc clientId newPlayer r'. split; [|split].
  - subst r' newPlayer.
    destruct (seat_for (RoomRow.players r)) as [sym st] eqn:Hseat.
    eexists. split.
    { unfold GameServiceMore.joinRoom.
      rewrite (M_bind_Ok _ _ _ _ _ (select_single_found roomCode r w Hr)).
      cbv beta iota.
      rewrite (M_bind_Ok randomUUID _ _ _ _ eq_refl).
      rewrite Hseat.
      match goal with
      | |- (update_eq_select_single ?c ?p ≫= _) ?wb = _ =>
          rewrite (M_bind_Ok _ _ _ _ _ (update_eq_select_single_run c p r wb Hr Hacc eq_refl))
      end.
      cbv beta iota.
      rewrite (M_bind_Ok (setItem _ _) _ _ _ _ eq_refl).
      reflexivity. }
    split; reflexivity.
  - intros (p & Hp & HX). subst newPlayer. cbn [symbol status].
    unfold seat_for. rewrite Hp, bool_decide_eq_true_2 by done. done.
  - intros Hnot. subst newPlayer. cbn [symbol status]. unfold seat_for.
    destruct (RoomRow.players r) as [|p [|q rest]]; try done.
    case_bool_decide; [|done]. exfalso. apply Hnot. by exists p.
Qed.

Lemma joinRoom_spec_witness :
  ∃ room w',
    GameServiceMore.joinRoom "00000" "Bea" w0 = (Ok room, w') ∧
    length (GameRoom.players room) = 2%nat.
Proof.
  destruct (joinRoom_spec w0 "00000" "Bea" row0 eq_refl eq_refl)
    as ((w' & Hrun & _) & _ & _).
  eexists _, w'. split; [exact Hrun|reflexivity].
Defined.

Lemma seated_join (players : list Player) (playerName clientId : string) :
  seated players →
  seated (players ++
            [ {| name := playerName; status := (seat_for players).2;
                 symbol := (seat_for players).1; client_id := clientId |} ]).
Proof.
  destruct players as [|x [|o viewers]]; simpl; [done| |].
  - intros (HX & Hp & _). rewrite bool_decide_eq_true_2 by done. simpl. done.
  - intros (HX & Hp & HO & Hq & Hv). repeat split; try done.
    apply Forall_app. split; [done|]. by constructor.
Qed.

Lemma seated_count (players : list Player) :
  seated players →
  (length (filter (fun p => status p = player) players) <= 2)%nat ∧
  length (filter (fun p => symbol p = pX) players) = 1%nat ∧
  (length (filter (fun p => symbol p = pO) players) <= 1)%nat.
Proof.
  assert (Hviewers : ∀ vs : list Player,
             Forall (fun v => symbol v = pNone ∧ status v = viewer) vs →
             filter (fun p => status p = player) vs = [] ∧
             filter (fun p => symbol p = pX) vs = [] ∧
             filter (fun p => symbol p = pO) vs = []).
  { induction 1 as [|v vs [Hs Hst] _ (IH1 & IH2 & IH3)]; [done|].
    rewrite !filter_cons, IH1, IH2, IH3, Hs, Hst.
    rewrite !decide_False by done. done. }
  destruct players as [|x [|o viewers]]; simpl; [done| |].
  - intros (HX & Hp & _). rewrite !filter_cons, HX, Hp.
    rewrite !decide_True by done. rewrite decide_False by done. simpl. lia.
  - intros (HX & Hp & HO & Hq & Hv).
    destruct (Hviewers _ Hv) as (E1 & E2 & E3).
    rewrite !filter_cons, E1, E2, E3, HX, Hp, HO, Hq.
    repeat (rewrite decide_True by done || rewrite decide_False by done). simpl. lia.
Qed.

(** X21: the seating of a room survives every join. In a room whose first
    player holds X, whose second (if any) holds O and whose others are
    viewers, [joinRoom] leaves a room of the same kind: at most two players,
    exactly one X, at most one O. The row [createRoom] inserts is seated so. *)
Theorem joinRoom_keeps_seating (w : World) (roomCode playerName : string) (r : RoomRow.t) :
  rooms w !! roomCode = Some r → row_accepted r = true →
  seated (RoomRow.players r) →
  ∃ room w' r',
    GameServiceMore.joinRoom roomCode playerName w = (Ok room, w') ∧
    rooms w' !! roomCode = Some r' ∧
    GameRoom.players room = RoomRow.players r' ∧
    seated (RoomRow.players r') ∧
    (length (filter (fun p => status p = player) (RoomRow.players r')) <= 2)%nat ∧
    length (filter (fun p => symbol p = pX) (RoomRow.players r')) = 1%nat ∧
    (length (filter (fun p => symbol p = pO) (RoomRow.players r')) <= 1)%nat.
Proof.
  intros Hr Hacc Hseated.
  unfold GameServiceMore.joinRoom.
  rewrite (M_bind_Ok _ _ _ _ _ (select_single_found roomCode r w Hr)).
  cbv beta iota.
  rewrite (M_bind_Ok randomUUID _ _ _ _ eq_refl).
  pose proof (seated_join (RoomRow.players r) playerName
                (random_uuids w (uuids_drawn w)) Hseated) as Hjoin.
  destruct (seat_for (RoomRow.players r)) as [sym st] eqn:Hseat.
  match goal with
  | |- ∃ _ _ _, (update_eq_select_single ?c ?p ≫= _) ?wb = _ ∧ _ =>
      rewrite (M_bind_Ok _ _ _ _ _ (update_eq_select_single_run c p r wb Hr Hacc eq_refl))
  end.
  cbv beta iota.
  rewrite (M_bind_Ok (setItem _ _) _ _ _ _ eq_refl).
  eexists _, _, _. split; [reflexivity|].
  split; [apply lookup_insert_eq|]. split; [reflexivity|].
  split; [exact Hjoin|]. by apply seated_count.
Qed.

Lemma joinRoom_keeps_seating_witness :
  ∃ room w', GameServiceMore.joinRoom "00000" "Bea" w0 = (Ok room, w') ∧
             seated (GameRoom.players room).
Proof.
  destruct (joinRoom_keeps_seating w0 "00000" "Bea" row0 eq_refl eq_refl)
    as (room & w' & r' & Hrun & _ & Hp & Hs & _).
  { simpl. done. }
  exists room, w'. split; [exact Hrun|]. by rewrite Hp.
Defined.

(** ** Room client: votes and the restart *)

Lemma setRestartVote_run (w : World) (roomCode : string) (r : RoomRow.t) (s : Symbol)
    (vote : bool) :
  rooms w !! roomCode = Some r → row_accepted r = true →
  GameServiceMore.setRestartVote roomCode s vote w
  = (Ok tt,
     after_update roomCode
       (GameServiceMore.votes_patch (<[Symbol_key s := vote]> (RoomRow.restart_votes r)))
       r (log (SelectSingle roomCode) w)).
Proof.
  intros Hr Hacc. unfold GameServiceMore.setRestartVote.
  rewrite (M_bind_Ok _ _ _ _ _ (select_single_found roomCode r w Hr)).
  cbv beta iota.
  rewrite (M_bind_Ok _ _ _ _ _
             (update_eq_run roomCode (GameServiceMore.votes_patch _) r (log (SelectSingle roomCode) w) Hr Hacc eq_refl)).
  done.
Qed.

(** X22: [setRestartVote] on a stored room records the vote under the
    symbol's key, keeps every other vote and touches no other column. *)
Theorem setRestartVote_spec (w : World) (roomCode : string) (r : RoomRow.t) (s : Symbol)
    (vote : bool) :
  rooms w !! roomCode = Some r → row_accepted r = true →
  ∃ w' r',
    GameServiceMore.setRestartVote roomCode s vote w = (Ok tt, w') ∧
    rooms w' !! roomCode = Some r' ∧
    RoomRow.restart_votes r' !! Symbol_key s = Some vote ∧
    (∀ key, key ≠ Symbol_key s →
            RoomRow.restart_votes r' !! key = RoomRow.restart_votes r !! key) ∧
    RoomRow.grid r' = RoomRow.grid r ∧
    RoomRow.players r' = RoomRow.players r ∧
    RoomRow.match_id r' = RoomRow.match_id r ∧
    RoomRow.mode r' = RoomRow.mode r ∧
    RoomRow.grid_size r' = RoomRow.grid_size r ∧
    RoomRow.win_length r' = RoomRow.win_length r.
Proof.
  intros Hr Hacc. eexists _, _.
  split; [by apply setRestartVote_run|]. split; [apply after_update_rooms|].
  cbn. split; [apply lookup_insert_eq|]. split; [|done].
  intros key Hne. by rewrite lookup_insert_ne.
Qed.

Lemma setRestartVote_spec_witness :
  ∃ w' r',
    GameServiceMore.setRestartVote "00000" sO true w0 = (Ok tt, w') ∧
    rooms w' !! "00000"%string = Some r' ∧
    RoomRow.restart_votes r' !! "X"%string = Some true.
Proof.
  destruct (setRestartVote_spec w0 "00000" row0 sO true eq_refl eq_refl)
    as (w' & r' & Hrun & Hrooms & _ & Hother & _).
  exists w', r'. split; [exact Hrun|]. split; [exact Hrooms|].
  rewrite Hother; [reflexivity|]. simpl. discriminate.
Defined.

(** X23: the restart cycle. Once X and O have both voted yes on a stored
    room, the board's vote condition holds on the room as stored; when two
    players are present (and the match counter is below the largest [INT]),
    the restart effect of the first player's board resets the room (empty
    grid of the room's size, no votes, match counter plus one), and the same
    effect run by the second player's board on the same snapshot writes
    nothing more; on the reset room the vote condition no longer holds. *)
Theorem restart_cycle (w : World) (roomCode : string) (r : RoomRow.t) (p1 p2 : Player) :
  rooms w !! roomCode = Some r → row_accepted r = true →
  RoomRow.room_code r = roomCode →
  RoomRow.match_id r < 2147483647 →
  bothPlayersPresent (GameService.to_GameRoom r) = true →
  status p1 = player → status p2 = player →
  ∃ w1 w2 r2,
    GameServiceMore.setRestartVote roomCode sX true w = (Ok tt, w1) ∧
    GameServiceMore.setRestartVote roomCode sO true w1 = (Ok tt, w2) ∧
    rooms w2 !! roomCode = Some r2 ∧
    bothPlayersVotedRestart (GameService.to_GameRoom r2) = true ∧
    ∃ w3 w4 r3,
      GameBoard_autoRestart (GameService.to_GameRoom r2) false (Some p1) w2 = (Ok tt, w3) ∧
      rooms w3 !! roomCode = Some r3 ∧
      RoomRow.match_id r3 = RoomRow.match_id r + 1 ∧
      RoomRow.restart_votes r3 = ∅ ∧
      GameService.parseGrid (RoomRow.grid r3) = all_empty (room_size r) ∧
      RoomRow.players r3 = RoomRow.players r ∧
      bothPlayersVotedRestart (GameService.to_GameRoom r3) = false ∧
      GameBoard_autoRestart (GameService.to_GameRoom r2) false (Some p2) w3 = (Ok tt, w4) ∧
      rooms w4 = rooms w3.
Proof.
  intros Hr Hacc Hcode Hlt Hpresent Hp1 Hp2.
  set (w1 := after_update roomCode
               (GameServiceMore.votes_patch
                  (<[Symbol_key sX := true]> (RoomRow.restart_votes r)))
               r (log (SelectSingle roomCode) w)).
  set (r1 := update_updated_at_column (now (log (SelectSingle roomCode) w))
               (apply_patch
                  (GameServiceMore.votes_patch
                     (<[Symbol_key sX := true]> (RoomRow.restart_votes r))) r)).
  assert (Hr1 : rooms w1 !! roomCode = Some r1) by apply after_update_rooms.
  assert (Hacc1 : row_accepted r1 = true) by (by apply row_accepted_patch_aux).
  set (w2 := after_update roomCode
               (GameServiceMore.votes_patch
                  (<[Symbol_key sO := true]> (RoomRow.restart_votes r1)))
               r1 (log (SelectSingle roomCode) w1)).
  set (r2 := update_updated_at_column (now (log (SelectSingle roomCode) w1))
               (apply_patch
                  (GameServiceMore.votes_patch
                     (<[Symbol_key sO := true]> (RoomRow.restart_votes r1))) r1)).
  assert (Hr2 : rooms w2 !! roomCode = Some r2) by apply after_update_rooms.
  assert (Hacc2 : row_accepted r2 = true) by (by apply row_accepted_patch_aux).
  assert (Hvoted : bothPlayersVotedRestart (GameService.to_GameRoom r2) = true).
  { unfold bothPlayersVotedRestart. subst r2 r1. cbn.
    rewrite lookup_insert_ne by done. rewrite !lookup_insert_eq. done. }
  assert (Heffect : ∀ p, status p = player →
            GameBoard_autoRestart (GameService.to_GameRoom r2) false (Some p)
            = GameService.resetGame roomCode (RoomRow.match_id r2)).
  { intros p Hp. unfold GameBoard_autoRestart. rewrite Hvoted.
    change (bothPlayersPresent (GameService.to_GameRoom r2))
      with (bothPlayersPresent (GameService.to_GameRoom r)).
    rewrite Hpresent, bool_decide_eq_true_2 by done. cbn [negb andb].
    by rewrite <- Hcode. }
  set (w3 := after_update roomCode
               (GameService.reset_patch (all_empty (room_size r2)) (RoomRow.match_id r2))
               r2 (log (SelectSingle roomCode) w2)).
  set (r3 := update_updated_at_column (now (log (SelectSingle roomCode) w2))
               (apply_patch
                  (GameService.reset_patch (all_empty (room_size r2)) (RoomRow.match_id r2))
                  r2)).
  assert (Hr3 : rooms w3 !! roomCode = Some r3) by apply after_update_rooms.
  exists w1, w2, r2.
  split; [by apply setRestartVote_run|].
  split; [by apply setRestartVote_run|].
  split; [exact Hr2|]. split; [exact Hvoted|].
  exists w3, (log (SelectSingle roomCode) w3), r3.
  split; [rewrite (Heffect p1 Hp1); by apply resetGame_run|].
  split; [exact Hr3|].
  split; [reflexivity|]. split; [reflexivity|]. split; [reflexivity|].
  split; [reflexivity|]. split; [reflexivity|].
  split; [|reflexivity].
  rewrite (Heffect p2 Hp2).
  apply (resetGame_stale w3 roomCode r3 _ Hr3). cbn. lia.
Qed.

Lemma restart_cycle_witness :
  ∃ w1 w2 w3 r3,
    GameServiceMore.setRestartVote "00000" sX true w_pair = (Ok tt, w1) ∧
    GameServiceMore.setRestartVote "00000" sO true w1 = (Ok tt, w2) ∧
    GameBoard_autoRestart
      (GameService.to_GameRoom
         (default row_pair (rooms w2 !! "00000"%string))) false (Some player_x) w2
    = (Ok tt, w3) ∧
    rooms w3 !! "00000"%string = Some r3 ∧
    RoomRow.match_id r3 = 1 ∧
    RoomRow.restart_votes r3 = ∅.
Proof.
  destruct (restart_cycle w_pair "00000" row_pair player_x player_o
              eq_refl eq_refl eq_refl ltac:(simpl; lia) eq_refl eq_refl eq_refl)
    as (w1 & w2 & r2 & H1 & H2 & Hr2 & _ & w3 & w4 & r3 & H3 & Hr3 & Hm & Hv & _).
  exists w1, w2, w3, r3. rewrite Hr2.
  split; [exact H1|]. split; [exact H2|]. split; [exact H3|].
  split; [exact Hr3|]. split; [exact Hm|exact Hv].
Defined.

(** ** The offline game (pages/Index.tsx) *)

Lemma ultimate_isValidMove_cell (grid : Grid) (row col : Z) (targetBoard : option Z) :
  UltimateGameLogic.isValidMove grid row col targetBoard = true →
  cell grid row col = Ok (Some sEmpty).
Proof.
  unfold UltimateGameLogic.isValidMove, cell.
  destruct (index grid row) as [gridRow|]; [|done].
  destruct (Cell_eqb _ _) eqn:Hc; [|done].
  apply Cell_eqb_eq in Hc. by rewrite Hc.
Qed.

Lemma ultimate_isValidMove_free (grid : Grid) (row col : Z) :
  UltimateGameLogic.isValidMove grid row col None = true ↔
  cell grid row col = Ok (Some sEmpty).
Proof.
  split; [apply ultimate_isValidMove_cell|].
  unfold UltimateGameLogic.isValidMove, cell.
  destruct (index grid row) as [gridRow|]; [|done].
  intros [= ->]. done.
Qed.

Lemma classic_isValidMove_cell (grid : Grid) (row col : Z) :
  ClassicGameLogic.isValidMove grid row col = true ↔ cell grid row col = Ok (Some sEmpty).
Proof.
  unfold ClassicGameLogic.isValidMove, cell.
  destruct (index grid row) as [gridRow|]; [|done].
  rewrite Cell_eqb_eq. split; [by intros ->|by intros [= ->]].
Qed.

Lemma copyGrid_id (grid : Grid) : GameUtils.copyGrid grid = grid.
Proof. unfold GameUtils.copyGrid. apply map_id. Qed.

Lemma assign_cell_place (grid : Grid) (row col : Z) (s : Symbol) :
  cell grid row col = Ok (Some sEmpty) →
  assign_cell (GameUtils.copyGrid grid) row col (Some s)
  = Ok (GameService.place grid row col s).
Proof.
  intros Hcell.
  destruct (cell_empty_lookup _ _ _ Hcell) as (Hrow & Hcol & gridRow & Hidx & Hr & Hc).
  rewrite copyGrid_id. unfold assign_cell. rewrite Hidx.
  rewrite (place_insert grid row col s gridRow Hidx Hcol).
  unfold assign_slot.
  apply lookup_lt_Some in Hc. unfold Grid, Cell in *.
  rewrite (proj2 (Z.ltb_ge col 0)) by lia.
  rewrite (proj2 (Z.ltb_lt col (Z.of_nat (length gridRow)))) by lia.
  done.
Qed.

Lemma square_place (grid : Grid) (row col : Z) (s : Symbol) :
  square grid → square (GameService.place grid row col s).
Proof.
  unfold square. intros Hsq.
  destruct (place_shape grid row col s) as [Hlen Hrows].
  apply Forall_lookup. intros i gridRow Hi.
  specialize (Hrows i). unfold Grid, Cell in *. rewrite Hi in Hrows. cbn in Hrows.
  destruct (grid !! i) as [old|] eqn:Hold; [|done].
  injection Hrows as Hrows. rewrite Hrows, Hlen.
  by apply (proj1 (Forall_lookup _ _) Hsq i).
Qed.

Lemma grid9_place (grid : Grid) (row col : Z) (s : Symbol) :
  grid9 grid → grid9 (GameService.place grid row col s).
Proof.
  unfold grid9. intros [Hlen Hall].
  destruct (place_shape grid row col s) as [Hlen' Hrows].
  split; [congruence|].
  apply Forall_lookup. intros i gridRow Hi.
  specialize (Hrows i). unfold Grid, Cell in *. rewrite Hi in Hrows. cbn in Hrows.
  destruct (grid !! i) as [old|] eqn:Hold; [|done].
  injection Hrows as Hrows. rewrite Hrows.
  by apply (proj1 (Forall_lookup _ _) Hall i).
Qed.

Lemma getTargetBoard_pure (grid : Grid) (row col : Z) (localWinners : list Winner) :
  length grid = 9%nat → 0 <= row < 9 → 0 <= col < 9 →
  ∃ t, UltimateGameLogic.getTargetBoard row col grid localWinners = Ok t.
Proof.
  intros Hlen Hrow Hcol. unfold UltimateGameLogic.getTargetBoard.
  cbn [UltimateGameLogic.getLocalCellCoords].
  destruct (negb (is_null _)); [eauto|].
  rewrite isLocalBoardFull_pure; [|done|].
  - cbn [mbind result_bind]. destruct (forallb _ _); eauto.
  - Z.to_euclidean_division_equations. lia.
Qed.

Lemma move_outcome_pure (game : OfflineGameState.t) (row col : Z) (newGrid : Grid) :
  match OfflineGameState.mode game with
  | ultimate => length newGrid = 9%nat ∧ 0 <= row < 9 ∧ 0 <= col < 9
  | classic =>
      match OfflineGameState.winLength game with
      | Some winLength => 0 <= winLength
      | None => True
      end
  end →
  ∃ o, Index.move_outcome game row col newGrid = Ok o.
Proof.
  unfold Index.move_outcome.
  destruct (OfflineGameState.mode game).
  - destruct (OfflineGameState.winLength game) as [winLength|]; [|eauto].
    intros Hwl. destruct (winLength =? 0) eqn:Hz; [eauto|].
    apply Z.eqb_neq in Hz. rewrite checkWin_scan by lia. cbn. eauto.
  - intros (Hlen & Hrow & Hcol).
    rewrite getLocalWinners_pure by done. cbn [mbind result_bind].
    rewrite checkGlobalWinner_pure. cbn [mbind result_bind].
    match goal with
    | |- ∃ o, (?d ≫= _) = _ =>
        assert (Hd : ∃ b, d = Ok b)
    end.
    { destruct (negb _); [apply checkDraw_pure|eauto]. }
    destruct Hd as [b ->]. cbn [mbind result_bind].
    destruct (getTargetBoard_pure newGrid row col
                (map (fun i => winner (first_run (local_board newGrid i) 3)) (seqZ 0 9))
                Hlen Hrow Hcol) as [t ->].
    cbn. eauto.
Qed.

Lemma currentPlayer_not_empty (grid : Grid) :
  ClassicGameLogic.getCurrentPlayer grid ≠ sEmpty.
Proof. rewrite currentPlayer_moveCount. by destruct (_ =? _). Qed.

(** A valid move of a game in progress: what [handleOfflineMove] sets. *)
Lemma handleOfflineMove_valid (game : OfflineGameState.t) (row col : Z) :
  offline_consistent game →
  OfflineGameState.isGameOver game = false →
  cell (OfflineGameState.grid game) row col = Ok (Some sEmpty) →
  match OfflineGameState.mode game with
  | classic => True
  | ultimate =>
      match number_or_null (OfflineGameState.targetBoard game) with
      | Some target => UltimateGameLogic.getLocalBoardIndex row col = target
      | None => True
      end
  end →
  ∃ game',
    Index.handleOfflineMove (Some game) row col = Ok (Some game') ∧
    OfflineGameState.grid game'
    = GameService.place (OfflineGameState.grid game) row col
        (OfflineGameState.currentSymbol game) ∧
    OfflineGameState.moveCount game' = OfflineGameState.moveCount game + 1 ∧
    OfflineGameState.currentSymbol game'
    = (if Symbol_eqb (OfflineGameState.currentSymbol game) sX then sO else sX) ∧
    OfflineGameState.lastMove game' = Some (row, col) ∧
    OfflineGameState.mode game' = OfflineGameState.mode game ∧
    OfflineGameState.gridSize game' = OfflineGameState.gridSize game ∧
    OfflineGameState.winLength game' = OfflineGameState.winLength game ∧
    offline_consistent game'.
Proof.
  intros (Hsq & Hcount & Hsym & Hmode) Hover Hcell Htarget.
  destruct (cell_empty_lookup _ _ _ Hcell) as (Hrow & Hcol & gridRow & Hidx & Hr & Hc).
  assert (Hvalid :
    match OfflineGameState.mode game with
    | classic => ClassicGameLogic.isValidMove (OfflineGameState.grid game) row col
    | ultimate =>
        UltimateGameLogic.isValidMove (OfflineGameState.grid game) row col
          (number_or_null (OfflineGameState.targetBoard game))
    end = true).
  { destruct (OfflineGameState.mode game).
    - by apply classic_isValidMove_cell.
    - destruct (number_or_null _) as [target|].
      + by apply ultimate_isValidMove_target.
      + by apply ultimate_isValidMove_free. }
  assert (Hne : OfflineGameState.currentSymbol game ≠ sEmpty).
  { rewrite Hsym. apply currentPlayer_not_empty. }
  set (newGrid := GameService.place (OfflineGameState.grid game) row col
                    (OfflineGameState.currentSymbol game)).
  assert (Hmc : GameUtils.getMoveCount newGrid
                = GameUtils.getMoveCount (OfflineGameState.grid game) + 1).
  { subst newGrid. rewrite (place_insert _ row col _ gridRow Hidx Hcol).
    by apply moveCount_insert. }
  assert (Hout : ∃ o, Index.move_outcome game row col newGrid = Ok o).
  { apply move_outcome_pure. destruct (OfflineGameState.mode game); [done|].
    destruct Hmode as [Hlen Hall].
    split; [subst newGrid; by rewrite (proj1 (place_shape _ _ _ _))|].
    apply lookup_lt_Some in Hr as Hr'. apply lookup_lt_Some in Hc as Hc'.
    pose proof (proj1 (Forall_lookup _ _) Hall _ _ Hr) as H9.
    unfold Grid, Cell in *. lia. }
  destruct Hout as [[[[[winner_ winningLine_] isDraw] newTargetBoard] newLocalWinners] Hout].
  eexists. split.
  { unfold Index.handleOfflineMove. rewrite Hover, Hvalid. cbn [negb].
    rewrite (assign_cell_place _ _ _ _ Hcell). cbn [mbind result_bind].
    fold newGrid. rewrite Hout. cbn [mbind result_bind]. reflexivity. }
  cbn. split; [done|]. split; [done|]. split; [done|]. split; [done|].
  split; [done|]. split; [done|]. split; [done|].
  unfold offline_consistent. cbn.
  split; [by apply square_place|].
  split; [lia|].
  split; [by rewrite Hsym; symmetry; apply currentPlayer_flips|].
  destruct (OfflineGameState.mode game); [done|]. by apply grid9_place.
Qed.

Lemma square_all_empty (size : Z) : square (all_empty size).
Proof.
  unfold square, all_empty. apply Forall_lookup.
  intros i row [-> _]%lookup_replicate.
  by rewrite !length_replicate.
Qed.

Lemma at_lookup (grid : Grid) (i j : Z) :
  0 <= i → 0 <= j →
  at_ grid i j = default None (grid !! Z.to_nat i ≫= (.!! Z.to_nat j)).
Proof.
  intros Hi Hj. unfold at_, index.
  rewrite (proj2 (Z.ltb_ge i 0)) by lia. unfold Grid, Cell in *.
  destruct (grid !! Z.to_nat i) as [gridRow|]; [|done].
  cbn. by rewrite (proj2 (Z.ltb_ge j 0)) by lia.
Qed.

Lemma at_negative (grid : Grid) (i j : Z) : i < 0 ∨ j < 0 → at_ grid i j = None.
Proof.
  intros Hneg. unfold at_, index.
  destruct (i <? 0) eqn:Hi; [done|]. apply Z.ltb_ge in Hi. unfold Grid, Cell in *.
  destruct (grid !! Z.to_nat i) as [gridRow|]; [|done].
  rewrite (proj2 (Z.ltb_lt j 0)) by lia. done.
Qed.

Lemma at_place (grid : Grid) (row col : Z) (s : Symbol) (i j : Z) :
  cell grid row col = Ok (Some sEmpty) →
  at_ (GameService.place grid row col s) i j
  = if bool_decide (i = row ∧ j = col) then Some s else at_ grid i j.
Proof.
  intros Hcell.
  destruct (cell_empty_lookup _ _ _ Hcell) as (Hrow & Hcol & gridRow & Hidx & Hr & Hc).
  destruct (decide (i < 0 ∨ j < 0)) as [Hneg|Hpos].
  { rewrite !at_negative by done. rewrite bool_decide_eq_false_2; [done|lia]. }
  rewrite !at_lookup by lia. rewrite place_lookup, !Z2Nat.id by lia.
  case_bool_decide as Heq.
  - destruct Heq as [-> ->]. unfold Grid, Cell in *. rewrite Hr. cbn. by rewrite Hc.
  - by destruct (grid !! Z.to_nat i ≫= _).
Qed.

Lemma fresh_game_consistent (mode : GameMode) (gridSize winLength : option Z)
    (game : OfflineGameState.t) :
  0 <= default 0 winLength →
  OfflineGameState.grid game = all_empty (Index.board_size mode gridSize) →
  OfflineGameState.moveCount game = 0 →
  OfflineGameState.currentSymbol game = sX →
  OfflineGameState.mode game = mode →
  OfflineGameState.winLength game = winLength →
  offline_consistent game.
Proof.
  intros Hwl Hg Hc Hs Hm Hw. unfold offline_consistent. rewrite Hg, Hc, Hs, Hm, Hw.
  split; [apply square_all_empty|].
  split; [symmetry; apply moveCount_all_empty|].
  split; [by rewrite currentPlayer_moveCount, moveCount_all_empty|].
  destruct mode; [by destruct winLength|].
  split; [done|]. by repeat constructor.
Qed.

Lemma game_fresh3_consistent : offline_consistent game_fresh3.
Proof. by apply (fresh_game_consistent classic None (Some 3)). Qed.

Lemma game_target0_consistent : offline_consistent game_target0.
Proof.
  unfold offline_consistent. cbn.
  split; [by repeat constructor|]. split; [done|]. split; [done|].
  split; [done|]. by repeat constructor.
Qed.

(** X24: a new offline game starts on an empty board of the chosen size
    (9 for ultimate, the grid size or 3 for classic) with X to move and
    nothing decided, in a consistent state; restarting any game of the same
    settings gives that board and that state of play again. *)
Theorem offline_game_begins (mode : GameMode) (gridSize winLength : option Z) :
  0 <= Index.board_size mode gridSize <= 4294967295 →
  0 <= default 0 winLength →
  ∃ fresh,
    Index.handleStartOfflineGame mode gridSize winLength = Ok fresh ∧
    OfflineGameState.grid fresh = all_empty (Index.board_size mode gridSize) ∧
    OfflineGameState.currentSymbol fresh = sX ∧
    OfflineGameState.moveCount fresh = 0 ∧
    OfflineGameState.isGameOver fresh = false ∧
    OfflineGameState.winner fresh = None ∧
    OfflineGameState.targetBoard fresh = None ∧
    offline_consistent fresh ∧
    ∀ game,
      OfflineGameState.mode game = mode →
      OfflineGameState.gridSize game = gridSize →
      OfflineGameState.winLength game = winLength →
      ∃ game',
        Index.handleOfflineRestart (Some game) = Ok (Some game') ∧
        OfflineGameState.grid game' = OfflineGameState.grid fresh ∧
        OfflineGameState.currentSymbol game' = sX ∧
        OfflineGameState.moveCount game' = 0 ∧
        OfflineGameState.isGameOver game' = false ∧
        OfflineGameState.winner game' = None ∧
        OfflineGameState.targetBoard game' = None ∧
        OfflineGameState.mode game' = mode ∧
        OfflineGameState.gridSize game' = gridSize ∧
        OfflineGameState.winLength game' = winLength ∧
        offline_consistent game'.
Proof.
  intros Hsize Hwl.
  assert (Hgrid : GameUtils.createEmptyGrid (Index.board_size mode gridSize)
                  = Ok (all_empty (Index.board_size mode gridSize))).
  { unfold GameUtils.createEmptyGrid, empty_matrix, array_length_ok.
    rewrite (proj2 (Z.leb_le 0 _)), (proj2 (Z.leb_le _ 4294967295)) by lia.
    reflexivity. }
  eexists. split.
  { unfold Index.handleStartOfflineGame. rewrite Hgrid. reflexivity. }
  cbn. repeat (split; [reflexivity|]).
  split; [by apply (fresh_game_consistent mode gridSize winLength)|].
  intros game Hm Hg Hw. eexists. split.
  { unfold Index.handleOfflineRestart. rewrite Hm, Hg, Hgrid. reflexivity. }
  cbn. repeat (split; [done|]).
  by apply (fresh_game_consistent mode gridSize winLength).
Qed.

Lemma offline_game_begins_witness :
  ∃ fresh,
    Index.handleStartOfflineGame classic (Some 4) (Some 3) = Ok fresh ∧
    OfflineGameState.grid fresh = all_empty 4.
Proof.
  destruct (offline_game_begins classic (Some 4) (Some 3))
    as (fresh & Hrun & Hgrid & _); [simpl; lia|simpl; lia|].
  exists fresh. split; [exact Hrun|exact Hgrid].
Defined.

(** X25: [handleOfflineMove] never faults on a consistent game, and the
    state it sets is consistent again, with the same mode and settings. *)
Theorem handleOfflineMove_preserves (game : OfflineGameState.t) (row col : Z) :
  offline_consistent game →
  ∃ game',
    Index.handleOfflineMove (Some game) row col = Ok (Some game') ∧
    offline_consistent game' ∧
    OfflineGameState.mode game' = OfflineGameState.mode game ∧
    OfflineGameState.gridSize game' = OfflineGameState.gridSize game ∧
    OfflineGameState.winLength game' = OfflineGameState.winLength game.
Proof.
  intros Hcons.
  destruct (OfflineGameState.isGameOver game) eqn:Hover.
  { exists game. unfold Index.handleOfflineMove. by rewrite Hover. }
  destruct (match OfflineGameState.mode game with
            | classic => ClassicGameLogic.isValidMove (OfflineGameState.grid game) row col
            | ultimate =>
                UltimateGameLogic.isValidMove (OfflineGameState.grid game) row col
                  (number_or_null (OfflineGameState.targetBoard game))
            end) eqn:Hvalid.
  - destruct (handleOfflineMove_valid game row col Hcons Hover)
      as (game' & Hrun & _ & _ & _ & _ & Hm & Hg & Hw & Hc').
    + destruct (OfflineGameState.mode game).
      * by apply classic_isValidMove_cell.
      * by apply ultimate_isValidMove_cell in Hvalid.
    + destruct (OfflineGameState.mode game); [done|].
      destruct (number_or_null _) as [target|]; [|done].
      by apply ultimate_isValidMove_target in Hvalid as [_ ?].
    + by exists game'.
  - exists game. unfold Index.handleOfflineMove. by rewrite Hover, Hvalid.
Qed.

Lemma handleOfflineMove_preserves_witness :
  ∃ game',
    Index.handleOfflineMove (Some game_target0) 4 4 = Ok (Some game') ∧
    offline_consistent game'.
Proof.
  destruct (handleOfflineMove_preserves game_target0 4 4 game_target0_consistent)
    as (game' & Hmove & Hcons' & _).
  exists game'. split; [exact Hmove|exact Hcons'].
Defined.

(** X26: an accepted offline move writes the symbol to move into the chosen
    cell and into no other, counts one more move, passes the turn to the other
    symbol and records the cell as the last move. *)
Theorem handleOfflineMove_effect (game : OfflineGameState.t) (row col : Z) :
  offline_consistent game →
  OfflineGameState.isGameOver game = false →
  match OfflineGameState.mode game with
  | classic => ClassicGameLogic.isValidMove (OfflineGameState.grid game) row col
  | ultimate =>
      UltimateGameLogic.isValidMove (OfflineGameState.grid game) row col
        (number_or_null (OfflineGameState.targetBoard game))
  end = true →
  ∃ game',
    Index.handleOfflineMove (Some game) row col = Ok (Some game') ∧
    (∀ i j, at_ (OfflineGameState.grid game') i j
            = if bool_decide (i = row ∧ j = col)
              then Some (OfflineGameState.currentSymbol game)
              else at_ (OfflineGameState.grid game) i j) ∧
    OfflineGameState.moveCount game' = OfflineGameState.moveCount game + 1 ∧
    OfflineGameState.currentSymbol game' ≠ OfflineGameState.currentSymbol game ∧
    (OfflineGameState.currentSymbol game' = sX ∨ OfflineGameState.currentSymbol game' = sO) ∧
    OfflineGameState.lastMove game' = Some (row, col).
Proof.
  intros Hcons Hover Hvalid.
  assert (Hcell : cell (OfflineGameState.grid game) row col = Ok (Some sEmpty)).
  { destruct (OfflineGameState.mode game).
    - by apply classic_isValidMove_cell.
    - by apply ultimate_isValidMove_cell in Hvalid. }
  destruct (handleOfflineMove_valid game row col Hcons Hover Hcell)
    as (game' & Hrun & Hgrid & Hcount & Hsym & Hlast & _).
  { destruct (OfflineGameState.mode game); [done|].
    destruct (number_or_null _) as [target|]; [|done].
    by apply ultimate_isValidMove_target in Hvalid as [_ ?]. }
  exists game'. split; [done|].
  split; [intros i j; rewrite Hgrid; by apply at_place|].
  split; [done|].
  rewrite Hsym. split; [|split; [|done]].
  - by destruct (OfflineGameState.currentSymbol game).
  - destruct (Symbol_eqb _ _); eauto.
Qed.

Lemma handleOfflineMove_effect_witness :
  ∃ game',
    Index.handleOfflineMove (Some game_fresh3) 1 1 = Ok (Some game') ∧
    at_ (OfflineGameState.grid game') 1 1 = Some sX ∧
    at_ (OfflineGameState.grid game') 0 0 = Some sEmpty ∧
    OfflineGameState.moveCount game' = 1.
Proof.
  destruct (handleOfflineMove_effect game_fresh3 1 1 game_fresh3_consistent eq_refl eq_refl)
    as (game' & Hmove & Hcells & Hcount' & _).
  exists game'. split; [exact Hmove|].
  split; [rewrite (Hcells 1 1); reflexivity|].
  split; [rewrite (Hcells 0 0); reflexivity|].
  rewrite Hcount'. reflexivity.
Defined.

(** X27: a click after the game is over, on an occupied cell or outside the
    grid changes nothing and raises nothing, in both modes. *)
Theorem handleOfflineMove_rejected (game : OfflineGameState.t) (row col : Z) :
  OfflineGameState.isGameOver game = true ∨
  cell (OfflineGameState.grid game) row col ≠ Ok (Some sEmpty) →
  Index.handleOfflineMove (Some game) row col = Ok (Some game).
Proof.
  intros Hrej. unfold Index.handleOfflineMove.
  destruct (OfflineGameState.isGameOver game); [done|].
  destruct Hrej as [|Hcell]; [done|].
  destruct (OfflineGameState.mode game).
  - destruct (ClassicGameLogic.isValidMove _ _ _) eqn:Hv; [|done].
    by apply classic_isValidMove_cell in Hv.
  - destruct (UltimateGameLogic.isValidMove _ _ _ _) eqn:Hv; [|done].
    by apply ultimate_isValidMove_cell in Hv.
Qed.

Lemma handleOfflineMove_rejected_witness :
  Index.handleOfflineMove (Some game_fresh3) 3 0 = Ok (Some game_fresh3) ∧
  Index.handleOfflineMove (Some game_target0) 0 0 = Ok (Some game_target0).
Proof.
  split; apply handleOfflineMove_rejected; right; vm_compute; discriminate.
Defined.

(** X28: when the stored target board is board 0, [handleOfflineMove]
    accepts a move into any empty cell, whatever board it lies in:
    [offlineGame.targetBoard || null] reads 0 as no restriction. *)
Theorem offline_target_zero_unrestricted (game : OfflineGameState.t) (row col : Z) :
  offline_consistent game →
  OfflineGameState.mode game = ultimate →
  OfflineGameState.isGameOver game = false →
  OfflineGameState.targetBoard game = Some 0 →
  cell (OfflineGameState.grid game) row col = Ok (Some sEmpty) →
  ∃ game',
    Index.handleOfflineMove (Some game) row col = Ok (Some game') ∧
    at_ (OfflineGameState.grid game') row col = Some (OfflineGameState.currentSymbol game) ∧
    OfflineGameState.moveCount game' = OfflineGameState.moveCount game + 1.
Proof.
  intros Hcons Hmode Hover Htarget Hcell.
  destruct (handleOfflineMove_valid game row col Hcons Hover Hcell)
    as (game' & Hrun & Hgrid & Hcount & _).
  { by rewrite Hmode, Htarget. }
  exists game'. split; [done|]. split; [|done].
  rewrite Hgrid, at_place by done. by rewrite bool_decide_eq_true_2.
Qed.

Lemma offline_target_zero_unrestricted_witness :
  Index.handleStartOfflineGame ultimate None None
    ≫= (fun game => Index.handleOfflineMove (Some game) 0 0) = Ok (Some game_target0) ∧
  UltimateGameLogic.getLocalBoardIndex 4 4 = 4 ∧
  ∃ game',
    Index.handleOfflineMove (Some game_target0) 4 4 = Ok (Some game') ∧
    at_ (OfflineGameState.grid game') 4 4 = Some sO.
Proof.
  split; [vm_compute; reflexivity|].
  split; [reflexivity|].
  destruct (offline_target_zero_unrestricted game_target0 4 4 game_target0_consistent
              eq_refl eq_refl eq_refl eq_refl) as (game' & Hmove & Hcell & _).
  exists game'. split; [exact Hmove|exact Hcell].
Defined.

(** ** The offline board (components/GameBoard.tsx over pages/Index.tsx) *)

Lemma ultimate_isValidMove_or_null (grid : Grid) (row col : Z) (targetBoard : option Z) :
  UltimateGameLogic.isValidMove grid row col targetBoard = true →
  UltimateGameLogic.isValidMove grid row col (number_or_null targetBoard) = true.
Proof.
  intros Hv. destruct targetBoard as [target|]; [|done]. cbn.
  destruct (target =? 0); [|done].
  by apply ultimate_isValidMove_free, (ultimate_isValidMove_cell _ _ _ (Some target)).
Qed.

Lemma GameBoard_state_offline
    (call_static : UltimateStatic -> Grid -> list Winner -> result (option Z))
    (game : OfflineGameState.t) (room currentRoom : GameRoom.t)
    (offlineCurrentPlayer : option PlayerSymbol) (view : option OfflineView)
    (currentPlayer : option Player) (inputBlocked : bool) :
  offline_consistent game →
  GameRoom.grid room = OfflineGameState.grid game →
  GameRoom.mode currentRoom = OfflineGameState.mode game →
  GameRoom.win_length currentRoom = number_or_null (OfflineGameState.winLength game) →
  view = None ∨
  view = Some (GameBoard_offlineGameState room offlineCurrentPlayer
                 (OfflineGameState.targetBoard game)) →
  ∃ st,
    GameBoard_state call_static room currentRoom true offlineCurrentPlayer
      (OfflineGameState.targetBoard game) view currentPlayer inputBlocked = Ok st ∧
    bs_gameGrid st = OfflineGameState.grid game ∧
    bs_mode st = OfflineGameState.mode game ∧
    bs_moveCount st = OfflineGameState.moveCount game ∧
    bs_targetBoard st = OfflineGameState.targetBoard game ∧
    bs_isMyTurn st = true.
Proof.
  intros (Hsq & Hcount & Hsym & Hmode) Hgrid Hm Hwl Hview.
  unfold GameBoard_state. cbv zeta.
  assert (Hg : (match view with Some v => ov_grid v | None => GameRoom.grid room end)
               = OfflineGameState.grid game).
  { by destruct Hview as [-> | ->]. }
  assert (Ht : nullish (view ≫= ov_targetBoard)
                 (nullish (OfflineGameState.targetBoard game) None)
               = OfflineGameState.targetBoard game).
  { destruct Hview as [-> | ->]; cbn; by destruct (OfflineGameState.targetBoard game). }
  cbn [GameBoard_targetBoard]. unfold GameBoard_targetBoard. rewrite Hg, Ht, Hm, Hwl.
  destruct (OfflineGameState.mode game).
  - assert (Hwin : ∃ r,
      match number_or_null (OfflineGameState.winLength game) with
      | Some winLength =>
          if winLength =? 0 then Ok {| winner := None; winningLine := None |}
          else ClassicGameLogic.checkWin (OfflineGameState.grid game) winLength
      | None => Ok {| winner := None; winningLine := None |}
      end = Ok r).
    { destruct (OfflineGameState.winLength game) as [winLength|]; cbn; [|eauto].
      destruct (winLength =? 0) eqn:Hz; [eauto|]. rewrite Hz.
      apply Z.eqb_neq in Hz. rewrite checkWin_scan by lia. eauto. }
    destruct Hwin as [r ->]. cbn. eexists. split; [reflexivity|]. cbn. done.
  - cbn [mbind result_bind].
    rewrite getLocalWinners_pure by apply Hmode. cbn [mbind result_bind].
    rewrite checkGlobalWinner_pure. cbn [mbind result_bind].
    match goal with
    | |- ∃ st, (?d ≫= _) = _ ∧ _ => assert (Hd : ∃ b, d = Ok b)
    end.
    { destruct (negb _); [apply checkDraw_pure|eauto]. }
    destruct Hd as [b ->]. cbn. eexists. split; [reflexivity|]. cbn. done.
Qed.

(** X29: the offline board over a consistent game renders without a fault,
    and lets a click through exactly when the rules accept the cell for the
    stored target board; whose turn it is and whether the game is over are not
    asked. While the game is not over, every click it lets through is applied
    by [handleOfflineMove]. *)
Theorem offline_click_is_applied
    (call_static : UltimateStatic -> Grid -> list Winner -> result (option Z))
    (game : OfflineGameState.t) (created updated : Timestamp)
    (room currentRoom : GameRoom.t) (view : option OfflineView)
    (currentPlayer : option Player) (inputBlocked : bool) (row col : Z) :
  offline_consistent game →
  Index.getOfflineRoom (Some game) created updated = Some room →
  GameRoom.mode currentRoom = OfflineGameState.mode game →
  GameRoom.win_length currentRoom = number_or_null (OfflineGameState.winLength game) →
  view = None ∨
  view = Some (GameBoard_offlineGameState room
                 (as_PlayerSymbol (OfflineGameState.currentSymbol game))
                 (OfflineGameState.targetBoard game)) →
  let accepted :=
    match OfflineGameState.mode game with
    | classic => ClassicGameLogic.isValidMove (OfflineGameState.grid game) row col
    | ultimate =>
        UltimateGameLogic.isValidMove (OfflineGameState.grid game) row col
          (OfflineGameState.targetBoard game)
    end in
  GameBoard_click call_static room currentRoom true
    (as_PlayerSymbol (OfflineGameState.currentSymbol game))
    (OfflineGameState.targetBoard game) view currentPlayer inputBlocked row col
  = Ok accepted ∧
  (accepted = true → OfflineGameState.isGameOver game = false →
   ∃ game',
     Index.handleOfflineMove (Some game) row col = Ok (Some game') ∧
     at_ (OfflineGameState.grid game') row col
     = Some (OfflineGameState.currentSymbol game) ∧
     OfflineGameState.moveCount game' = OfflineGameState.moveCount game + 1).
Proof.
  intros Hcons Hroom Hm Hwl Hview accepted. split.
  - assert (Hgrid : GameRoom.grid room = OfflineGameState.grid game).
    { by injection Hroom as <-. }
    destruct (GameBoard_state_offline call_static game room currentRoom _ view currentPlayer
                inputBlocked Hcons Hgrid Hm Hwl Hview)
      as (st & Hst & Hg & Hmode & _ & Ht & Hturn).
    unfold GameBoard_click. rewrite Hst. cbn [mbind result_bind].
    unfold handleCellClick_accepts. by rewrite Hturn, Hmode, Hg, Ht.
  - intros Hacc Hover. subst accepted.
    assert (Hcell : cell (OfflineGameState.grid game) row col = Ok (Some sEmpty)).
    { destruct (OfflineGameState.mode game).
      - by apply classic_isValidMove_cell.
      - by apply ultimate_isValidMove_cell in Hacc. }
    destruct (handleOfflineMove_valid game row col Hcons Hover Hcell)
      as (game' & Hrun & Hgrid & Hcount & _).
    { destruct (OfflineGameState.mode game); [done|].
      apply ultimate_isValidMove_or_null in Hacc.
      destruct (number_or_null (OfflineGameState.targetBoard game)) as [target|]; [|done].
      by apply ultimate_isValidMove_target in Hacc as [_ ?]. }
    exists game'. split; [done|]. split; [|done].
    rewrite Hgrid, at_place by done. by rewrite bool_decide_eq_true_2.
Qed.

Lemma offline_click_is_applied_witness :
  ∃ room,
    Index.getOfflineRoom (Some game_target0) 0 0 = Some room ∧
    GameBoard_click (fun _ _ _ => Throw TypeError) room room true (Some pO) (Some 0) None
      None false 1 1 = Ok true ∧
    GameBoard_click (fun _ _ _ => Throw TypeError) room room true (Some pO) (Some 0) None
      None false 4 4 = Ok false ∧
    ∃ game',
      Index.handleOfflineMove (Some game_target0) 1 1 = Ok (Some game') ∧
      at_ (OfflineGameState.grid game') 1 1 = Some sO.
Proof.
  eexists. split; [reflexivity|].
  match goal with
  | |- GameBoard_click _ ?room _ _ _ _ _ _ _ _ _ = _ ∧ _ =>
      destruct (offline_click_is_applied (fun _ _ _ => Throw TypeError) game_target0 0 0
                  room room None None false 1 1 game_target0_consistent eq_refl eq_refl
                  eq_refl (or_introl eq_refl)) as [Hclick Hmove];
      destruct (offline_click_is_applied (fun _ _ _ => Throw TypeError) game_target0 0 0
                  room room None None false 4 4 game_target0_consistent eq_refl eq_refl
                  eq_refl (or_introl eq_refl)) as [Hclick' _]
  end.
  split; [exact Hclick|]. split; [exact Hclick'|].
  destruct (Hmove eq_refl eq_refl) as (game' & Hrun & Hcell & _).
  exists game'. split; [exact Hrun|exact Hcell].
Defined.

(** ** The online board (components/GameBoard.tsx) *)

(** X30: what an online board needs before it lets a click through. The
    user is seated as a player, no move of theirs is in flight, the room is
    classic (an ultimate room never gets as far), their symbol is the one the
    move count makes next (X on even counts), the derived state says the game
    is not over, and the cell is empty. A viewer's click is never let
    through. *)
Theorem online_click_needs_turn
    (call_static : UltimateStatic -> Grid -> list Winner -> result (option Z))
    (room currentRoom : GameRoom.t) (offlineCurrentPlayer : option PlayerSymbol)
    (offlineTargetBoard : option Z) (view : option OfflineView)
    (currentPlayer : option Player) (inputBlocked : bool) (row col : Z) :
  GameBoard_click call_static room currentRoom false offlineCurrentPlayer
    offlineTargetBoard view currentPlayer inputBlocked row col = Ok true →
  ∃ p st,
    currentPlayer = Some p ∧
    status p = player ∧
    inputBlocked = false ∧
    GameRoom.mode currentRoom = classic ∧
    symbol p = (if Z.rem (GameUtils.getMoveCount (GameRoom.grid currentRoom)) 2 =? 0
                then pX else pO) ∧
    GameBoard_state call_static room currentRoom false offlineCurrentPlayer
      offlineTargetBoard view currentPlayer inputBlocked = Ok st ∧
    bs_isGameOver st = false ∧
    bs_winner st = None ∧
    cell (GameRoom.grid currentRoom) row col = Ok (Some sEmpty).
Proof.
  intros Hclick. unfold GameBoard_click in Hclick.
  apply rbind_Ok in Hclick as (st & Hst & Hacc). injection Hacc as Hacc.
  pose proof Hst as Hstate.
  unfold GameBoard_state in Hst. cbv zeta in Hst.
  destruct (GameRoom.mode currentRoom) eqn:Hmode.
  - apply rbind_Ok in Hst as (classicWin & Hwin & Hst). cbn in Hst.
    injection Hst as <-.
    unfold handleCellClick_accepts in Hacc. cbn in Hacc.
    destruct currentPlayer as [p|]; [|done].
    destruct (bool_decide (status p = player)) eqn:Hstatus; [|done].
    destruct (bool_decide (Some (symbol p) = _)) eqn:Hsymbol; [|done].
    destruct inputBlocked; [done|].
    cbn in Hacc.
    destruct (bool_decide (winner classicWin ≠ None) || _) eqn:Hover; [done|].
    cbn in Hacc.
    apply bool_decide_eq_true_1 in Hstatus, Hsymbol. injection Hsymbol as Hsymbol.
    apply orb_false_elim in Hover as [Hwinner Hdraw].
    apply bool_decide_eq_false_1 in Hwinner.
    eexists p, _. split; [done|]. split; [done|]. split; [done|]. split; [done|].
    split; [done|]. split; [exact Hstate|]. cbn.
    split; [done|].
    split; [by destruct (winner classicWin) as [s|]; [destruct Hwinner|]|].
    by apply classic_isValidMove_cell.
  - apply rbind_Ok in Hst as (classicWin & _ & Hst).
    apply rbind_Ok in Hst as (localWinners & _ & Hst).
    apply rbind_Ok in Hst as (ultimateGlobal & _ & Hst).
    apply rbind_Ok in Hst as (ultimateDraw & _ & Hst).
    apply rbind_Ok in Hst as (targetBoard & Htarget & _).
    unfold GameBoard_targetBoard, call_UltimateGameLogic in Htarget.
    by rewrite getTargetBoardFromGrid_undefined in Htarget.
Qed.

Lemma online_click_needs_turn_witness :
  GameBoard_click (fun _ _ _ => Throw TypeError) room_classic3 room_classic3 false None None
    None (Some player_x) false 1 1 = Ok true ∧
  ∃ p, Some player_x = Some p ∧ status p = player ∧ symbol p = pX.
Proof.
  assert (Hclick : GameBoard_click (fun _ _ _ => Throw TypeError) room_classic3
                     room_classic3 false None None None (Some player_x) false 1 1
                   = Ok true) by (vm_compute; reflexivity).
  split; [exact Hclick|].
  destruct (online_click_needs_turn _ _ _ _ _ _ _ _ _ _ Hclick)
    as (p & st & Hp & Hstatus & _ & _ & Hsymbol & _).
  exists p. split; [exact Hp|]. split; [exact Hstatus|exact Hsymbol].
Defined.
